(** * qry: request-management storage layer

    A shallow embedding of [server/storage/database.ts] (class
    [DatabaseStorage]) and of [initializeStorage] /
    [setupGoogleCloudCredentials] from [server/storage.ts], together with
    the properties of the status lifecycle, the change diff, the user
    bootstrap, the list queries, the error policy and the storage-backend
    selection.

    The relational store, the clock and the process environment are the
    collaborators of the code; they are modelled as explicit state that
    every operation threads, with an error channel for rejected promises.
    Console output of the repository methods is left out. *)

From Stdlib Require Import List String Ascii ZArith Bool Lia.
From Stdlib Require Import Sorting.Sorted Sorting.Permutation Relations.
From Stdlib Require Import DecimalString.
Import ListNotations.
Open Scope string_scope.
Open Scope Z_scope.

Set Implicit Arguments.
Set Warnings "-register-all".

(* ================================================================== *)
(** * JavaScript values and errors *)
(* ================================================================== *)

Module Js.

(** A scalar column or payload property: absent, SQL NULL, or text. *)
Inductive Val : Type :=
| undefined
| null
| str (s : string).

Definition Val_eq_dec (a b : Val) : {a = b} + {a <> b}.
Proof. decide equality. apply string_dec. Defined.

(** [a !== b] on scalar values. *)
Definition strict_neq (a b : Val) : bool :=
  if Val_eq_dec a b then false else true.

(** [String(v)]. *)
Definition String_ (v : Val) : string :=
  match v with
  | undefined => "undefined"
  | null => "null"
  | str s => s
  end.

(** Template-literal rendering of an integral number, [`${id}`]. *)
Definition numToString (n : Z) : string :=
  NilZero.string_of_int (Z.to_int n).

(** What a rejected promise carries.  [Error] and [TypeError] are
    [instanceof Error]; [Thrown] stands for any other thrown value. *)
Inductive Exn : Type :=
| Error (message : string)
| TypeError (message : string)
| Thrown (what : string).

Definition instanceofError (e : Exn) : bool :=
  match e with
  | Error _ | TypeError _ => true
  | Thrown _ => false
  end.

(** [Array.prototype.includes] on an array of strings. *)
Fixpoint includes (l : list string) (x : string) : bool :=
  match l with
  | [] => false
  | y :: l' => if String.eqb y x then true else includes l' x
  end.

(** The own and inherited string-keyed properties of [Object.prototype];
    a bracket lookup on an object literal finds them through the
    prototype chain. *)
Definition objectPrototypeKeys : list string :=
  [ "constructor"; "hasOwnProperty"; "isPrototypeOf";
    "propertyIsEnumerable"; "toLocaleString"; "toString"; "valueOf";
    "__proto__"; "__defineGetter__"; "__defineSetter__";
    "__lookupGetter__"; "__lookupSetter__" ].

(** Result of [obj[key]] on an object literal whose own properties are
    string arrays: an own array, a member inherited from
    [Object.prototype] (a function, or the prototype object itself for
    ["__proto__"]), or [undefined]. *)
Inductive Prop_ : Type :=
| Own (arr : list string)
| Inherited
| Missing.

Fixpoint assoc (own : list (string * list string)) (key : string)
  : option (list string) :=
  match own with
  | [] => None
  | (k, v) :: own' => if String.eqb k key then Some v else assoc own' key
  end.

Definition getProp (own : list (string * list string)) (key : string)
  : Prop_ :=
  match assoc own key with
  | Some arr => Own arr
  | None => if includes objectPrototypeKeys key then Inherited else Missing
  end.

(** ** JSON values and [JSON.stringify] *)

Inductive Json : Type :=
| JNull
| JBool (b : bool)
| JString (s : string)
| JArray (items : list Json)
| JObject (members : list (string * Json)).

Definition hexDigit (n : N) : ascii :=
  match n with
  | 0 => "0" | 1 => "1" | 2 => "2" | 3 => "3" | 4 => "4" | 5 => "5"
  | 6 => "6" | 7 => "7" | 8 => "8" | 9 => "9" | 10 => "a" | 11 => "b"
  | 12 => "c" | 13 => "d" | 14 => "e" | _ => "f"
  end%N%char.

Definition dquote : string := String (ascii_of_N 34) EmptyString.

(** QuoteJSONString on one code unit. *)
Definition escapeChar (c : ascii) : string :=
  let n := N_of_ascii c in
  if (n =? 34)%N then "\" ++ dquote
  else if (n =? 92)%N then "\\"
  else if (n =? 8)%N then "\b"
  else if (n =? 12)%N then "\f"
  else if (n =? 10)%N then "\n"
  else if (n =? 13)%N then "\r"
  else if (n =? 9)%N then "\t"
  else if (n <? 32)%N then
    "\u00" ++ String (hexDigit (n / 16)) (String (hexDigit (n mod 16)) EmptyString)
  else String c EmptyString.

Fixpoint escape (s : string) : string :=
  match s with
  | EmptyString => EmptyString
  | String c s' => escapeChar c ++ escape s'
  end.

Definition quote (s : string) : string :=
  dquote ++ escape s ++ dquote.

Fixpoint stringify (j : Json) : string :=
  match j with
  | JNull => "null"
  | JBool true => "true"
  | JBool false => "false"
  | JString s => quote s
  | JArray items =>
      "[" ++
      (fix elems (l : list Json) : string :=
         match l with
         | [] => EmptyString
         | [x] => stringify x
         | x :: l' => stringify x ++ "," ++ elems l'
         end) items ++ "]"
  | JObject members =>
      "{" ++
      (fix props (l : list (string * Json)) : string :=
         match l with
         | [] => EmptyString
         | [(k, v)] => quote k ++ ":" ++ stringify v
         | (k, v) :: l' => quote k ++ ":" ++ stringify v ++ "," ++ props l'
         end) members ++ "}"
  end.

End Js.

(* ================================================================== *)
(** * Rows of the relational schema *)
(* ================================================================== *)

Definition Time := Z.

(** Modelled from the spec: the table and type declarations of
    [@shared/schema] are not under src/.  The columns below are the
    attributes of section 3 and the properties the code reads or writes. *)
Module User.
Record t : Type := mk {
  id : Z;
  username : string;
  email : string;
  password : string;
  isAdmin : bool;
  isApproved : bool;
  approvalFeedback : option string;
  registrationDate : Time
}.
End User.

(** A registration payload.  The static type is [InsertUser]; the runtime
    object may carry [isAdmin] / [isApproved] properties of its own, which
    the spread in [createUser] copies before the explicit keys. *)
Module InsertUser.
Record t : Type := mk {
  username : string;
  email : string;
  password : string;
  isAdmin : option bool;
  isApproved : option bool;
  approvalFeedback : option string
}.
End InsertUser.

(** One entry of the change list, [{ field, from, to }].  [from] is
    always text; [to] is text, or [undefined] ([None]) in the entry for
    [corrections] when the payload has none: [JSON.stringify(undefined)]
    is [undefined]. *)
Module Change.
Record t : Type := mk {
  field : string;
  from : string;
  to : option string
}.
End Change.

(** Modelled from the spec: [CaseRequest] and [ExtensionRequest] of
    [@shared/schema] are not under src/; section 3 gives both kinds the
    same attributes, so one row type serves the two tables.  A nullable
    column is an [option]; the tracked scalar columns hold text or NULL. *)
Module Request.
Record t : Type := mk {
  id : Z;
  userId : Z;
  type : Js.Val;
  sadNumber : Js.Val;
  sadDate : Js.Val;
  declarantCompany : Js.Val;
  declarantName : Js.Val;
  documentHolder : Js.Val;
  documentHolderPhone : Js.Val;
  reason : Js.Val;
  corrections : Js.Json;
  status : string;
  adminFeedback : option string;
  isResubmission : bool;
  originalRequestId : option Z;
  changes : option (list Change.t);
  hiddenBy : option (list Z);
  isArchived : bool;
  createdAt : Time;
  updatedAt : Time;
  receivedAt : option Time;
  completedAt : option Time
}.
End Request.

Definition CaseRequest := Request.t.
Definition ExtensionRequest := Request.t.

(** [InsertCaseRequest & { userId: number, originalRequestId?: number }].
    A tracked property that the object lacks is [Js.undefined]; its
    [corrections] are [None] when it has none. *)
Module InsertCaseRequest.
Record t : Type := mk {
  userId : Z;
  originalRequestId : option Z;
  sadNumber : Js.Val;
  sadDate : Js.Val;
  declarantCompany : Js.Val;
  declarantName : Js.Val;
  documentHolder : Js.Val;
  documentHolderPhone : Js.Val;
  reason : Js.Val;
  corrections : option Js.Json
}.
End InsertCaseRequest.

(** [InsertExtensionRequest & { userId: number; status: string }].  A
    property that the object lacks is [Js.undefined]. *)
Module InsertExtensionRequest.
Record t : Type := mk {
  userId : Z;
  status : string;
  sadNumber : Js.Val;
  sadDate : Js.Val;
  declarantCompany : Js.Val;
  declarantName : Js.Val;
  documentHolder : Js.Val;
  documentHolderPhone : Js.Val;
  reason : Js.Val
}.
End InsertExtensionRequest.

(** The argument of [.set({...})] on a request table.  A key that is
    absent or [undefined] leaves its column untouched: [None]. *)
Module RequestSet.
Record t : Type := mk {
  status : option string;
  adminFeedback : option string;
  updatedAt : option Time;
  completedAt : option Time;
  receivedAt : option Time;
  hiddenBy : option (list Z);
  isArchived : option bool
}.

Definition orElse {A} (o : option A) (d : A) : A :=
  match o with Some a => a | None => d end.

Definition orKeep {A} (o : option A) (d : option A) : option A :=
  match o with Some a => Some a | None => d end.

Definition apply (p : t) (r : Request.t) : Request.t :=
  Request.mk (Request.id r) (Request.userId r) (Request.type r)
    (Request.sadNumber r) (Request.sadDate r)
    (Request.declarantCompany r) (Request.declarantName r)
    (Request.documentHolder r) (Request.documentHolderPhone r)
    (Request.reason r) (Request.corrections r)
    (orElse (status p) (Request.status r))
    (orKeep (adminFeedback p) (Request.adminFeedback r))
    (Request.isResubmission r) (Request.originalRequestId r)
    (Request.changes r)
    (orKeep (hiddenBy p) (Request.hiddenBy r))
    (orElse (isArchived p) (Request.isArchived r))
    (Request.createdAt r)
    (orElse (updatedAt p) (Request.updatedAt r))
    (orKeep (receivedAt p) (Request.receivedAt r))
    (orKeep (completedAt p) (Request.completedAt r)).
End RequestSet.

(** The argument of [.set({...})] on the users table ([Partial<User>]). *)
Module UserSet.
Record t : Type := mk {
  username : option string;
  email : option string;
  password : option string;
  isAdmin : option bool;
  isApproved : option bool;
  approvalFeedback : option string
}.

Definition apply (p : t) (u : User.t) : User.t :=
  User.mk (User.id u)
    (RequestSet.orElse (username p) (User.username u))
    (RequestSet.orElse (email p) (User.email u))
    (RequestSet.orElse (password p) (User.password u))
    (RequestSet.orElse (isAdmin p) (User.isAdmin u))
    (RequestSet.orElse (isApproved p) (User.isApproved u))
    (RequestSet.orKeep (approvalFeedback p) (User.approvalFeedback u))
    (User.registrationDate u).
End UserSet.

(** How an awaited call settles: fulfilled with a value, or rejected. *)
Inductive Outcome (A : Type) : Type :=
| Ok (a : A)
| Throw (e : Js.Exn).
Arguments Ok {A} a.
Arguments Throw {A} e.

(* ================================================================== *)
(** * The relational store, the clock and the promise monad *)
(* ================================================================== *)

Module Db.

(** A table: its rows in heap order and the next value of its serial
    primary key. *)
Record Table (R : Type) : Type := mkTable {
  rows : list R;
  serial : Z
}.

Record Store : Type := mkStore {
  usersT : Table User.t;
  caseRequestsT : Table Request.t;
  extensionRequestsT : Table Request.t
}.

(** The world an operation runs in.  [ticks] is how much the clock moves
    after each reading of [new Date()]; [faults] says, for each coming
    call to the backing store, whether it is rejected and with what;
    [jsonb] is the value a jsonb column of the store gives back for a
    value written to it (the store keeps the members of an object in an
    order of its own). *)
Record World : Type := mkWorld {
  store : Store;
  clock : Time;
  ticks : list N;
  faults : list (option Js.Exn);
  jsonb : Js.Json -> Js.Json
}.

(** An async function body: state passing with rejection. *)
Definition M (A : Type) : Type := World -> Outcome A * World.

Definition ret {A} (a : A) : M A := fun w => (Ok a, w).

Definition throw {A} (e : Js.Exn) : M A := fun w => (Throw e, w).

Definition bind {A B} (m : M A) (k : A -> M B) : M B :=
  fun w =>
    match m w with
    | (Ok a, w') => k a w'
    | (Throw e, w') => (Throw e, w')
    end.

(** [try { body } catch (error) { handler }]. *)
Definition tryCatch {A} (body : M A) (handler : Js.Exn -> M A) : M A :=
  fun w =>
    match body w with
    | (Ok a, w') => (Ok a, w')
    | (Throw e, w') => handler e w'
    end.

(** The world once the clock has been read. *)
Definition ticked (w : World) : World :=
  mkWorld (store w) (clock w + Z.of_N (hd 0%N (ticks w))) (tl (ticks w))
    (faults w) (jsonb w).

(** [new Date()]: reads the clock, which then moves by the next tick. *)
Definition newDate : M Time :=
  fun w => (Ok (clock w), ticked w).

(** What the coming call to the store is rejected with, if it is. *)
Definition nextFault (w : World) : option Js.Exn :=
  match faults w with
  | Some e :: _ => Some e
  | _ => None
  end.

(** The world once a call has settled, leaving the store as [s]. *)
Definition settled (w : World) (s : Store) : World :=
  mkWorld s (clock w) (ticks w) (tl (faults w)) (jsonb w).

(** One awaited round trip to the store: rejected when the next entry of
    [faults] says so, served otherwise. *)
Definition call {A} (run : Store -> A * Store) : M A :=
  fun w =>
    match nextFault w with
    | Some e => (Throw e, settled w (store w))
    | None => (Ok (fst (run (store w))), settled w (snd (run (store w))))
    end.

(** A table object of the schema ([users], [caseRequests],
    [extensionRequests]): where its rows live in the store and how the
    serial key is written into a fresh row. *)
Record TableRef (R : Type) : Type := mkRef {
  get : Store -> Table R;
  put : Table R -> Store -> Store;
  withId : Z -> R -> R
}.

(** ** Query builders *)

(** The configuration a [select] builder of drizzle-orm accumulates.
    Each builder method assigns its own slot ([where] stores its argument
    as the [where] of the configuration): a second [.where(...)] replaces
    the condition of the first, it does not conjoin with it. *)
Record Select (R : Type) : Type := mkSelect {
  table : TableRef R;
  whereC : option (R -> bool);
  orderC : option (R -> R -> bool);
  limitC : option nat
}.

Definition select_from {R} (t : TableRef R) : Select R :=
  mkSelect t None None None.

Definition where_ {R} (c : R -> bool) (q : Select R) : Select R :=
  mkSelect (table q) (Some c) (orderC q) (limitC q).

Definition orderBy {R} (o : R -> R -> bool) (q : Select R) : Select R :=
  mkSelect (table q) (whereC q) (Some o) (limitC q).

Definition limit {R} (n : nat) (q : Select R) : Select R :=
  mkSelect (table q) (whereC q) (orderC q) (Some n).

(** [desc(column)]: [a] may stand before [b] when its key is not smaller. *)
Definition desc {R} (key : R -> Time) : R -> R -> bool :=
  fun a b => key b <=? key a.

Fixpoint insertBy {R} (o : R -> R -> bool) (x : R) (l : list R) : list R :=
  match l with
  | [] => [x]
  | y :: l' => if o x y then x :: y :: l' else y :: insertBy o x l'
  end.

(** ORDER BY, as a stable insertion sort. *)
Fixpoint sortBy {R} (o : R -> R -> bool) (l : list R) : list R :=
  match l with
  | [] => []
  | x :: l' => insertBy o x (sortBy o l')
  end.

(** The rows a query answers.  SQL fixes the order of an answer only
    under ORDER BY (and there only between rows with different keys);
    without it the rows come here in table order, with an updated row at
    its old place.  The store is free to answer them in another order, so
    what is proved below of an answer without ORDER BY is proved of its
    members, not of their order, unless the condition selects by key. *)
Definition evalSelect {R} (q : Select R) (s : Store) : list R :=
  let all := rows (get (table q) s) in
  let kept := match whereC q with Some c => filter c all | None => all end in
  let sorted := match orderC q with Some o => sortBy o kept | None => kept end in
  match limitC q with Some n => firstn n sorted | None => sorted end.

(** [await db.select().from(t)...]. *)
Definition select {R} (q : Select R) : M (list R) :=
  call (fun s => (evalSelect q s, s)).

(** [await db.insert(t).values(v).returning()]. *)
Definition insert_returning {R} (t : TableRef R) (v : R) : M (list R) :=
  call (fun s =>
    let tb := get t s in
    let row := withId t (serial tb) v in
    ([row], put t (mkTable (rows tb ++ [row]) (serial tb + 1)) s)).

Fixpoint updateRows {R} (c : R -> bool) (f : R -> R) (l : list R)
  : list R * list R :=
  match l with
  | [] => ([], [])
  | r :: l' =>
      let (changed, l'') := updateRows c f l' in
      if c r then (f r :: changed, f r :: l'') else (changed, r :: l'')
  end.

(** [await db.update(t).set(v).where(c).returning()]: the updated rows. *)
Definition update_returning {R} (t : TableRef R) (f : R -> R)
  (c : R -> bool) : M (list R) :=
  call (fun s =>
    let tb := get t s in
    let (changed, l) := updateRows c f (rows tb) in
    (changed, put t (mkTable l (serial tb)) s)).

(** [await db.update(t).set(v).where(c)]. *)
Definition update {R} (t : TableRef R) (f : R -> R) (c : R -> bool)
  : M unit :=
  bind (update_returning t f c) (fun _ => ret tt).

(** [await db.delete(t).where(c)]. *)
Definition delete {R} (t : TableRef R) (c : R -> bool) : M unit :=
  call (fun s =>
    let tb := get t s in
    (tt, put t (mkTable (filter (fun r => negb (c r)) (rows tb)) (serial tb)) s)).

(** ** What a column holds for a value written to it *)

(** A text column, for a property of the values object: a property that
    is [undefined] is left out of the INSERT, the column holds NULL and
    the row comes back with [null]. *)
Definition textColumn (v : Js.Val) : Js.Val :=
  match v with
  | Js.undefined => Js.null
  | _ => v
  end.

(** A jsonb column, for a property of the values object that may be
    missing: NULL when it is, and otherwise the value as the jsonb type
    of the store gives it back. *)
Definition jsonbColumn (back : Js.Json -> Js.Json) (v : option Js.Json)
  : Js.Json :=
  match v with
  | Some j => back j
  | None => Js.JNull
  end.

(** Runs [m] on the way the store gives jsonb values back. *)
Definition withJsonb {A} (m : (Js.Json -> Js.Json) -> M A) : M A :=
  fun w => m (jsonb w) w.

(** Modelled from the spec: the column defaults of the request tables are
    declared in [@shared/schema], which is not under src/.  Section 3:
    [hiddenBy] is a set of user ids that only ever grows, [isArchived] is
    a one-way flag (false to true only), [adminFeedback] is optional, and
    [receivedAt] and [completedAt] are set when entering "pending" and
    "complete".  So a row takes, for the columns its values object leaves
    out: hidden by nobody, not archived, and no feedback or stamps;
    [originalRequestId] and [changes] are nullable. *)
Module Defaults.
Definition hiddenBy : option (list Z) := Some [].
Definition isArchived : bool := false.
Definition adminFeedback : option string := None.
Definition receivedAt : option Time := None.
Definition completedAt : option Time := None.
(** An extension request is written without the columns of a
    resubmission: it is none, and has no original and no change list. *)
Definition isResubmission : bool := false.
Definition originalRequestId : option Z := None.
Definition changes : option (list Change.t) := None.
End Defaults.

(** ** The three tables *)

Definition setUserId (i : Z) (u : User.t) : User.t :=
  User.mk i (User.username u) (User.email u) (User.password u)
    (User.isAdmin u) (User.isApproved u) (User.approvalFeedback u)
    (User.registrationDate u).

Definition setRequestId (i : Z) (r : Request.t) : Request.t :=
  Request.mk i (Request.userId r) (Request.type r)
    (Request.sadNumber r) (Request.sadDate r)
    (Request.declarantCompany r) (Request.declarantName r)
    (Request.documentHolder r) (Request.documentHolderPhone r)
    (Request.reason r) (Request.corrections r) (Request.status r)
    (Request.adminFeedback r) (Request.isResubmission r)
    (Request.originalRequestId r) (Request.changes r)
    (Request.hiddenBy r) (Request.isArchived r) (Request.createdAt r)
    (Request.updatedAt r) (Request.receivedAt r) (Request.completedAt r).

Definition users : TableRef User.t :=
  mkRef usersT
    (fun t s => mkStore t (caseRequestsT s) (extensionRequestsT s))
    setUserId.

Definition caseRequests : TableRef Request.t :=
  mkRef caseRequestsT
    (fun t s => mkStore (usersT s) t (extensionRequestsT s))
    setRequestId.

Definition extensionRequests : TableRef Request.t :=
  mkRef extensionRequestsT
    (fun t s => mkStore (usersT s) (caseRequestsT s) t)
    setRequestId.

End Db.

Notation "x <- m ;; k" := (Db.bind m (fun x => k))
  (at level 61, m at next level, right associativity).
Notation "q |> f" := (f q) (at level 59, left associativity, only parsing).

(* ================================================================== *)
(** * [DatabaseStorage] (server/storage/database.ts) *)
(* ================================================================== *)

Module DatabaseStorage.
Import Db.

(** [eq(column, value)] for the column types in use. *)
Definition eqZ {R} (col : R -> Z) (v : Z) : R -> bool :=
  fun r => col r =? v.

Definition eqB {R} (col : R -> bool) (v : bool) : R -> bool :=
  fun r => Bool.eqb (col r) v.

Definition eqS {R} (col : R -> string) (v : string) : R -> bool :=
  fun r => String.eqb (col r) v.

(** [const [x] = rows]. *)
Definition first {R} (l : list R) : option R := hd_error l.

(** Truthiness of an optional number: [undefined] and [0] are falsy. *)
Definition truthy (n : option Z) : bool :=
  match n with
  | Some v => negb (v =? 0)
  | None => false
  end.

(** ** User operations *)

Definition getUser (id : Z) : M (option User.t) :=
  tryCatch
    (l <- select (select_from users |> where_ (eqZ User.id id));;
     ret (first l))
    (fun error => ret None).

Definition getUserByUsername (username : string) : M (option User.t) :=
  tryCatch
    (l <- select (select_from users |> where_ (eqS User.username username));;
     ret (first l))
    (fun error => ret None).

Definition getUserByEmail (email : string) : M (option User.t) :=
  tryCatch
    (l <- select (select_from users |> where_ (eqS User.email email));;
     ret (first l))
    (fun error => ret None).

(** The row an insert into [users] stores for a values object: a column
    the object leaves out takes its default ([false] for the two flags). *)
Definition userValues (v : InsertUser.t) (registrationDate : Time) : User.t :=
  User.mk 0 (InsertUser.username v) (InsertUser.email v)
    (InsertUser.password v)
    (RequestSet.orElse (InsertUser.isAdmin v) false)
    (RequestSet.orElse (InsertUser.isApproved v) false)
    (InsertUser.approvalFeedback v)
    registrationDate.

Definition createUser (insertUser : InsertUser.t) : M (option User.t) :=
  existingUsers <- select (select_from users);;
  let isFirstUser := Nat.eqb (List.length existingUsers) 0 in
  now <- newDate;;
  l <- insert_returning users
         (userValues
            (* { ...insertUser, isAdmin: isFirstUser, isApproved: isFirstUser } *)
            (InsertUser.mk (InsertUser.username insertUser)
               (InsertUser.email insertUser)
               (InsertUser.password insertUser)
               (Some isFirstUser)
               (Some isFirstUser)
               (InsertUser.approvalFeedback insertUser))
            now);;
  ret (first l).

Definition updateUser (id : Z) (updates : UserSet.t) : M (option User.t) :=
  l <- update_returning users (UserSet.apply updates) (eqZ User.id id);;
  ret (first l).

Definition getPendingUsers : M (list User.t) :=
  select (select_from users |> where_ (eqB User.isApproved false)).

Definition getApprovedUsers : M (list User.t) :=
  select (select_from users |> where_ (eqB User.isApproved true)
                            |> orderBy (desc User.registrationDate)).

Definition approveUser (id : Z) : M (option User.t) :=
  l <- update_returning users
         (UserSet.apply (UserSet.mk None None None None (Some true) None))
         (eqZ User.id id);;
  ret (first l).

Definition rejectUser (id : Z) (feedback : string) : M (option User.t) :=
  l <- update_returning users
         (UserSet.apply
            (UserSet.mk None None None None (Some false) (Some feedback)))
         (eqZ User.id id);;
  ret (first l).

Definition removeUser (id : Z) : M unit :=
  delete users (eqZ User.id id).

(** ** The change diff of a resubmission (createCaseRequest, lines 144-164) *)

Definition fieldsToCompare : list string :=
  [ "sadNumber"; "sadDate"; "declarantCompany"; "declarantName";
    "documentHolder"; "documentHolderPhone"; "reason" ].

(** [original[field]] on a stored row. *)
Definition originalField (original : Request.t) (field : string) : Js.Val :=
  if String.eqb field "sadNumber" then Request.sadNumber original
  else if String.eqb field "sadDate" then Request.sadDate original
  else if String.eqb field "declarantCompany" then Request.declarantCompany original
  else if String.eqb field "declarantName" then Request.declarantName original
  else if String.eqb field "documentHolder" then Request.documentHolder original
  else if String.eqb field "documentHolderPhone" then Request.documentHolderPhone original
  else if String.eqb field "reason" then Request.reason original
  else Js.undefined.

(** [(request as any)[field]] on the payload. *)
Definition requestField (request : InsertCaseRequest.t) (field : string) : Js.Val :=
  if String.eqb field "sadNumber" then InsertCaseRequest.sadNumber request
  else if String.eqb field "sadDate" then InsertCaseRequest.sadDate request
  else if String.eqb field "declarantCompany" then InsertCaseRequest.declarantCompany request
  else if String.eqb field "declarantName" then InsertCaseRequest.declarantName request
  else if String.eqb field "documentHolder" then InsertCaseRequest.documentHolder request
  else if String.eqb field "documentHolderPhone" then InsertCaseRequest.documentHolderPhone request
  else if String.eqb field "reason" then InsertCaseRequest.reason request
  else Js.undefined.

(** [JSON.stringify(v)] on a value that may be [undefined], for which it
    returns [undefined]. *)
Definition stringifyOpt (v : option Js.Json) : option string :=
  option_map Js.stringify v.

(** [a !== b] where [a] is text and [b] is text or [undefined]. *)
Definition neqText (a : string) (b : option string) : bool :=
  match b with
  | Some s => negb (String.eqb a s)
  | None => true
  end.

Definition computeDiff (original : Request.t) (request : InsertCaseRequest.t)
  : list Change.t :=
  let changes :=
    map (fun field =>
           Change.mk field
             (Js.String_ (originalField original field))
             (Some (Js.String_ (requestField request field))))
        (filter (fun field =>
                   Js.strict_neq (originalField original field)
                                 (requestField request field))
                fieldsToCompare) in
  if neqText (Js.stringify (Request.corrections original))
             (stringifyOpt (InsertCaseRequest.corrections request))
  then changes ++
       [ Change.mk "corrections"
           (Js.stringify (Request.corrections original))
           (stringifyOpt (InsertCaseRequest.corrections request)) ]
  else changes.

(** [changes.length > 0 ? changes : null]. *)
Definition changesOrNull (changes : list Change.t) : option (list Change.t) :=
  if Nat.ltb 0 (List.length changes) then Some changes else None.

(** ** Case request operations *)

Definition getCaseRequest (id : Z) : M (option CaseRequest) :=
  tryCatch
    (l <- select (select_from caseRequests |> where_ (eqZ Request.id id));;
     ret (first l))
    (fun error => ret None).

(** The row [caseRequests] holds for the values object of
    [createCaseRequest], [{ ...request, type, isResubmission,
    originalRequestId, changes, status, createdAt, updatedAt }], before
    its key is issued: the payload columns as the store gives them back,
    the columns the object leaves out at their defaults. *)
Definition caseRequestValues (request : InsertCaseRequest.t)
  (changes : list Change.t) (now : Time) (back : Js.Json -> Js.Json)
  : Request.t :=
  Request.mk 0
    (InsertCaseRequest.userId request)
    (Js.str "case")
    (textColumn (InsertCaseRequest.sadNumber request))
    (textColumn (InsertCaseRequest.sadDate request))
    (textColumn (InsertCaseRequest.declarantCompany request))
    (textColumn (InsertCaseRequest.declarantName request))
    (textColumn (InsertCaseRequest.documentHolder request))
    (textColumn (InsertCaseRequest.documentHolderPhone request))
    (textColumn (InsertCaseRequest.reason request))
    (jsonbColumn back (InsertCaseRequest.corrections request))
    (if truthy (InsertCaseRequest.originalRequestId request)
     then "resubmitted" else "submitted")
    Defaults.adminFeedback
    (truthy (InsertCaseRequest.originalRequestId request))
    (InsertCaseRequest.originalRequestId request)
    (changesOrNull changes)
    Defaults.hiddenBy
    Defaults.isArchived
    now
    now
    Defaults.receivedAt
    Defaults.completedAt.

Definition createCaseRequest (request : InsertCaseRequest.t)
  : M (option CaseRequest) :=
  now <- newDate;;
  changes <-
    (if truthy (InsertCaseRequest.originalRequestId request) then
       originalRequest <-
         select (select_from caseRequests
                 |> where_ (fun r =>
                      match InsertCaseRequest.originalRequestId request with
                      | Some o => Request.id r =? o
                      | None => false
                      end)
                 |> limit 1);;
       match originalRequest with
       | original :: _ => ret (computeDiff original request)
       | [] => ret []
       end
     else ret []);;
  l <- withJsonb (fun back =>
         insert_returning caseRequests
           (caseRequestValues request changes now back));;
  ret (first l).

(** [NOT hiddenBy::jsonb @> '[userId]'::jsonb]; NULL is not true. *)
Definition notHiddenBy (userId : Z) (r : Request.t) : bool :=
  match Request.hiddenBy r with
  | Some l => negb (existsb (Z.eqb userId) l)
  | None => false
  end.

Definition getCaseRequestsByUser (userId : Z) : M (list CaseRequest) :=
  tryCatch
    (requests <-
       select (select_from caseRequests
               |> where_ (eqZ Request.userId userId)
               |> where_ (notHiddenBy userId)
               |> where_ (eqB Request.isArchived false)
               |> orderBy (desc Request.createdAt));;
     ret requests)
    (fun error => ret []).

Definition getAllCaseRequests : M (list CaseRequest) :=
  select (select_from caseRequests
          |> where_ (eqB Request.isArchived false)
          |> orderBy (desc Request.createdAt)).

Definition invalidTransition (currentStatus status : string) : string :=
  "Invalid status transition from " ++ currentStatus ++ " to " ++ status.

(** [if (!validTransitions[currentStatus]?.includes(status)) throw ...]:
    an own key gives its array; a missing key gives [undefined], whose
    negation is true; a key inherited from [Object.prototype] gives a
    value without an [includes] method, and calling it is a TypeError. *)
Definition checkTransition (validTransitions : list (string * list string))
  (currentStatus status : string) : M unit :=
  match Js.getProp validTransitions currentStatus with
  | Js.Own arr =>
      if Js.includes arr status then ret tt
      else throw (Js.Error (invalidTransition currentStatus status))
  | Js.Missing => throw (Js.Error (invalidTransition currentStatus status))
  | Js.Inherited =>
      throw (Js.TypeError
               "validTransitions[currentStatus]?.includes is not a function")
  end.

Definition caseTransitions : list (string * list string) :=
  [ ("submitted", ["pending"; "rejected"]);
    ("pending", ["complete"; "rejected"]);
    ("rejected", []);
    ("complete", []);
    ("resubmitted", ["pending"; "rejected"]) ].

Definition extensionTransitions : list (string * list string) :=
  [ ("submitted", ["pending"; "rejected"]);
    ("pending", ["complete"; "rejected"]);
    ("rejected", []);
    ("complete", []) ].

(** The [.set({...})] of the two update operations; the three
    [new Date()] are read in the order of the object literal. *)
Definition statusSet (status : string) (feedback : option string)
  : M RequestSet.t :=
  updatedAt <- newDate;;
  completedAt <-
    (if String.eqb status "complete"
     then (t <- newDate;; ret (Some t)) else ret None);;
  receivedAt <-
    (if String.eqb status "pending"
     then (t <- newDate;; ret (Some t)) else ret None);;
  ret (RequestSet.mk (Some status) feedback (Some updatedAt)
         completedAt receivedAt None None).

Definition updateCaseRequest (id : Z) (status : string)
  (feedback : option string) : M CaseRequest :=
  tryCatch
    (existingRequest <-
       select (select_from caseRequests |> where_ (eqZ Request.id id)
                                        |> limit 1);;
     match existingRequest with
     | [] => throw (Js.Error ("Request with ID " ++ Js.numToString id
                               ++ " not found"))
     | existing :: _ =>
         let currentStatus := Request.status existing in
         _ <- checkTransition caseTransitions currentStatus status;;
         set <- statusSet status feedback;;
         l <- update_returning caseRequests (RequestSet.apply set)
                (eqZ Request.id id);;
         match first l with
         | None => throw (Js.Error "Failed to update case request")
         | Some request => ret request
         end
     end)
    (fun error =>
       if Js.instanceofError error then throw error
       else throw (Js.Error "Failed to update case request")).

Definition hideUserCaseRequest (id userId : Z) : M unit :=
  l <- select (select_from caseRequests |> where_ (eqZ Request.id id));;
  match first l with
  | None => throw (Js.Error "Request not found")
  | Some request =>
      let hiddenBy := (RequestSet.orElse (Request.hiddenBy request) [] ++ [userId])%list in
      update caseRequests
        (RequestSet.apply
           (RequestSet.mk None None None None None (Some hiddenBy) None))
        (eqZ Request.id id)
  end.

Definition archiveCaseRequest (id : Z) : M unit :=
  update caseRequests
    (RequestSet.apply
       (RequestSet.mk None None None None None None (Some true)))
    (eqZ Request.id id).

Definition deleteCaseRequest (id : Z) : M unit :=
  delete caseRequests (eqZ Request.id id).

(** ** Extension request operations *)

Definition getExtensionRequest (id : Z) : M (option ExtensionRequest) :=
  tryCatch
    (l <- select (select_from extensionRequests |> where_ (eqZ Request.id id));;
     ret (first l))
    (fun error => ret None).

(** The row [extensionRequests] holds for the values object of
    [createExtensionRequest], [{ ...request, createdAt, updatedAt }],
    before its key is issued.  The row type is shared with the case
    requests; an extension request has no [type] and no [corrections]. *)
Definition extensionRequestValues (request : InsertExtensionRequest.t)
  (now : Time) : Request.t :=
  Request.mk 0
    (InsertExtensionRequest.userId request)
    Js.null
    (textColumn (InsertExtensionRequest.sadNumber request))
    (textColumn (InsertExtensionRequest.sadDate request))
    (textColumn (InsertExtensionRequest.declarantCompany request))
    (textColumn (InsertExtensionRequest.declarantName request))
    (textColumn (InsertExtensionRequest.documentHolder request))
    (textColumn (InsertExtensionRequest.documentHolderPhone request))
    (textColumn (InsertExtensionRequest.reason request))
    Js.JNull
    (InsertExtensionRequest.status request)
    Defaults.adminFeedback
    Defaults.isResubmission
    Defaults.originalRequestId
    Defaults.changes
    Defaults.hiddenBy
    Defaults.isArchived
    now
    now
    Defaults.receivedAt
    Defaults.completedAt.

Definition createExtensionRequest (request : InsertExtensionRequest.t)
  : M (option ExtensionRequest) :=
  now <- newDate;;
  l <- insert_returning extensionRequests (extensionRequestValues request now);;
  ret (first l).

Definition getExtensionRequestsByUser (userId : Z) : M (list ExtensionRequest) :=
  select (select_from extensionRequests
          |> where_ (eqZ Request.userId userId)
          |> where_ (notHiddenBy userId)
          |> where_ (eqB Request.isArchived false)
          |> orderBy (desc Request.createdAt)).

Definition getAllExtensionRequests : M (list ExtensionRequest) :=
  select (select_from extensionRequests
          |> where_ (eqB Request.isArchived false)
          |> orderBy (desc Request.createdAt)).

Definition updateExtensionRequest (id : Z) (status : string)
  (feedback : option string) : M ExtensionRequest :=
  tryCatch
    (existingRequest <-
       select (select_from extensionRequests |> where_ (eqZ Request.id id)
                                             |> limit 1);;
     match existingRequest with
     | [] => throw (Js.Error ("Request with ID " ++ Js.numToString id
                               ++ " not found"))
     | existing :: _ =>
         let currentStatus := Request.status existing in
         _ <- checkTransition extensionTransitions currentStatus status;;
         set <- statusSet status feedback;;
         l <- update_returning extensionRequests (RequestSet.apply set)
                (eqZ Request.id id);;
         match first l with
         | None => throw (Js.Error "Failed to update extension request")
         | Some request => ret request
         end
     end)
    (fun error =>
       if Js.instanceofError error then throw error
       else throw (Js.Error "Failed to update extension request")).

Definition hideUserExtensionRequest (id userId : Z) : M unit :=
  l <- select (select_from extensionRequests |> where_ (eqZ Request.id id));;
  match first l with
  | None => throw (Js.Error "Request not found")
  | Some request =>
      let hiddenBy := (RequestSet.orElse (Request.hiddenBy request) [] ++ [userId])%list in
      update extensionRequests
        (RequestSet.apply
           (RequestSet.mk None None None None None (Some hiddenBy) None))
        (eqZ Request.id id)
  end.

Definition archiveExtensionRequest (id : Z) : M unit :=
  update extensionRequests
    (RequestSet.apply
       (RequestSet.mk None None None None None None (Some true)))
    (eqZ Request.id id).

Definition deleteExtensionRequest (id : Z) : M unit :=
  delete extensionRequests (eqZ Request.id id).

End DatabaseStorage.

(* ================================================================== *)
(** * Storage backend selection (server/storage.ts) *)
(* ================================================================== *)

Module Storage.

(** The variables of [process.env] the module reads or assigns. *)
Record Env : Type := mkEnv {
  USE_LOCAL_STORAGE : option string;
  FALLBACK_TO_LOCAL : option string;
  GOOGLE_APPLICATION_CREDENTIALS_JSON : option string;
  GOOGLE_APPLICATION_CREDENTIALS : option string;
  GOOGLE_CLOUD_CREDENTIALS : option string
}.

(** What the process does that can be observed from outside. *)
Inductive Event : Type :=
| Log (message : string)
| ConsoleError (message : string)
| DecodeBase64 (blob : string)
| WriteFile (path content : string).

(** The process at start-up: its environment, its working directory, how
    the next [fs.writeFileSync] ends, how the construction of the client
    of the cloud store ends, and what the process has done so far. *)
Record Process : Type := mkProcess {
  env : Env;
  cwd : string;
  writeFails : option Js.Exn;
  clientFails : option Js.Exn;
  trace : list Event
}.

Definition P (A : Type) : Type := Process -> Outcome A * Process.

Definition emit (e : Event) (p : Process) : Process :=
  mkProcess (env p) (cwd p) (writeFails p) (clientFails p) (trace p ++ [e]).

(** [process.env.X === "true"]. *)
Definition isTrue (v : option string) : bool :=
  match v with
  | Some s => String.eqb s "true"
  | None => false
  end.

(** [!credentialsJson]: unset or empty. *)
Definition falsy (v : option string) : bool :=
  match v with
  | Some s => String.eqb s EmptyString
  | None => true
  end.

Inductive Backend : Type :=
| Cloud
| Local.

(** Modelled from the spec: class [GoogleCloudStorage] of
    [server/storage/google-cloud] is not under src/.  Section 4.5: "The
    cloud implementation itself must internally fall back to local
    storage when its underlying client cannot be constructed".  The
    constructor takes no argument; the object it gives is backed by the
    cloud store when the client is constructed, by local storage when it
    is not. *)
Definition newGoogleCloudStorage (p : Process) : Backend :=
  match clientFails p with
  | None => Cloud
  | Some _ => Local
  end.

Section Init.

(** [Buffer.from(s, 'base64').toString('utf-8')], a total function of the
    Node runtime. *)
Variable base64ToUtf8 : string -> string.

Definition credentialsFile : string := "google-credentials.json".

(** [path.join(dir, name)] on POSIX paths, for [dir = process.cwd()] (an
    absolute path in normal form) and a plain file name: the two with
    one separator between them, which the root directory already ends
    with. *)
Definition pathJoin (dir name : string) : string :=
  if String.eqb dir "/" then dir ++ name else dir ++ "/" ++ name.

Definition setupGoogleCloudCredentials : P string :=
  fun p =>
    let credentialsJson := GOOGLE_APPLICATION_CREDENTIALS_JSON (env p) in
    if falsy credentialsJson then
      (Throw (Js.Error
         "GOOGLE_APPLICATION_CREDENTIALS_JSON environment variable is not set"),
       p)
    else
      let blob := match credentialsJson with Some s => s | None => EmptyString end in
      let p1 := emit (DecodeBase64 blob) p in
      let credentials := base64ToUtf8 blob in
      let tempCredentialsPath := pathJoin (cwd p1) credentialsFile in
      match writeFails p1 with
      | Some error =>
          (Throw error,
           emit (ConsoleError "Error setting up Google Cloud credentials:") p1)
      | None =>
          let p2 := emit (WriteFile tempCredentialsPath credentials) p1 in
          let e := env p2 in
          (Ok tempCredentialsPath,
           mkProcess
             (mkEnv (USE_LOCAL_STORAGE e) (FALLBACK_TO_LOCAL e)
                (GOOGLE_APPLICATION_CREDENTIALS_JSON e)
                (Some tempCredentialsPath) (Some credentials))
             (cwd p2) (writeFails p2) (clientFails p2) (trace p2))
      end.

Definition initializeStorage : P Backend :=
  fun p =>
    if isTrue (USE_LOCAL_STORAGE (env p)) then
      let p1 := emit (Log "Using local storage") p in
      (Ok (newGoogleCloudStorage p1), p1)
    else
      match setupGoogleCloudCredentials p with
      | (Ok credentialsPath, p1) =>
          let p2 := emit (Log "Google Cloud credentials loaded successfully") p1 in
          (Ok (newGoogleCloudStorage p2), p2)
      | (Throw error, p1) =>
          if isTrue (FALLBACK_TO_LOCAL (env p1)) then
            let p2 :=
              emit (Log "Failed to initialize Google Cloud Storage, falling back to local storage") p1 in
            (Ok (newGoogleCloudStorage p2), p2)
          else (Throw error, p1)
      end.

End Init.

End Storage.

(* ================================================================== *)
(** * The vocabulary of the specification *)
(* ================================================================== *)

Module Spec.
Import Db DatabaseStorage.

(** The two entity kinds of the request repository. *)
Inductive Kind : Type :=
| CaseKind
| ExtensionKind.

(** The transition table of section 4.1, row by row. *)
Definition allowed (k : Kind) (current requested : string) : bool :=
  match k with
  | CaseKind =>
      (String.eqb current "submitted"
         && (String.eqb requested "pending" || String.eqb requested "rejected"))
      || (String.eqb current "pending"
         && (String.eqb requested "complete" || String.eqb requested "rejected"))
      || (String.eqb current "resubmitted"
         && (String.eqb requested "pending" || String.eqb requested "rejected"))
  | ExtensionKind =>
      (String.eqb current "submitted"
         && (String.eqb requested "pending" || String.eqb requested "rejected"))
      || (String.eqb current "pending"
         && (String.eqb requested "complete" || String.eqb requested "rejected"))
  end.

(** The operations of section 4.3, per entity kind. *)
Definition tableOf (k : Kind) : TableRef Request.t :=
  match k with
  | CaseKind => caseRequests
  | ExtensionKind => extensionRequests
  end.

Definition updateStatus (k : Kind) : Z -> string -> option string -> M Request.t :=
  match k with
  | CaseKind => updateCaseRequest
  | ExtensionKind => updateExtensionRequest
  end.

Definition hide (k : Kind) : Z -> Z -> M unit :=
  match k with
  | CaseKind => hideUserCaseRequest
  | ExtensionKind => hideUserExtensionRequest
  end.

Definition archive (k : Kind) : Z -> M unit :=
  match k with
  | CaseKind => archiveCaseRequest
  | ExtensionKind => archiveExtensionRequest
  end.

Definition remove (k : Kind) : Z -> M unit :=
  match k with
  | CaseKind => deleteCaseRequest
  | ExtensionKind => deleteExtensionRequest
  end.

Definition getById (k : Kind) : Z -> M (option Request.t) :=
  match k with
  | CaseKind => getCaseRequest
  | ExtensionKind => getExtensionRequest
  end.

Definition getByUser (k : Kind) : Z -> M (list Request.t) :=
  match k with
  | CaseKind => getCaseRequestsByUser
  | ExtensionKind => getExtensionRequestsByUser
  end.

Definition getAll (k : Kind) : M (list Request.t) :=
  match k with
  | CaseKind => getAllCaseRequests
  | ExtensionKind => getAllExtensionRequests
  end.

(** The rows of a kind's table in a world. *)
Definition requests (k : Kind) (w : World) : list Request.t :=
  rows (get (tableOf k) (store w)).

(** The stored record an id resolves to. *)
Definition stored (k : Kind) (id : Z) (w : World) : option Request.t :=
  find (eqZ Request.id id) (requests k w).

(** The backing store serves every coming call. *)
Definition calm (w : World) : Prop :=
  forallb (fun f => match f with None => true | Some _ => false end)
    (faults w) = true.



(** Newest first by [createdAt]. *)
Definition newestFirst (l : list Request.t) : Prop :=
  StronglySorted (fun a b => Request.createdAt b <= Request.createdAt a) l.

(** Two payloads that differ at most in [isAdmin] and [isApproved]. *)
Definition sameButFlags (p q : InsertUser.t) : Prop :=
  InsertUser.username p = InsertUser.username q
  /\ InsertUser.email p = InsertUser.email q
  /\ InsertUser.password p = InsertUser.password q
  /\ InsertUser.approvalFeedback p = InsertUser.approvalFeedback q.

(** The transition table the code holds for a kind. *)
Definition transitionsOf (k : Kind) : list (string * list string) :=
  match k with
  | CaseKind => caseTransitions
  | ExtensionKind => extensionTransitions
  end.



(** The original a resubmission payload resolves to, if any. *)
Definition originalOf (request : InsertCaseRequest.t) (w : World)
  : option Request.t :=
  match InsertCaseRequest.originalRequestId request with
  | Some o => stored CaseKind o w
  | None => None
  end.

(** The change list [createCaseRequest] computes before its insert. *)
Definition changesOf (request : InsertCaseRequest.t) (w : World)
  : list Change.t :=
  if truthy (InsertCaseRequest.originalRequestId request) then
    match originalOf request w with
    | Some original => computeDiff original request
    | None => []
    end
  else [].

End Spec.

(* ================================================================== *)
(** * Sample worlds *)
(* ================================================================== *)

Module Sample.
Import Db.

Definition emptyStore : Store :=
  mkStore (mkTable [] 1) (mkTable [] 1) (mkTable [] 1).

(** The samples write lists of text to jsonb columns, which come back as
    written. *)
Definition asWritten (j : Js.Json) : Js.Json := j.

(** A fresh store at time 1000 that serves every call. *)
Definition world0 : World :=
  mkWorld emptyStore 1000 [5%N; 7%N] [] asWritten.

(** A registrant who asks for the flags herself, and one who does not. *)
Definition alice : InsertUser.t :=
  InsertUser.mk "alice" "alice@example.org" "secret" (Some true) (Some true) None.

Definition bob : InsertUser.t :=
  InsertUser.mk "bob" "bob@example.org" "hunter2" None None None.

Definition plainAlice : InsertUser.t :=
  InsertUser.mk "alice" "alice@example.org" "secret" None None None.

(** Request A of user 7, and its resubmission B with another reason. *)
Definition caseA : InsertCaseRequest.t :=
  InsertCaseRequest.mk 7 None (Js.str "SAD-1") (Js.str "2024-01-01")
    (Js.str "Acme") (Js.str "Ann") (Js.str "Hal") Js.null (Js.str "x")
    (Some (Js.JArray [Js.JString "page 2"])).

Definition caseB : InsertCaseRequest.t :=
  InsertCaseRequest.mk 7 (Some 1) (Js.str "SAD-1") (Js.str "2024-01-01")
    (Js.str "Acme") (Js.str "Ann") (Js.str "Hal") Js.null (Js.str "y")
    (Some (Js.JArray [Js.JString "page 2"])).

Definition request (id userId : Z) (status : string)
  (hiddenBy : list Z) (createdAt : Time) : Request.t :=
  Request.mk id userId (Js.str "case") (Js.str "SAD-1") (Js.str "2024-01-01")
    (Js.str "Acme") (Js.str "Ann") (Js.str "Hal") Js.null (Js.str "x")
    (Js.JArray [Js.JString "page 2"]) status None false None None
    (Some hiddenBy) false createdAt createdAt None None.

Definition recordA : Request.t := request 1 7 "submitted" [] 1000.

(** The store once A has been created. *)
Definition worldA : World :=
  mkWorld (mkStore (mkTable [] 1) (mkTable [recordA] 2) (mkTable [] 1))
    2000 [3%N; 4%N] [] asWritten.

(** Two requests in each table: one that user 7 owns and has hidden, and
    a newer one that user 8 owns. *)
Definition hiddenOf7 : Request.t := request 1 7 "submitted" [7] 1000.
Definition ownedBy8 : Request.t := request 2 8 "submitted" [] 1500.

Definition worldTwo : World :=
  mkWorld
    (mkStore (mkTable [] 1) (mkTable [hiddenOf7; ownedBy8] 3)
       (mkTable [hiddenOf7; ownedBy8] 3))
    2000 [] [] asWritten.

(** An extension payload with a status of the caller's choice. *)
Definition extension (status : string) : InsertExtensionRequest.t :=
  InsertExtensionRequest.mk 7 status (Js.str "SAD-1") (Js.str "2024-01-01")
    (Js.str "Acme") (Js.str "Ann") (Js.str "Hal") Js.null (Js.str "x").

(** A store whose next call is rejected. *)
Definition outage : World :=
  mkWorld (store worldTwo) 2000 [] [Some (Js.Error "connection terminated")]
    asWritten.

(** Start-up processes for the backend selection. *)
Definition startup (useLocal fallback blob : option string)
  (writeFails clientFails : option Js.Exn) : Storage.Process :=
  Storage.mkProcess (Storage.mkEnv useLocal fallback blob None None)
    "/app" writeFails clientFails [].



End Sample.

(* ================================================================== *)
(** * Sequences of repository calls *)
(* ================================================================== *)

Module Lifecycle.
Import Db DatabaseStorage Spec.

(** A call of a writing method of [DatabaseStorage].  [updateUser] is
    left out: it writes whatever columns its caller names. *)
Inductive Call : Type :=
| CreateUser (insertUser : InsertUser.t)
| ApproveUser (id : Z)
| RejectUser (id : Z) (feedback : string)
| RemoveUser (id : Z)
| CreateCaseRequest (request : InsertCaseRequest.t)
| CreateExtensionRequest (request : InsertExtensionRequest.t)
| UpdateStatus (k : Kind) (id : Z) (status : string) (feedback : option string)
| Hide (k : Kind) (id userId : Z)
| Archive (k : Kind) (id : Z)
| Delete (k : Kind) (id : Z).

(** The world a call leaves behind, whatever it settles with. *)
Definition perform (c : Call) (w : World) : World :=
  match c with
  | CreateUser p => snd (createUser p w)
  | ApproveUser id => snd (approveUser id w)
  | RejectUser id feedback => snd (rejectUser id feedback w)
  | RemoveUser id => snd (removeUser id w)
  | CreateCaseRequest r => snd (createCaseRequest r w)
  | CreateExtensionRequest r => snd (createExtensionRequest r w)
  | UpdateStatus k id status feedback => snd (updateStatus k id status feedback w)
  | Hide k id userId => snd (hide k id userId w)
  | Archive k id => snd (archive k id w)
  | Delete k id => snd (remove k id w)
  end.

Definition performAll (cs : list Call) (w : World) : World :=
  fold_left (fun w c => perform c w) cs w.

(** What a served insert, update and delete make of the store. *)
Definition afterInsert {R} (t : TableRef R) (v : R) (s : Store) : Store :=
  put t (mkTable (rows (get t s) ++ [withId t (serial (get t s)) v])
           (serial (get t s) + 1)) s.

Definition afterUpdate {R} (t : TableRef R) (f : R -> R) (c : R -> bool)
  (s : Store) : Store :=
  put t (mkTable (map (fun r => if c r then f r else r) (rows (get t s)))
           (serial (get t s))) s.

Definition afterDelete {R} (t : TableRef R) (c : R -> bool) (s : Store)
  : Store :=
  put t (mkTable (filter (fun r => negb (c r)) (rows (get t s)))
           (serial (get t s))) s.

(** The statuses of the case-request lifecycle. *)
Definition caseStatuses : list string :=
  [ "submitted"; "pending"; "rejected"; "complete"; "resubmitted" ].

(** The [.set({...})] of [hide] and of [archive]. *)
Definition hiddenBySet (hiddenBy : list Z) : RequestSet.t :=
  RequestSet.mk None None None None None (Some hiddenBy) None.

Definition archivedSet : RequestSet.t :=
  RequestSet.mk None None None None None None (Some true).

(** The [.set({...})] of [approveUser] ([feedback = None]) and of
    [rejectUser]. *)
Definition approvalSet (approved : bool) (feedback : option string)
  : UserSet.t :=
  UserSet.mk None None None None (Some approved) feedback.

(** The rows and the next key of a kind's table, and the record an id
    resolves to there. *)
Definition rowsOf (k : Kind) (s : Store) : list Request.t :=
  rows (get (tableOf k) s).

Definition serialOf (k : Kind) (s : Store) : Z :=
  serial (get (tableOf k) s).

Definition resolve (k : Kind) (id : Z) (s : Store) : option Request.t :=
  find (eqZ Request.id id) (rowsOf k s).

(** [b] is [a], or is reached from it along transitions of the table of
    section 4.1. *)
Definition follows (k : Kind) (a b : string) : Prop :=
  clos_refl_trans string (fun x y => allowed k x y = true) a b.

(** Every way a call of the repository can change the store. *)
Inductive Effect (s : Store) : Store -> Prop :=
| Unchanged : Effect s s
| UserInserted (u : User.t) : Effect s (afterInsert users u s)
| UserJudged (id : Z) (approved : bool) (feedback : option string) :
    Effect s (afterUpdate users (UserSet.apply (approvalSet approved feedback))
                (eqZ User.id id) s)
| UserRemoved (id : Z) : Effect s (afterDelete users (eqZ User.id id) s)
| RequestInserted (k : Kind) (v : Request.t) :
    (k = CaseKind ->
     Request.status v = "submitted" \/ Request.status v = "resubmitted") ->
    Effect s (afterInsert (tableOf k) v s)
| StatusWritten (k : Kind) (id : Z) (set : RequestSet.t) (status : string)
    (r0 : Request.t) :
    find (eqZ Request.id id) (rows (get (tableOf k) s)) = Some r0 ->
    allowed k (Request.status r0) status = true ->
    RequestSet.status set = Some status ->
    RequestSet.hiddenBy set = None ->
    RequestSet.isArchived set = None ->
    Effect s (afterUpdate (tableOf k) (RequestSet.apply set)
                (eqZ Request.id id) s)
| HiddenByGrown (k : Kind) (id userId : Z) (r0 : Request.t) :
    find (eqZ Request.id id) (rows (get (tableOf k) s)) = Some r0 ->
    Effect s (afterUpdate (tableOf k)
                (RequestSet.apply
                   (hiddenBySet
                      (RequestSet.orElse (Request.hiddenBy r0) [] ++ [userId])))
                (eqZ Request.id id) s)
| RequestArchived (k : Kind) (id : Z) :
    Effect s (afterUpdate (tableOf k) (RequestSet.apply archivedSet)
                (eqZ Request.id id) s)
| RequestDeleted (k : Kind) (id : Z) :
    Effect s (afterDelete (tableOf k) (eqZ Request.id id) s).

(** Keys are unique and below the next serial value. *)
Definition wellKeyed {R} (key : R -> Z) (t : Table R) : Prop :=
  NoDup (map key (rows t)) /\ Forall (fun r => key r < serial t) (rows t).

Definition wellFormed (s : Store) : Prop :=
  wellKeyed User.id (usersT s)
  /\ wellKeyed Request.id (caseRequestsT s)
  /\ wellKeyed Request.id (extensionRequestsT s).

(** Every case request has a status of the lifecycle. *)
Definition caseStatusesValid (s : Store) : Prop :=
  Forall (fun r => In (Request.status r) caseStatuses) (rows (caseRequestsT s)).

(** [l] with further entries appended. *)
Definition extends (l l' : list Z) : Prop := exists more, l' = (l ++ more)%list.

(** What a stored request keeps for life: its key, owner and payload, the
    resubmission link with its change list, and its creation time; an
    archived request stays archived and [hiddenBy] only grows. *)
Definition sameRecord (r r' : Request.t) : Prop :=
  Request.id r' = Request.id r
  /\ Request.userId r' = Request.userId r
  /\ Request.type r' = Request.type r
  /\ Request.sadNumber r' = Request.sadNumber r
  /\ Request.sadDate r' = Request.sadDate r
  /\ Request.declarantCompany r' = Request.declarantCompany r
  /\ Request.declarantName r' = Request.declarantName r
  /\ Request.documentHolder r' = Request.documentHolder r
  /\ Request.documentHolderPhone r' = Request.documentHolderPhone r
  /\ Request.reason r' = Request.reason r
  /\ Request.corrections r' = Request.corrections r
  /\ Request.isResubmission r' = Request.isResubmission r
  /\ Request.originalRequestId r' = Request.originalRequestId r
  /\ Request.changes r' = Request.changes r
  /\ Request.createdAt r' = Request.createdAt r
  /\ (Request.isArchived r = true -> Request.isArchived r' = true)
  /\ extends (RequestSet.orElse (Request.hiddenBy r) [])
             (RequestSet.orElse (Request.hiddenBy r') []).

(** The payload of a resubmission of [request] that names [original]. *)
Definition resubmit (request : InsertCaseRequest.t) (original : Z)
  : InsertCaseRequest.t :=
  InsertCaseRequest.mk (InsertCaseRequest.userId request) (Some original)
    (InsertCaseRequest.sadNumber request)
    (InsertCaseRequest.sadDate request)
    (InsertCaseRequest.declarantCompany request)
    (InsertCaseRequest.declarantName request)
    (InsertCaseRequest.documentHolder request)
    (InsertCaseRequest.documentHolderPhone request)
    (InsertCaseRequest.reason request)
    (InsertCaseRequest.corrections request).

(** How one table of requests may differ after a change of the store:
    the next key does not go back, a record that resolved is gone or is
    the same record with a status that follows from the old one, and an
    issued key that did not resolve still does not. *)
Definition tableStep (k : Kind) (s s' : Store) : Prop :=
  serialOf k s <= serialOf k s'
  /\ (forall id r,
        resolve k id s = Some r ->
        resolve k id s' = None
        \/ exists r', resolve k id s' = Some r'
                      /\ sameRecord r r'
                      /\ follows k (Request.status r) (Request.status r'))
  /\ (forall id,
        id < serialOf k s -> resolve k id s = None -> resolve k id s' = None).

(** ** Rejections and queries *)

(** The error an outcome carries, when it is a rejection. *)
Definition thrown {A} (o : Outcome A) : option Js.Exn :=
  match o with
  | Throw e => Some e
  | Ok _ => None
  end.

(** What a call is rejected with, when it is. *)
Definition rejection (c : Call) (w : World) : option Js.Exn :=
  match c with
  | CreateUser p => thrown (fst (createUser p w))
  | ApproveUser id => thrown (fst (approveUser id w))
  | RejectUser id feedback => thrown (fst (rejectUser id feedback w))
  | RemoveUser id => thrown (fst (removeUser id w))
  | CreateCaseRequest r => thrown (fst (createCaseRequest r w))
  | CreateExtensionRequest r => thrown (fst (createExtensionRequest r w))
  | UpdateStatus k id status feedback =>
      thrown (fst (updateStatus k id status feedback w))
  | Hide k id userId => thrown (fst (hide k id userId w))
  | Archive k id => thrown (fst (archive k id w))
  | Delete k id => thrown (fst (remove k id w))
  end.

(** A call of a reading method of [DatabaseStorage]. *)
Inductive Query : Type :=
| GetUser (id : Z)
| GetUserByUsername (username : string)
| GetUserByEmail (email : string)
| GetPendingUsers
| GetApprovedUsers
| GetById (k : Kind) (id : Z)
| GetByUser (k : Kind) (userId : Z)
| GetAll (k : Kind).

(** The world a query leaves behind, whatever it settles with. *)
Definition ask (q : Query) (w : World) : World :=
  match q with
  | GetUser id => snd (getUser id w)
  | GetUserByUsername username => snd (getUserByUsername username w)
  | GetUserByEmail email => snd (getUserByEmail email w)
  | GetPendingUsers => snd (getPendingUsers w)
  | GetApprovedUsers => snd (getApprovedUsers w)
  | GetById k id => snd (getById k id w)
  | GetByUser k userId => snd (getByUser k userId w)
  | GetAll k => snd (getAll k w)
  end.

(** [m] leaves the store as it finds it, however it settles. *)
Definition writesNothing {A} (m : M A) : Prop :=
  forall w, store (snd (m w)) = store w.

(** [m] has left the store as it found it whenever it rejects. *)
Definition allOrNothing {A} (m : M A) : Prop :=
  forall w e, fst (m w) = Throw e -> store (snd (m w)) = store w.

End Lifecycle.

(* ================================================================== *)
(** * Scenarios *)
(* ================================================================== *)

Module Scenario.
Import Db.

(** A users table with an approved admin and a pending registrant. *)
Definition admin : User.t :=
  User.mk 1 "root" "root@example.org" "secret" true true None 900.

Definition newcomer : User.t :=
  User.mk 2 "ann" "ann@example.org" "hunter2" false false None 950.

Definition office : World :=
  mkWorld
    (mkStore (mkTable [admin; newcomer] 3)
       (mkTable [Sample.hiddenOf7; Sample.ownedBy8] 3)
       (mkTable [Sample.hiddenOf7; Sample.ownedBy8] 3))
    2000 [1%N; 2%N] [] Sample.asWritten.

(** Calls of which the store rejects the second. *)
Definition shaky : World :=
  mkWorld (store office) 2000 []
    [None; Some (Js.Error "connection terminated")] Sample.asWritten.

Definition calls : list Lifecycle.Call :=
  [ Lifecycle.CreateCaseRequest Sample.caseA;
    Lifecycle.UpdateStatus Spec.CaseKind 1 "pending" (Some "received");
    Lifecycle.Hide Spec.CaseKind 1 7;
    Lifecycle.Archive Spec.CaseKind 2;
    Lifecycle.Delete Spec.ExtensionKind 2;
    Lifecycle.CreateUser Sample.bob;
    Lifecycle.RejectUser 2 "incomplete" ].

(** A store with one completed case request, and attempts to move it. *)
Definition completed : Request.t := Sample.request 3 7 "complete" [] 1200.

Definition closed : World :=
  mkWorld (mkStore (mkTable [] 1) (mkTable [completed] 4) (mkTable [] 1))
    3000 [] [] Sample.asWritten.

Definition reopen : list Lifecycle.Call :=
  [ Lifecycle.UpdateStatus Spec.CaseKind 3 "pending" None;
    Lifecycle.UpdateStatus Spec.CaseKind 3 "rejected" (Some "late");
    Lifecycle.Hide Spec.CaseKind 3 7 ].

(** A case payload without [documentHolderPhone], and one without
    corrections. *)
Definition sparse : InsertCaseRequest.t :=
  InsertCaseRequest.mk 7 None (Js.str "SAD-1") (Js.str "2024-01-01")
    (Js.str "Acme") (Js.str "Ann") (Js.str "Hal") Js.undefined (Js.str "x")
    (Some (Js.JArray [Js.JString "page 2"])).

Definition bare : InsertCaseRequest.t :=
  InsertCaseRequest.mk 7 None (Js.str "SAD-1") (Js.str "2024-01-01")
    (Js.str "Acme") (Js.str "Ann") (Js.str "Hal") (Js.str "555") (Js.str "x")
    None.

(** A start-up process with a credential blob, and a decoder that knows
    that blob. *)
Definition blob : string := "e30=".

Definition decoder (s : string) : string :=
  if String.eqb s blob then "{}" else EmptyString.

Definition cloudy : Storage.Process :=
  Sample.startup None None (Some blob) None None.

Definition readOnly : Storage.Process :=
  Sample.startup None None (Some blob)
    (Some (Js.Error "EROFS: read-only file system")) None.

End Scenario.

(* ================================================================== *)
(** * Properties *)
(* ================================================================== *)

Import Db DatabaseStorage Spec Lifecycle.

(** ** The world under a calm store *)

Lemma calm_nextFault (w : World) : calm w -> nextFault w = None.
Proof.
  unfold calm, nextFault.
  destruct (faults w) as [|[e|] fs]; cbn [forallb andb];
    [reflexivity | discriminate | reflexivity].
Qed.

Lemma calm_settled (w : World) (s : Store) : calm w -> calm (settled w s).
Proof.
  unfold calm, settled; cbn [faults].
  destruct (faults w) as [|[e|] fs]; cbn [forallb andb tl]; auto.
  discriminate.
Qed.

Lemma calm_ticked (w : World) : calm w -> calm (ticked w).
Proof. unfold calm, ticked; cbn [faults]; auto. Qed.

Lemma call_calm {A} (run : Store -> A * Store) (w : World) :
  calm w ->
  call run w = (Ok (fst (run (store w))), settled w (snd (run (store w)))).
Proof. intros H. unfold call. now rewrite calm_nextFault. Qed.

Create HintDb calm.
#[local] Hint Resolve calm_settled calm_ticked : calm.

(** Runs the next awaited store call of the goal under a calm store. *)
Ltac serve :=
  rewrite call_calm by eauto with calm; cbv beta iota; simpl fst; simpl snd.

(** ** createUser *)

Lemma createUser_calm (p : InsertUser.t) (w : World) :
  calm w ->
  let isFirstUser := Nat.eqb (List.length (rows (usersT (store w)))) 0 in
  let u := User.mk (serial (usersT (store w)))
             (InsertUser.username p) (InsertUser.email p)
             (InsertUser.password p) isFirstUser isFirstUser
             (InsertUser.approvalFeedback p) (clock w) in
  exists w',
    createUser p w = (Ok (Some u), w')
    /\ rows (usersT (store w')) = (rows (usersT (store w)) ++ [u])%list.
Proof.
  intros H isFirstUser u.
  unfold createUser, select, insert_returning, bind, newDate, ret.
  serve. serve.
  eexists; split; reflexivity.
Qed.

Lemma createUser_inv (p : InsertUser.t) (w w' : World) (u : User.t) :
  createUser p w = (Ok (Some u), w') ->
  User.isAdmin u = Nat.eqb (List.length (rows (usersT (store w)))) 0
  /\ User.isApproved u = Nat.eqb (List.length (rows (usersT (store w)))) 0.
Proof.
  unfold createUser, select, insert_returning, bind, newDate, ret, call.
  destruct (nextFault w); [discriminate|].
  cbv beta iota; simpl fst; simpl snd.
  match goal with |- context [nextFault ?x] => destruct (nextFault x) end;
    [discriminate|].
  simpl. intros E. inversion E; subst. simpl. split; reflexivity.
Qed.

(** C5: createUser makes the created user admin and approved exactly when
    its check finds no existing user row; a user created while a row
    exists gets both flags false.  Under a store that serves its calls the
    creation succeeds and the user is stored. *)
Theorem createUser_first_user_flags (p : InsertUser.t) (w : World) :
  calm w ->
  exists u w',
    createUser p w = (Ok (Some u), w')
    /\ ((User.isAdmin u = true /\ User.isApproved u = true)
        <-> evalSelect (select_from users) (store w) = [])
    /\ (evalSelect (select_from users) (store w) <> [] ->
        User.isAdmin u = false /\ User.isApproved u = false)
    /\ In u (rows (usersT (store w'))).
Proof.
  intros H.
  destruct (createUser_calm p H) as [w' [E R]].
  eexists; exists w'. split; [exact E|].
  unfold evalSelect; simpl.
  destruct (rows (usersT (store w))) as [|x l] eqn:L; simpl.
  - repeat split; intros; try reflexivity; try congruence.
    rewrite R. simpl. now left.
  - repeat split; intros; try discriminate.
    + destruct H0; discriminate.
    + rewrite R. apply in_or_app. right. now left.
Qed.

(** C10: the flags of the created user are a function of whether the
    users table was empty, not of the payload: payloads that differ only
    in [isAdmin] / [isApproved] give the same outcome in the same world,
    and any two payloads give users with the same two flags. *)
Theorem createUser_flags_ignore_payload (p q : InsertUser.t) (w : World) :
  (sameButFlags p q -> createUser p w = createUser q w)
  /\ (forall u v w1 w2,
        createUser p w = (Ok (Some u), w1) ->
        createUser q w = (Ok (Some v), w2) ->
        User.isAdmin u = User.isAdmin v
        /\ User.isApproved u = User.isApproved v
        /\ User.isAdmin u = Nat.eqb (List.length (rows (usersT (store w)))) 0
        /\ User.isApproved u = Nat.eqb (List.length (rows (usersT (store w)))) 0).
Proof.
  split.
  - intros (Hu & He & Hp & Hf). unfold createUser.
    now rewrite Hu, He, Hp, Hf.
  - intros u v w1 w2 E1 E2.
    destruct (createUser_inv _ _ E1) as [A1 B1].
    destruct (createUser_inv _ _ E2) as [A2 B2].
    repeat split; congruence.
Qed.

(** ** Lists, as the query builders use them *)

Lemma firstn_1_filter {R} (c : R -> bool) (l : list R) :
  firstn 1 (filter c l) = match find c l with Some x => [x] | None => [] end.
Proof.
  induction l as [|x l IH]; simpl; [reflexivity|].
  destruct (c x); simpl; [reflexivity | exact IH].
Qed.

Lemma first_filter {R} (c : R -> bool) (l : list R) :
  first (filter c l) = find c l.
Proof.
  induction l as [|x l IH]; simpl; [reflexivity|].
  destruct (c x); simpl; [reflexivity | exact IH].
Qed.

Lemma updateRows_fst {R} (c : R -> bool) (f : R -> R) (l : list R) :
  fst (updateRows c f l) = map f (filter c l).
Proof.
  induction l as [|x l IH]; simpl; [reflexivity|].
  destruct (updateRows c f l) as [ch l'']; simpl in *.
  destruct (c x); simpl; now rewrite IH.
Qed.

Lemma updateRows_snd {R} (c : R -> bool) (f : R -> R) (l : list R) :
  snd (updateRows c f l) = map (fun r => if c r then f r else r) l.
Proof.
  induction l as [|x l IH]; simpl; [reflexivity|].
  destruct (updateRows c f l) as [ch l'']; simpl in *.
  destruct (c x); simpl; now rewrite IH.
Qed.

Lemma updateRows_none {R} (c : R -> bool) (f : R -> R) (l : list R) :
  find c l = None -> updateRows c f l = ([], l).
Proof.
  induction l as [|x l IH]; simpl; [reflexivity|].
  destruct (c x) eqn:C; [discriminate|]. intros H. now rewrite (IH H).
Qed.

Lemma find_map_update {R} (c : R -> bool) (f : R -> R) (l : list R) (x : R) :
  (forall r, c (f r) = c r) ->
  find c l = Some x ->
  find c (map (fun r => if c r then f r else r) l) = Some (f x).
Proof.
  intros Hc. induction l as [|y l IH]; simpl; [discriminate|].
  destruct (c y) eqn:C.
  - intros E; inversion E; subst. now rewrite Hc, C.
  - rewrite C. exact IH.
Qed.

Lemma first_map_filter_find {R} (c : R -> bool) (f : R -> R) (l : list R) :
  first (map f (filter c l)) = option_map f (find c l).
Proof.
  induction l as [|x l IH]; simpl; [reflexivity|].
  destruct (c x); simpl; [reflexivity | exact IH].
Qed.

Lemma evalSelect_one {R} (t : TableRef R) (c : R -> bool) (s : Store) :
  evalSelect (select_from t |> where_ c |> limit 1) s
  = match find c (rows (get t s)) with Some x => [x] | None => [] end.
Proof. unfold evalSelect; simpl. apply firstn_1_filter. Qed.

Lemma evalSelect_where {R} (t : TableRef R) (c : R -> bool) (s : Store) :
  evalSelect (select_from t |> where_ c) s = filter c (rows (get t s)).
Proof. reflexivity. Qed.

(** ** The transition check *)

Ltac strings :=
  repeat match goal with
    | |- context [String.eqb ?a ?b] => destruct (String.eqb_spec a b); subst
    end;
  cbn [andb orb negb]; try congruence; try reflexivity.

Ltac table :=
  cbn [transitionsOf caseTransitions extensionTransitions Js.assoc
       Js.includes Js.objectPrototypeKeys].

Lemma checkTransition_allowed (k : Kind) (current requested : string) :
  allowed k current requested = true ->
  checkTransition (transitionsOf k) current requested = ret tt.
Proof.
  destruct k; unfold allowed, checkTransition, Js.getProp; table; strings.
Qed.

Lemma checkTransition_denied (k : Kind) (current requested : string) :
  allowed k current requested = false ->
  Js.includes Js.objectPrototypeKeys current = false ->
  checkTransition (transitionsOf k) current requested
  = throw (Js.Error (invalidTransition current requested)).
Proof.
  destruct k; unfold allowed, checkTransition, Js.getProp;
    cbn [transitionsOf caseTransitions extensionTransitions Js.assoc];
    strings; intros H N;
    first [ rewrite N; reflexivity
          | cbn [Js.includes] in *; revert H; strings ].
Qed.

Lemma checkTransition_inherited (k : Kind) (current requested : string) :
  Js.includes Js.objectPrototypeKeys current = true ->
  checkTransition (transitionsOf k) current requested
  = throw (Js.TypeError
             "validTransitions[currentStatus]?.includes is not a function").
Proof.
  destruct k; unfold checkTransition, Js.getProp;
    cbn [transitionsOf caseTransitions extensionTransitions Js.assoc];
    intros N; strings;
    first [ rewrite N; reflexivity | vm_compute in N; discriminate ].
Qed.

(** ** updateStatus *)

(** Opens [updateStatus] up to the transition check, for either kind. *)
Ltac open_update k :=
  destruct k;
  unfold updateStatus, updateCaseRequest, updateExtensionRequest,
    stored, requests, tableOf in *;
  unfold tryCatch, bind, select;
  [ change caseTransitions with (transitionsOf CaseKind)
  | change extensionTransitions with (transitionsOf ExtensionKind) ].

Lemma apply_keeps_id (p : RequestSet.t) (id : Z) (r : Request.t) :
  eqZ Request.id id (RequestSet.apply p r) = eqZ Request.id id r.
Proof. reflexivity. Qed.

(** A transition outside the table of section 4.1, from a status that is
    not a member of [Object.prototype], is refused with the descriptive
    error and nothing is written. *)
Lemma updateStatus_denied (k : Kind) (id : Z) (status : string)
  (feedback : option string) (w : World) (r0 : Request.t) :
  nextFault w = None ->
  stored k id w = Some r0 ->
  allowed k (Request.status r0) status = false ->
  Js.includes Js.objectPrototypeKeys (Request.status r0) = false ->
  updateStatus k id status feedback w
  = (Throw (Js.Error (invalidTransition (Request.status r0) status)),
     settled w (store w)).
Proof.
  intros F S A N. open_update k.
  all: unfold call; rewrite F; cbv beta iota; cbn [fst snd].
  all: rewrite evalSelect_one, S.
  all: rewrite (checkTransition_denied _ _ _ A N); reflexivity.
Qed.

(** From a status that names a member of [Object.prototype] the check
    itself throws a TypeError; nothing is written. *)
Lemma updateStatus_inherited (k : Kind) (id : Z) (status : string)
  (feedback : option string) (w : World) (r0 : Request.t) :
  nextFault w = None ->
  stored k id w = Some r0 ->
  Js.includes Js.objectPrototypeKeys (Request.status r0) = true ->
  updateStatus k id status feedback w
  = (Throw (Js.TypeError
       "validTransitions[currentStatus]?.includes is not a function"),
     settled w (store w)).
Proof.
  intros F S N. open_update k.
  all: unfold call; rewrite F; cbv beta iota; cbn [fst snd].
  all: rewrite evalSelect_one, S.
  all: rewrite (checkTransition_inherited _ _ status N); reflexivity.
Qed.

Lemma updateStatus_missing (k : Kind) (id : Z) (status : string)
  (feedback : option string) (w : World) :
  nextFault w = None ->
  stored k id w = None ->
  updateStatus k id status feedback w
  = (Throw (Js.Error ("Request with ID " ++ Js.numToString id ++ " not found")),
     settled w (store w)).
Proof.
  intros F S. open_update k.
  all: unfold call; rewrite F; cbv beta iota; cbn [fst snd].
  all: rewrite evalSelect_one, S; reflexivity.
Qed.

Lemma allowed_requested (k : Kind) (current requested : string) :
  allowed k current requested = true ->
  requested = "pending" \/ requested = "complete" \/ requested = "rejected".
Proof. destruct k; unfold allowed; strings; auto. Qed.

(** The outcome of an allowed transition, written out. *)
Lemma updateStatus_allowed (k : Kind) (id : Z) (status : string)
  (feedback : option string) (w : World) (r0 : Request.t) :
  calm w ->
  stored k id w = Some r0 ->
  allowed k (Request.status r0) status = true ->
  exists set w1 w',
    statusSet status feedback (settled w (store w)) = (Ok set, w1)
    /\ updateStatus k id status feedback w = (Ok (RequestSet.apply set r0), w')
    /\ stored k id w' = Some (RequestSet.apply set r0)
    /\ clock w' = clock w1.
Proof.
  intros C S A.
  destruct (statusSet status feedback (settled w (store w))) as [o w1] eqn:E.
  assert (C1 : calm w1 /\ store w1 = store w /\ exists set, o = Ok set).
  { revert E. unfold statusSet, bind, newDate, ret.
    destruct (String.eqb status "complete"), (String.eqb status "pending");
      cbv beta iota; intros E; inversion E; subst; cbn [store];
      (split; [auto with calm | split; [reflexivity | eexists; reflexivity]]). }
  destruct C1 as (C1 & S1 & set & ->).
  exists set, w1. open_update k.
  all: rewrite (call_calm _ C); cbv beta iota; cbn [fst snd].
  all: rewrite evalSelect_one, S.
  all: rewrite (checkTransition_allowed _ _ _ A); unfold ret at 1; cbv beta iota.
  all: rewrite E; unfold update_returning.
  all: rewrite (call_calm _ C1); cbv beta iota.
  all: cbn [get put caseRequests extensionRequests] in *.
  all: rewrite S1.
  all: match goal with
       | |- context [updateRows ?c ?f ?l] =>
           pose proof (updateRows_fst c f l) as U1;
           pose proof (updateRows_snd c f l) as U2;
           destruct (updateRows c f l) as [ch l2]
       end; cbn [fst snd] in *; subst ch l2.
  all: rewrite first_map_filter_find, S; cbn [option_map].
  all: eexists; split; [reflexivity|]; split; [reflexivity|].
  all: split; [|reflexivity].
  all: cbn [store settled caseRequestsT extensionRequestsT rows].
  all: apply find_map_update; [intros; apply apply_keeps_id | exact S].
Qed.

(** What the [.set({...})] of an update holds. *)
Lemma statusSet_spec (status : string) (feedback : option string)
  (w w1 : World) (set : RequestSet.t) :
  statusSet status feedback w = (Ok set, w1) ->
  RequestSet.status set = Some status
  /\ RequestSet.updatedAt set = Some (clock w)
  /\ (status = "pending" ->
      exists t, RequestSet.receivedAt set = Some t /\ clock w <= t <= clock w1)
  /\ (status = "pending" -> RequestSet.completedAt set = None)
  /\ (status = "complete" ->
      exists t, RequestSet.completedAt set = Some t /\ clock w <= t <= clock w1).
Proof.
  pose proof (N2Z.is_nonneg (hd 0%N (ticks w))).
  pose proof (N2Z.is_nonneg (hd 0%N (tl (ticks w)))).
  unfold statusSet, bind, newDate, ret.
  destruct (String.eqb_spec status "complete") as [Ec|Nc];
    destruct (String.eqb_spec status "pending") as [Ep|Np];
    try (exfalso; congruence);
    cbv beta iota; intros Q; inversion Q; subst;
    cbn [RequestSet.status RequestSet.updatedAt RequestSet.receivedAt
         RequestSet.completedAt];
    repeat split; try reflexivity; intros; try congruence;
    eexists; (split; [reflexivity | idtac]);
    unfold ticked in *; cbn [clock ticks] in *; lia.
Qed.

(** C3: an allowed transition succeeds under a store that serves its
    calls, and the record it returns is the stored one.  It carries the
    requested status and an [updatedAt] read from the clock; on a
    transition to "pending" [receivedAt] is a reading of the clock taken
    during the operation and [completedAt] is what it was (null stays
    null); on a transition to "complete" [completedAt] is such a reading. *)
Theorem updateStatus_stamps (k : Kind) (id : Z) (status : string)
  (feedback : option string) (w : World) (r0 : Request.t) :
  calm w ->
  stored k id w = Some r0 ->
  allowed k (Request.status r0) status = true ->
  exists r w',
    updateStatus k id status feedback w = (Ok r, w')
    /\ stored k id w' = Some r
    /\ Request.status r = status
    /\ Request.updatedAt r = clock w
    /\ (status = "pending" ->
        exists t, Request.receivedAt r = Some t
                  /\ clock w <= t <= clock w'
                  /\ Request.completedAt r = Request.completedAt r0)
    /\ (status = "complete" ->
        exists t, Request.completedAt r = Some t
                  /\ clock w <= t <= clock w').
Proof.
  intros C S A.
  destruct (@updateStatus_allowed k id status feedback w r0 C S A)
    as (set & w1 & w' & E & U & St & Ck).
  exists (RequestSet.apply set r0), w'.
  split; [exact U|]. split; [exact St|].
  destruct (statusSet_spec _ _ _ E) as (Hs & Hu & Hp & Hpc & Hc).
  cbn [clock settled] in *. rewrite Ck.
  cbn [RequestSet.apply Request.status Request.updatedAt Request.receivedAt
       Request.completedAt].
  rewrite Hs, Hu. cbn [RequestSet.orElse].
  split; [reflexivity|]. split; [reflexivity|]. split.
  - intros Q. destruct (Hp Q) as (t & Ht & Hb).
    exists t. rewrite Ht, (Hpc Q). cbn [RequestSet.orKeep]. auto.
  - intros Q. destruct (Hc Q) as (t & Ht & Hb).
    exists t. rewrite Ht. cbn [RequestSet.orKeep]. auto.
Qed.

(** ** The change diff *)



Section Entries.
Variable entry : string -> Change.t.
Variable differs : string -> bool.
Hypothesis entry_field : forall x, Change.field (entry x) = x.



End Entries.










(** ** create *)


(** What a served [createCaseRequest] returns and stores: the row of its
    values object under the next key of the table. *)
Lemma createCaseRequest_row (request : InsertCaseRequest.t) (w : World) :
  calm w ->
  exists w',
    createCaseRequest request w
    = (Ok (Some (setRequestId (serial (caseRequestsT (store w)))
                   (caseRequestValues request (changesOf request w)
                      (clock w) (jsonb w)))),
       w')
    /\ calm w'
    /\ requests CaseKind w'
       = (requests CaseKind w
          ++ [setRequestId (serial (caseRequestsT (store w)))
                (caseRequestValues request (changesOf request w)
                   (clock w) (jsonb w))])%list.
Proof.
  intros C.
  assert (Ct : calm (ticked w)) by auto with calm.
  unfold createCaseRequest, changesOf, originalOf, stored, requests, tableOf.
  unfold bind at 1. unfold newDate at 1. cbv beta iota.
  destruct (truthy (InsertCaseRequest.originalRequestId request)) eqn:T.
  - destruct (InsertCaseRequest.originalRequestId request) as [o|] eqn:O;
      [|discriminate].
    unfold bind, select, insert_returning, withJsonb, ret.
    rewrite (call_calm _ Ct); cbv beta iota; cbn [fst snd].
    rewrite evalSelect_one. cbn [store ticked].
    change (fun r : Request.t => Request.id r =? o) with (eqZ Request.id o).
    destruct (find (eqZ Request.id o) (rows (get caseRequests (store w))));
      cbv beta iota;
      (rewrite call_calm by auto with calm); cbv beta iota;
      cbn [fst snd first hd_error];
      eexists; (split; [reflexivity|]);
      (split; [auto with calm | reflexivity]).
  - unfold bind, select, insert_returning, withJsonb, ret. cbv beta iota.
    rewrite (call_calm _ Ct); cbv beta iota; cbn [fst snd first hd_error].
    eexists; (split; [reflexivity|]).
    split; [auto with calm | reflexivity].
Qed.


Lemma createCaseRequest_calm (request : InsertCaseRequest.t) (w : World) :
  calm w ->
  exists r w',
    createCaseRequest request w = (Ok (Some r), w')
    /\ requests CaseKind w' = (requests CaseKind w ++ [r])%list
    /\ Request.status r
       = (if truthy (InsertCaseRequest.originalRequestId request)
          then "resubmitted" else "submitted")
    /\ Request.isResubmission r
       = truthy (InsertCaseRequest.originalRequestId request)
    /\ Request.originalRequestId r = InsertCaseRequest.originalRequestId request
    /\ Request.changes r = changesOrNull (changesOf request w)
    /\ Request.createdAt r = clock w
    /\ Request.updatedAt r = clock w.
Proof.
  intros C.
  assert (Ct : calm (ticked w)) by auto with calm.
  unfold createCaseRequest, caseRequestValues, changesOf, originalOf, stored,
    requests, tableOf.
  unfold bind at 1. unfold newDate at 1. cbv beta iota.
  destruct (truthy (InsertCaseRequest.originalRequestId request)) eqn:T.
  - destruct (InsertCaseRequest.originalRequestId request) as [o|] eqn:O;
      [|discriminate].
    unfold bind, select, insert_returning, withJsonb, ret.
    rewrite (call_calm _ Ct); cbv beta iota; cbn [fst snd].
    rewrite evalSelect_one. cbn [store ticked].
    change (fun r : Request.t => Request.id r =? o) with (eqZ Request.id o).
    destruct (find (eqZ Request.id o) (rows (get caseRequests (store w))));
      cbv beta iota;
      (rewrite call_calm by auto with calm); cbv beta iota; cbn [fst snd first hd_error];
      do 2 eexists; (split; [reflexivity|]);
      cbn; repeat split; reflexivity.
  - unfold bind, select, insert_returning, withJsonb, ret. cbv beta iota.
    rewrite (call_calm _ Ct); cbv beta iota; cbn [fst snd first hd_error].
    do 2 eexists; (split; [reflexivity|]).
    cbn; repeat split; reflexivity.
Qed.

Lemma createExtensionRequest_calm (request : InsertExtensionRequest.t)
  (w : World) :
  calm w ->
  exists r w',
    createExtensionRequest request w = (Ok (Some r), w')
    /\ requests ExtensionKind w' = (requests ExtensionKind w ++ [r])%list
    /\ Request.status r = InsertExtensionRequest.status request
    /\ Request.isResubmission r = false
    /\ Request.originalRequestId r = None
    /\ Request.changes r = None
    /\ Request.createdAt r = clock w
    /\ Request.updatedAt r = clock w.
Proof.
  intros C.
  assert (Ct : calm (ticked w)) by auto with calm.
  unfold createExtensionRequest, bind, newDate, insert_returning, ret.
  rewrite (call_calm _ Ct); cbv beta iota; cbn [fst snd first hd_error].
  do 2 eexists; (split; [reflexivity|]).
  cbn; repeat split; reflexivity.
Qed.

(** C2 (as amended): under a store that serves its calls both creations
    succeed and set [createdAt] and [updatedAt] to one reading of the
    clock.  [createCaseRequest] gives status "resubmitted" and
    [isResubmission = true] when [originalRequestId] is present and
    non-zero, also when no stored record has that id (then no change list
    is kept), and status "submitted" when it is absent.
    [createExtensionRequest] stores the status of its payload. *)
Theorem create_status_and_times (w : World) :
  calm w ->
  (forall request : InsertCaseRequest.t,
      exists r w',
        createCaseRequest request w = (Ok (Some r), w')
        /\ In r (requests CaseKind w')
        /\ Request.createdAt r = clock w
        /\ Request.updatedAt r = clock w
        /\ (forall o,
              InsertCaseRequest.originalRequestId request = Some o ->
              o <> 0 ->
              Request.status r = "resubmitted"
              /\ Request.isResubmission r = true
              /\ (stored CaseKind o w = None -> Request.changes r = None))
        /\ (InsertCaseRequest.originalRequestId request = None ->
            Request.status r = "submitted"
            /\ Request.isResubmission r = false))
  /\ (forall request : InsertExtensionRequest.t,
      exists r w',
        createExtensionRequest request w = (Ok (Some r), w')
        /\ In r (requests ExtensionKind w')
        /\ Request.createdAt r = clock w
        /\ Request.updatedAt r = clock w
        /\ Request.status r = InsertExtensionRequest.status request).
Proof.
  intros C. split; intros request.
  - destruct (createCaseRequest_calm request C)
      as (r & w' & E & R & St & Re & Or & Ch & Cr & Up).
    exists r, w'. split; [exact E|].
    split; [rewrite R; apply in_or_app; right; now left|].
    split; [exact Cr|]. split; [exact Up|]. split.
    + intros o O N.
      assert (T : truthy (InsertCaseRequest.originalRequestId request) = true).
      { rewrite O. cbn [truthy]. now destruct (Z.eqb_spec o 0). }
      rewrite St, Re, T. repeat split.
      intros M. rewrite Ch. unfold changesOf, originalOf. now rewrite T, O, M.
    + intros O. rewrite St, Re, O. split; reflexivity.
  - destruct (createExtensionRequest_calm request C)
      as (r & w' & E & R & St & _ & _ & _ & Cr & Up).
    exists r, w'. split; [exact E|].
    split; [rewrite R; apply in_or_app; right; now left|].
    auto.
Qed.


(** ** ORDER BY *)

Section Sorting.
Variable R : Type.
Variable key : R -> Time.

Let older (a b : R) : Prop := key b <= key a.

Lemma insertBy_perm (o : R -> R -> bool) (x : R) (l : list R) :
  Permutation (x :: l) (insertBy o x l).
Proof.
  induction l as [|y l IH]; simpl; [reflexivity|].
  destruct (o x y); [reflexivity|].
  etransitivity; [apply perm_swap|]. now constructor.
Qed.

Lemma sortBy_perm (o : R -> R -> bool) (l : list R) :
  Permutation l (sortBy o l).
Proof.
  induction l as [|x l IH]; simpl; [constructor|].
  etransitivity; [|apply insertBy_perm]. now constructor.
Qed.

Lemma insertBy_sorted (x : R) (l : list R) :
  StronglySorted older l -> StronglySorted older (insertBy (desc key) x l).
Proof.
  induction 1 as [|y l S IH F]; simpl.
  - repeat constructor.
  - unfold desc at 1. destruct (Z.leb_spec (key y) (key x)) as [L|L].
    + constructor; [now constructor|].
      constructor; [exact L|].
      eapply Forall_impl; [|exact F]. unfold older; intros; lia.
    + constructor; [exact IH|].
      eapply Permutation_Forall; [apply insertBy_perm|].
      constructor; [unfold older; lia | exact F].
Qed.

Lemma sortBy_sorted (l : list R) :
  StronglySorted older (sortBy (desc key) l).
Proof.
  induction l as [|x l IH]; simpl; [constructor|].
  now apply insertBy_sorted.
Qed.
End Sorting.

(** ** The list queries *)

(** [getAll] lists the rows that are not archived, newest first. *)
Lemma getAll_served (k : Kind) (w : World) :
  nextFault w = None ->
  exists l,
    getAll k w = (Ok l, settled w (store w))
    /\ Permutation (filter (eqB Request.isArchived false) (requests k w)) l
    /\ newestFirst l.
Proof.
  intros F.
  destruct k; unfold getAll, getAllCaseRequests, getAllExtensionRequests,
    select, call; rewrite F; cbn [fst snd];
    (eexists; split; [reflexivity|]);
    unfold evalSelect; cbn [whereC orderC limitC table where_ orderBy select_from];
    (split; [apply sortBy_perm | apply sortBy_sorted]).
Qed.

(** The chained [.where(...)] calls of the by-user queries leave only the
    last condition: the query is the one of [getAll]. *)
Lemma getByUser_is_getAll (k : Kind) (userId : Z) (w : World) :
  nextFault w = None ->
  getByUser k userId w = getAll k w.
Proof.
  intros F.
  destruct k; [|reflexivity].
  unfold getByUser, getAll, getCaseRequestsByUser, getAllCaseRequests,
    tryCatch, bind, select, call, ret.
  rewrite F. reflexivity.
Qed.

(** ** Operations on an id that does not resolve *)

Lemma put_same_case (s : Store) :
  put caseRequests
    (mkTable (rows (caseRequestsT s)) (serial (caseRequestsT s))) s = s.
Proof. destruct s as [u [c cs] e]; reflexivity. Qed.

Lemma put_same_extension (s : Store) :
  put extensionRequests
    (mkTable (rows (extensionRequestsT s)) (serial (extensionRequestsT s))) s
  = s.
Proof. destruct s as [u c [e es]]; reflexivity. Qed.

Lemma filter_negb_none {R} (c : R -> bool) (l : list R) :
  find c l = None -> filter (fun r => negb (c r)) l = l.
Proof.
  induction l as [|x l IH]; simpl; [reflexivity|].
  destruct (c x); [discriminate|]. intros H; simpl. now rewrite IH.
Qed.

Lemma hide_missing (k : Kind) (id userId : Z) (w : World) :
  nextFault w = None ->
  stored k id w = None ->
  hide k id userId w = (Throw (Js.Error "Request not found"), settled w (store w)).
Proof.
  intros F S.
  destruct k; unfold hide, hideUserCaseRequest, hideUserExtensionRequest,
    stored, requests, tableOf in *;
    unfold bind, select, call; rewrite F; cbn [fst snd];
    rewrite evalSelect_where, first_filter, S; reflexivity.
Qed.

Lemma archive_missing (k : Kind) (id : Z) (w : World) :
  nextFault w = None ->
  stored k id w = None ->
  archive k id w = (Ok tt, settled w (store w)).
Proof.
  intros F S.
  destruct k; unfold archive, archiveCaseRequest, archiveExtensionRequest,
    stored, requests, tableOf in *;
    unfold update, update_returning, bind, call, ret; rewrite F;
    cbn [get caseRequests extensionRequests] in *;
    rewrite (@updateRows_none _ _ _ _ S); cbn [fst snd];
    [rewrite put_same_case | rewrite put_same_extension]; reflexivity.
Qed.

Lemma remove_missing (k : Kind) (id : Z) (w : World) :
  nextFault w = None ->
  stored k id w = None ->
  remove k id w = (Ok tt, settled w (store w)).
Proof.
  intros F S.
  destruct k; unfold remove, deleteCaseRequest, deleteExtensionRequest,
    stored, requests, tableOf in *;
    unfold delete, call; rewrite F;
    cbn [get caseRequests extensionRequests fst snd] in *;
    rewrite (@filter_negb_none _ _ _ S);
    [rewrite put_same_case | rewrite put_same_extension]; reflexivity.
Qed.

Lemma getById_served (k : Kind) (id : Z) (w : World) :
  nextFault w = None ->
  getById k id w = (Ok (stored k id w), settled w (store w)).
Proof.
  intros F.
  destruct k; unfold getById, getCaseRequest, getExtensionRequest,
    stored, requests, tableOf;
    unfold tryCatch, bind, select, call, ret; rewrite F; cbn [fst snd];
    rewrite evalSelect_where, first_filter; reflexivity.
Qed.

Lemma getUser_served (id : Z) (w : World) :
  nextFault w = None ->
  getUser id w
  = (Ok (find (eqZ User.id id) (rows (usersT (store w)))), settled w (store w)).
Proof.
  intros F.
  unfold getUser, tryCatch, bind, select, call, ret; rewrite F; cbn [fst snd].
  rewrite evalSelect_where, first_filter; reflexivity.
Qed.

(** C7 (as amended): on an id that resolves to no record, under a store
    that serves its calls, [updateStatus] and [hide] fail with a
    not-found error; [archive] and [delete] complete without error; the
    single-record lookups return the absent result; none of them changes
    the store. *)
Theorem missing_id_policy (k : Kind) (id : Z) (w : World) :
  calm w ->
  stored k id w = None ->
  (forall status feedback,
      updateStatus k id status feedback w
      = (Throw (Js.Error ("Request with ID " ++ Js.numToString id ++ " not found")),
         settled w (store w)))
  /\ (forall userId,
      hide k id userId w
      = (Throw (Js.Error "Request not found"), settled w (store w)))
  /\ archive k id w = (Ok tt, settled w (store w))
  /\ remove k id w = (Ok tt, settled w (store w))
  /\ getById k id w = (Ok None, settled w (store w))
  /\ (find (eqZ User.id id) (rows (usersT (store w))) = None ->
      getUser id w = (Ok None, settled w (store w)))
  /\ store (settled w (store w)) = store w.
Proof.
  intros C S. pose proof (calm_nextFault C) as F.
  split; [intros; now apply updateStatus_missing|].
  split; [intros; now apply hide_missing|].
  split; [now apply archive_missing|].
  split; [now apply remove_missing|].
  split; [rewrite getById_served, S by exact F; reflexivity|].
  split; [|reflexivity].
  intros U. rewrite getUser_served, U by exact F. reflexivity.
Qed.

(** ** Failures of the backing store *)

Lemma nextFault_ticked (w : World) : nextFault (ticked w) = nextFault w.
Proof. reflexivity. Qed.

(** The lookups that catch: a rejected call gives the absent result. *)
Lemma guarded_reads_swallow (w : World) (e : Js.Exn) :
  nextFault w = Some e ->
  (forall id, fst (getUser id w) = Ok None)
  /\ (forall name, fst (getUserByUsername name w) = Ok None)
  /\ (forall email, fst (getUserByEmail email w) = Ok None)
  /\ (forall id, fst (getCaseRequest id w) = Ok None)
  /\ (forall id, fst (getExtensionRequest id w) = Ok None)
  /\ (forall userId, fst (getCaseRequestsByUser userId w) = Ok []).
Proof.
  intros F.
  repeat split; intros;
    unfold getUser, getUserByUsername, getUserByEmail, getCaseRequest,
      getExtensionRequest, getCaseRequestsByUser,
      tryCatch, bind, select, call, ret;
    rewrite F; reflexivity.
Qed.

(** The list queries that do not catch: a rejected call rejects them. *)
Lemma unguarded_reads_propagate (w : World) (e : Js.Exn) :
  nextFault w = Some e ->
  fst (getAllCaseRequests w) = Throw e
  /\ (forall userId, fst (getExtensionRequestsByUser userId w) = Throw e)
  /\ fst (getAllExtensionRequests w) = Throw e
  /\ fst (getPendingUsers w) = Throw e
  /\ fst (getApprovedUsers w) = Throw e.
Proof.
  intros F.
  repeat split; intros;
    unfold getAllCaseRequests, getExtensionRequestsByUser,
      getAllExtensionRequests, getPendingUsers, getApprovedUsers,
      select, call;
    rewrite F; reflexivity.
Qed.

(** Every write rejects when its first call to the store is rejected,
    and leaves the store as it was. *)
Lemma writes_propagate (w : World) (e : Js.Exn) :
  nextFault w = Some e ->
  Js.instanceofError e = true ->
  forall (m : M unit) (k : Kind) (id userId : Z) (status : string)
         (feedback : option string) (user : InsertUser.t) (set : UserSet.t)
         (c : InsertCaseRequest.t) (x : InsertExtensionRequest.t),
    In m [ bind (createUser user) (fun _ => ret tt);
           bind (updateUser id set) (fun _ => ret tt);
           bind (approveUser id) (fun _ => ret tt);
           bind (rejectUser id status) (fun _ => ret tt);
           removeUser id;
           bind (createCaseRequest c) (fun _ => ret tt);
           bind (createExtensionRequest x) (fun _ => ret tt);
           bind (updateStatus k id status feedback) (fun _ => ret tt);
           hide k id userId;
           archive k id;
           remove k id ] ->
    fst (m w) = Throw e /\ store (snd (m w)) = store w.
Proof.
  intros F I m k id userId status feedback user set c x H.
  cbn [In] in H.
  repeat (destruct H as [<-|H]);
    try contradiction; try destruct k;
    unfold createUser, updateUser, approveUser, rejectUser, removeUser,
      createCaseRequest, createExtensionRequest,
      updateStatus, updateCaseRequest, updateExtensionRequest,
      hide, hideUserCaseRequest, hideUserExtensionRequest,
      archive, archiveCaseRequest, archiveExtensionRequest,
      remove, deleteCaseRequest, deleteExtensionRequest,
      update, update_returning, insert_returning, withJsonb, delete, select,
      tryCatch, bind, newDate, call, ret, throw;
    try destruct (truthy (InsertCaseRequest.originalRequestId c));
    rewrite ?nextFault_ticked, F; cbv beta iota; rewrite ?I;
    split; reflexivity.
Qed.

(** A rejected second call of an allowed update rejects it as well, and
    the stored record stays as it was. *)
Lemma updateStatus_write_fault (k : Kind) (id : Z) (status : string)
  (feedback : option string) (w : World) (r0 : Request.t) (e : Js.Exn)
  (fs : list (option Js.Exn)) :
  faults w = None :: Some e :: fs ->
  Js.instanceofError e = true ->
  stored k id w = Some r0 ->
  allowed k (Request.status r0) status = true ->
  exists w',
    updateStatus k id status feedback w = (Throw e, w')
    /\ store w' = store w.
Proof.
  intros F I S A.
  assert (F0 : nextFault w = None) by (unfold nextFault; now rewrite F).
  open_update k.
  all: unfold call at 1; rewrite F0; cbv beta iota; cbn [fst snd].
  all: rewrite evalSelect_one, S.
  all: rewrite (checkTransition_allowed _ _ _ A); unfold ret at 1; cbv beta iota.
  all: unfold statusSet, bind, newDate, ret, update_returning, call.
  all: destruct (String.eqb status "complete"), (String.eqb status "pending");
       cbv beta iota; unfold nextFault, ticked, settled; cbn [faults];
       rewrite F; cbn [tl]; rewrite I;
       eexists; split; reflexivity.
Qed.

(** ** Behaviour at concrete inputs *)

(** Evaluates the conjuncts of a closed goal from left to right. *)
Ltac evaluate :=
  repeat (split; [lazy; first [reflexivity | discriminate]|]);
  lazy; first [reflexivity | discriminate].

(** The first registrant becomes admin and approved whatever the payload
    says; the second does not. *)
Example first_and_second_user :
  exists u1 w1 u2 w2,
    createUser Sample.bob Sample.world0 = (Ok (Some u1), w1)
    /\ createUser Sample.alice w1 = (Ok (Some u2), w2)
    /\ (User.isAdmin u1, User.isApproved u1) = (true, true)
    /\ (User.isAdmin u2, User.isApproved u2) = (false, false).
Proof. do 4 eexists. evaluate. Qed.

(** The lifecycle scenario of section 8: submitted, pending, complete,
    and no way back from complete. *)
Example lifecycle_of_A :
  exists p w1 c w2,
    updateCaseRequest 1 "pending" None Sample.worldA = (Ok p, w1)
    /\ Request.receivedAt p = Some 2003
    /\ Request.completedAt p = None
    /\ updateCaseRequest 1 "complete" None w1 = (Ok c, w2)
    /\ Request.completedAt c = Some 2007
    /\ fst (updateCaseRequest 1 "pending" None w2)
       = Throw (Js.Error "Invalid status transition from complete to pending").
Proof. do 4 eexists. evaluate. Qed.

(** The resubmission scenario of section 8. *)
Example resubmission_of_A :
  exists b w,
    createCaseRequest Sample.caseB Sample.worldA = (Ok (Some b), w)
    /\ Request.changes b = Some [Change.mk "reason" "x" (Some "y")]
    /\ Request.status b = "resubmitted".
Proof. do 2 eexists. evaluate. Qed.

(** C1: an extension request whose stored status names a member of
    [Object.prototype] (here "constructor", accepted by
    [createExtensionRequest]) makes the transition check throw a
    TypeError instead of the invalid-status-transition error; the pair is
    outside the table and the record is left as it was. *)
Theorem inherited_status_breaks_denial :
  exists r w,
    createExtensionRequest (Sample.extension "constructor") Sample.world0
    = (Ok (Some r), w)
    /\ Request.id r = 1
    /\ Request.status r = "constructor"
    /\ allowed ExtensionKind "constructor" "pending" = false
    /\ fst (updateExtensionRequest 1 "pending" None w)
       = Throw (Js.TypeError
                  "validTransitions[currentStatus]?.includes is not a function")
    /\ fst (updateExtensionRequest 1 "pending" None w)
       <> Throw (Js.Error (invalidTransition "constructor" "pending"))
    /\ store (snd (updateExtensionRequest 1 "pending" None w)) = store w.
Proof.
  do 2 eexists. evaluate.
Qed.

(** C2, as stated, fails for extension requests: created without any
    original, the record has the status its caller passed. *)
Lemma createExtensionRequest_keeps_caller_status :
  exists r w,
    createExtensionRequest (Sample.extension "pending") Sample.world0
    = (Ok (Some r), w)
    /\ Request.originalRequestId r = None
    /\ Request.status r = "pending"
    /\ Request.status r <> "submitted".
Proof.
  do 2 eexists. evaluate.
Qed.

(** C6: for user 7 the by-user queries return the request user 8 owns
    and the request user 7 has hidden, in both tables. *)
Theorem getByUser_returns_foreign_and_hidden :
  fst (getCaseRequestsByUser 7 Sample.worldTwo)
  = Ok [Sample.ownedBy8; Sample.hiddenOf7]
  /\ fst (getExtensionRequestsByUser 7 Sample.worldTwo)
     = Ok [Sample.ownedBy8; Sample.hiddenOf7]
  /\ Request.userId Sample.ownedBy8 = 8
  /\ Request.hiddenBy Sample.hiddenOf7 = Some [7].
Proof. evaluate. Qed.

(** C7, as stated, fails for archive and delete: on an id that resolves
    to nothing they complete without error. *)
Lemma archive_and_delete_accept_missing_id :
  stored CaseKind 42 Sample.world0 = None
  /\ stored ExtensionKind 42 Sample.world0 = None
  /\ fst (archiveCaseRequest 42 Sample.world0) = Ok tt
  /\ fst (deleteCaseRequest 42 Sample.world0) = Ok tt
  /\ fst (archiveExtensionRequest 42 Sample.world0) = Ok tt
  /\ fst (deleteExtensionRequest 42 Sample.world0) = Ok tt.
Proof. evaluate. Qed.

(** C8: when the store rejects the call, [getExtensionRequestsByUser],
    [getAllCaseRequests] and [getAllExtensionRequests] reject with the
    store's error, while [getCaseRequestsByUser] returns the empty list. *)
Theorem list_queries_reject_on_store_error :
  fst (getExtensionRequestsByUser 7 Sample.outage)
  = Throw (Js.Error "connection terminated")
  /\ fst (getAllCaseRequests Sample.outage)
     = Throw (Js.Error "connection terminated")
  /\ fst (getAllExtensionRequests Sample.outage)
     = Throw (Js.Error "connection terminated")
  /\ fst (getCaseRequestsByUser 7 Sample.outage) = Ok [].
Proof. evaluate. Qed.

(** ** Storage backend selection *)

Section Selection.
Import Storage.
Variable base64ToUtf8 : string -> string.

(** Credential materialization fails exactly when the blob is unset or
    empty, or the file cannot be written; it then leaves the environment
    as it was. *)
Lemma setup_fails (p p1 : Process) (error : Js.Exn) :
  setupGoogleCloudCredentials base64ToUtf8 p = (Throw error, p1) ->
  env p1 = env p
  /\ (falsy (GOOGLE_APPLICATION_CREDENTIALS_JSON (env p)) = true
      \/ writeFails p = Some error).
Proof.
  unfold setupGoogleCloudCredentials.
  destruct (falsy (GOOGLE_APPLICATION_CREDENTIALS_JSON (env p))) eqn:F.
  - intros E; inversion E; subst. auto.
  - cbn [writeFails emit]. destruct (writeFails p) as [e|]; intros E;
      inversion E; subst; auto.
Qed.

(** What the start-up does in each branch.  With the use-local flag set
    it only logs (no decoding, no file, the environment untouched) and
    returns the object [new GoogleCloudStorage()] gives in that process.
    With the flag unset and the credential materialization failing, it
    returns such an object exactly when the fallback flag is set, and
    otherwise rejects with the failure.  In both cases the object is
    backed by local storage exactly when the client of the cloud store
    cannot be constructed. *)
Lemma initializeStorage_branches (p : Process) :
  (isTrue (USE_LOCAL_STORAGE (env p)) = true ->
     initializeStorage base64ToUtf8 p
     = (Ok (newGoogleCloudStorage p), emit (Log "Using local storage") p)
     /\ (forall blob,
           In (DecodeBase64 blob)
              (trace (snd (initializeStorage base64ToUtf8 p))) ->
           In (DecodeBase64 blob) (trace p))
     /\ env (snd (initializeStorage base64ToUtf8 p)) = env p
     /\ (fst (initializeStorage base64ToUtf8 p) = Ok Local
         <-> clientFails p <> None))
  /\ (isTrue (USE_LOCAL_STORAGE (env p)) = false ->
      forall error p1,
        setupGoogleCloudCredentials base64ToUtf8 p = (Throw error, p1) ->
        ((exists b, fst (initializeStorage base64ToUtf8 p) = Ok b)
         <-> isTrue (FALLBACK_TO_LOCAL (env p)) = true)
        /\ (isTrue (FALLBACK_TO_LOCAL (env p)) = false ->
            initializeStorage base64ToUtf8 p = (Throw error, p1))
        /\ (fst (initializeStorage base64ToUtf8 p) = Ok Local
            <-> isTrue (FALLBACK_TO_LOCAL (env p)) = true
                /\ clientFails p <> None)).
Proof.
  assert (L : forall q : Process,
             clientFails q = clientFails p ->
             Ok (newGoogleCloudStorage q) = Ok Local
             <-> clientFails p <> None).
  { intros q Q. unfold newGoogleCloudStorage. rewrite Q.
    destruct (clientFails p); split; congruence. }
  split.
  - intros U. unfold initializeStorage. rewrite U.
    cbn [env emit trace snd fst].
    split; [reflexivity|]. split; [|split; [reflexivity|]].
    + intros blob I. apply in_app_or in I. destruct I as [I|[I|[]]];
        [exact I | discriminate].
    + apply (L p). reflexivity.
  - intros U error p1 E.
    assert (Q : clientFails p1 = clientFails p).
    { revert E. unfold setupGoogleCloudCredentials.
      destruct (falsy (GOOGLE_APPLICATION_CREDENTIALS_JSON (env p)));
        [intros E; now inversion E|].
      cbn [writeFails emit]. destruct (writeFails p); intros E;
        now inversion E. }
    destruct (setup_fails _ E) as [Ev _].
    unfold initializeStorage. rewrite U, E, Ev.
    destruct (isTrue (FALLBACK_TO_LOCAL (env p))); cbn [fst].
    + split; [split; [reflexivity | eexists; reflexivity]|].
      split; [discriminate|].
      rewrite (L (emit _ p1) Q). tauto.
    + split; [split; [intros [b B]; discriminate | discriminate]|].
      split; [reflexivity|].
      split; [discriminate | intros [D _]; discriminate].
Qed.

End Selection.


(** ** The theorems at the sample worlds *)

(** Checks the keys of a concrete store. *)
Ltac keyed :=
  unfold wellFormed, wellKeyed; cbn;
  repeat split; repeat constructor; cbn; intuition (try lia; try discriminate).

(** Checks the statuses of a concrete store. *)
Ltac statuses :=
  unfold caseStatusesValid, caseStatuses; cbn;
  repeat constructor; cbn; repeat (first [left; reflexivity | right]).

Lemma create_status_and_times_witness :
  calm Sample.world0
  /\ ((forall request : InsertCaseRequest.t,
        exists r w',
          createCaseRequest request Sample.world0 = (Ok (Some r), w')
          /\ In r (requests CaseKind w')
          /\ Request.createdAt r = clock Sample.world0
          /\ Request.updatedAt r = clock Sample.world0
          /\ (forall o,
                InsertCaseRequest.originalRequestId request = Some o ->
                o <> 0 ->
                Request.status r = "resubmitted"
                /\ Request.isResubmission r = true
                /\ (stored CaseKind o Sample.world0 = None ->
                    Request.changes r = None))
          /\ (InsertCaseRequest.originalRequestId request = None ->
              Request.status r = "submitted"
              /\ Request.isResubmission r = false))
      /\ (forall request : InsertExtensionRequest.t,
        exists r w',
          createExtensionRequest request Sample.world0 = (Ok (Some r), w')
          /\ In r (requests ExtensionKind w')
          /\ Request.createdAt r = clock Sample.world0
          /\ Request.updatedAt r = clock Sample.world0
          /\ Request.status r = InsertExtensionRequest.status request)).
Proof.
  split; [reflexivity | apply (@create_status_and_times Sample.world0)].
  reflexivity.
Defined.

Lemma updateStatus_stamps_witness :
  calm Sample.worldA
  /\ stored CaseKind 1 Sample.worldA = Some Sample.recordA
  /\ allowed CaseKind (Request.status Sample.recordA) "pending" = true
  /\ exists r w',
       updateStatus CaseKind 1 "pending" None Sample.worldA = (Ok r, w')
       /\ stored CaseKind 1 w' = Some r
       /\ Request.status r = "pending"
       /\ Request.updatedAt r = clock Sample.worldA
       /\ ("pending" = "pending" ->
           exists t, Request.receivedAt r = Some t
                     /\ clock Sample.worldA <= t <= clock w'
                     /\ Request.completedAt r
                        = Request.completedAt Sample.recordA)
       /\ ("pending" = "complete" ->
           exists t, Request.completedAt r = Some t
                     /\ clock Sample.worldA <= t <= clock w').
Proof.
  split; [reflexivity|]. split; [reflexivity|]. split; [reflexivity|].
  apply (@updateStatus_stamps CaseKind 1 "pending" None Sample.worldA
           Sample.recordA); reflexivity.
Defined.


Lemma createUser_first_user_flags_witness :
  calm Sample.world0
  /\ exists u w',
       createUser Sample.alice Sample.world0 = (Ok (Some u), w')
       /\ ((User.isAdmin u = true /\ User.isApproved u = true)
           <-> evalSelect (select_from users) (store Sample.world0) = [])
       /\ (evalSelect (select_from users) (store Sample.world0) <> [] ->
           User.isAdmin u = false /\ User.isApproved u = false)
       /\ In u (rows (usersT (store w'))).
Proof.
  split; [reflexivity|].
  apply (@createUser_first_user_flags Sample.alice Sample.world0).
  reflexivity.
Defined.

Lemma missing_id_policy_witness :
  calm Sample.world0
  /\ stored CaseKind 42 Sample.world0 = None
  /\ (forall status feedback,
        updateStatus CaseKind 42 status feedback Sample.world0
        = (Throw (Js.Error ("Request with ID " ++ Js.numToString 42
                              ++ " not found")),
           settled Sample.world0 (store Sample.world0)))
  /\ (forall userId,
        hide CaseKind 42 userId Sample.world0
        = (Throw (Js.Error "Request not found"),
           settled Sample.world0 (store Sample.world0)))
  /\ archive CaseKind 42 Sample.world0
     = (Ok tt, settled Sample.world0 (store Sample.world0))
  /\ remove CaseKind 42 Sample.world0
     = (Ok tt, settled Sample.world0 (store Sample.world0))
  /\ getById CaseKind 42 Sample.world0
     = (Ok None, settled Sample.world0 (store Sample.world0))
  /\ (find (eqZ User.id 42) (rows (usersT (store Sample.world0))) = None ->
      getUser 42 Sample.world0
      = (Ok None, settled Sample.world0 (store Sample.world0)))
  /\ store (settled Sample.world0 (store Sample.world0))
     = store Sample.world0.
Proof.
  split; [reflexivity|]. split; [reflexivity|].
  apply (@missing_id_policy CaseKind 42 Sample.world0); reflexivity.
Defined.

Lemma createUser_flags_ignore_payload_witness :
  sameButFlags Sample.alice Sample.plainAlice
  /\ createUser Sample.alice Sample.world0
     = createUser Sample.plainAlice Sample.world0.
Proof.
  assert (S : sameButFlags Sample.alice Sample.plainAlice)
    by (repeat split; reflexivity).
  split; [exact S|].
  exact (proj1 (@createUser_flags_ignore_payload Sample.alice
                  Sample.plainAlice Sample.world0) S).
Defined.


(* ================================================================== *)
(** * Further properties of the repository and of the start-up *)
(* ================================================================== *)

Import Lifecycle.

(** ** What one call does to the store *)

(** Closes a goal where the call has written nothing. *)
Ltac unchanged :=
  repeat match goal with
    | |- context [Js.instanceofError ?e] => destruct (Js.instanceofError e)
    end;
  unfold throw, ret; cbn [fst snd store settled ticked];
  first [ exact (Unchanged _)
        | match goal with
          | H : store _ = _ |- _ =>
              rewrite H; cbn [store settled ticked]; exact (Unchanged _)
          end ].

(** Splits on whether each coming store call is rejected. *)
Ltac rejections :=
  repeat match goal with
    | |- context [nextFault ?x] => destruct (nextFault x)
    end.

(** A transition the check lets through is one of the table. *)
Lemma checkTransition_passes (k : Kind) (current status : string)
  (arr : list string) :
  Js.getProp (transitionsOf k) current = Js.Own arr ->
  Js.includes arr status = true ->
  allowed k current status = true.
Proof.
  destruct k; unfold Js.getProp, allowed;
    cbn [transitionsOf caseTransitions extensionTransitions Js.assoc];
    strings; intros E; inversion E; subst; cbn [Js.includes]; strings.
  all: destruct (Js.includes Js.objectPrototypeKeys current); discriminate.
Qed.

Lemma statusSet_shape (status : string) (feedback : option string) (w : World) :
  exists set,
    fst (statusSet status feedback w) = Ok set
    /\ store (snd (statusSet status feedback w)) = store w
    /\ faults (snd (statusSet status feedback w)) = faults w
    /\ RequestSet.status set = Some status
    /\ RequestSet.adminFeedback set = feedback
    /\ RequestSet.hiddenBy set = None
    /\ RequestSet.isArchived set = None.
Proof.
  unfold statusSet, bind, newDate, ret.
  destruct (String.eqb status "complete"), (String.eqb status "pending");
    cbv beta iota; eexists; repeat split; reflexivity.
Qed.

Lemma updateStatus_effect (k : Kind) (id : Z) (status : string)
  (feedback : option string) (w : World) :
  Effect (store w) (store (snd (updateStatus k id status feedback w))).
Proof.
  assert (G : forall (t : list (string * list string)) (msg : string),
             t = transitionsOf k ->
             Effect (store w)
               (store (snd (tryCatch
                  (existingRequest <-
                     select (select_from (tableOf k)
                             |> where_ (eqZ Request.id id) |> limit 1);;
                   match existingRequest with
                   | [] => throw (Js.Error ("Request with ID "
                                  ++ Js.numToString id ++ " not found"))
                   | existing :: _ =>
                       _ <- checkTransition t (Request.status existing) status;;
                       set <- statusSet status feedback;;
                       l <- update_returning (tableOf k) (RequestSet.apply set)
                              (eqZ Request.id id);;
                       match first l with
                       | None => throw (Js.Error msg)
                       | Some request => ret request
                       end
                   end)
                  (fun error =>
                     if Js.instanceofError error then throw error
                     else throw (Js.Error msg)) w)))).
  { intros t msg Ht.
    unfold tryCatch, bind at 1, select, call.
    destruct (nextFault w) as [e|]; [unchanged|].
    cbn [fst snd]. rewrite evalSelect_one.
    destruct (find _ (rows (get (tableOf k) (store w))))
      as [existing|] eqn:Fe; [|unchanged].
    unfold bind at 1, checkTransition.
    destruct (Js.getProp t (Request.status existing)) as [arr| |] eqn:P;
      try unchanged.
    destruct (Js.includes arr status) eqn:I; [|unchanged].
    unfold ret at 1. cbv beta iota.
    destruct (statusSet_shape status feedback (settled w (store w)))
      as (set & E1 & E2 & E3 & S1 & _ & S2 & S3).
    unfold bind at 1.
    destruct (statusSet status feedback (settled w (store w))) as [o w1].
    cbn [fst snd] in E1, E2, E3. subst o. cbv beta iota.
    unfold bind, update_returning, call.
    destruct (nextFault w1) as [e|]; [unchanged|].
    cbn [fst snd store settled].
    rewrite E2. cbn [store settled] in *.
    match goal with
    | |- context [updateRows ?c ?f ?l] =>
        pose proof (updateRows_fst c f l) as U1;
        pose proof (updateRows_snd c f l) as U2;
        destruct (updateRows c f l) as [ch l2]
    end; cbn [fst snd] in *; subst ch l2.
    assert (Ef : Effect (store w)
                   (afterUpdate (tableOf k) (RequestSet.apply set)
                      (eqZ Request.id id) (store w))).
    { apply StatusWritten with (status := status) (r0 := existing); auto.
      rewrite Ht in P. exact (checkTransition_passes _ _ _ P I). }
    destruct (first _); cbn [fst snd store]; exact Ef. }
  destruct k; [apply (G caseTransitions "Failed to update case request")
              | apply (G extensionTransitions "Failed to update extension request")];
    reflexivity.
Qed.

(** Names the rows an update leaves, in a goal that runs [updateRows]. *)
Ltac rows_updated :=
  match goal with
  | |- context [updateRows ?c ?f ?l] =>
      let U1 := fresh "U" in
      let U2 := fresh "U" in
      pose proof (updateRows_fst c f l) as U1;
      pose proof (updateRows_snd c f l) as U2;
      destruct (updateRows c f l) as [? ?];
      cbn [fst snd] in U1, U2; subst
  end.

Lemma hide_effect (k : Kind) (id userId : Z) (w : World) :
  Effect (store w) (store (snd (hide k id userId w))).
Proof.
  destruct k; unfold hide, hideUserCaseRequest, hideUserExtensionRequest;
    unfold bind at 1, select, call;
    (destruct (nextFault w); [unchanged|]);
    cbn [fst snd]; rewrite evalSelect_where, first_filter;
    match goal with
    | |- context [find ?c ?l] => destruct (find c l) as [r0|] eqn:F
    end; try unchanged;
    unfold update, update_returning, bind, call;
    (destruct (nextFault _); [unchanged|]);
    cbn [fst snd store settled]; rows_updated;
    unfold ret; cbn [snd store settled].
  - exact (@HiddenByGrown _ CaseKind id userId r0 F).
  - exact (@HiddenByGrown _ ExtensionKind id userId r0 F).
Qed.

Lemma archive_effect (k : Kind) (id : Z) (w : World) :
  Effect (store w) (store (snd (archive k id w))).
Proof.
  destruct k; unfold archive, archiveCaseRequest, archiveExtensionRequest,
    update, update_returning, bind, call;
    (destruct (nextFault _); [unchanged|]);
    cbn [fst snd store settled]; rows_updated;
    unfold ret; cbn [snd store settled].
  - exact (@RequestArchived _ CaseKind id).
  - exact (@RequestArchived _ ExtensionKind id).
Qed.

Lemma remove_effect (k : Kind) (id : Z) (w : World) :
  Effect (store w) (store (snd (remove k id w))).
Proof.
  destruct k; unfold remove, deleteCaseRequest, deleteExtensionRequest,
    delete, call;
    (destruct (nextFault _); [unchanged|]);
    cbn [fst snd store settled].
  - exact (@RequestDeleted _ CaseKind id).
  - exact (@RequestDeleted _ ExtensionKind id).
Qed.

Lemma createCaseRequest_effect (request : InsertCaseRequest.t) (w : World) :
  Effect (store w) (store (snd (createCaseRequest request w))).
Proof.
  unfold createCaseRequest. unfold bind at 1, newDate at 1. cbv beta iota.
  assert (G : forall changes (w1 : World),
             store w1 = store w ->
             Effect (store w)
               (store (snd ((l <- withJsonb (fun back =>
                                  insert_returning caseRequests
                                    (caseRequestValues request changes
                                       (clock w) back));;
                             ret (first l)) w1)))).
  { intros changes w1 E. unfold bind, withJsonb, insert_returning, call, ret.
    destruct (nextFault w1); [unchanged|].
    cbn [fst snd store settled]. rewrite E.
    apply (@RequestInserted _ CaseKind). intros _.
    cbn [caseRequestValues Request.status].
    destruct (truthy _); auto. }
  destruct (truthy (InsertCaseRequest.originalRequestId request)).
  - unfold bind at 1. unfold bind at 1, select, call.
    destruct (nextFault (ticked w)); [unchanged|].
    cbn [fst snd].
    destruct (evalSelect _ _); unfold ret at 1; cbv beta iota;
      apply G; reflexivity.
  - unfold bind at 1, ret at 1. cbv beta iota. apply G; reflexivity.
Qed.

Lemma createExtensionRequest_effect (request : InsertExtensionRequest.t)
  (w : World) :
  Effect (store w) (store (snd (createExtensionRequest request w))).
Proof.
  unfold createExtensionRequest, bind, newDate, insert_returning, call, ret.
  destruct (nextFault _); [unchanged|].
  cbn [fst snd store settled ticked].
  apply (@RequestInserted _ ExtensionKind). discriminate.
Qed.

Lemma createUser_effect (p : InsertUser.t) (w : World) :
  Effect (store w) (store (snd (createUser p w))).
Proof.
  unfold createUser, bind, select, insert_returning, newDate, call, ret.
  destruct (nextFault w); [unchanged|]. cbn [fst snd].
  destruct (nextFault _); [unchanged|].
  cbn [fst snd store settled ticked]. apply UserInserted.
Qed.

Lemma judgeUser_effect (id : Z) (w : World) :
  Effect (store w) (store (snd (approveUser id w)))
  /\ forall feedback, Effect (store w) (store (snd (rejectUser id feedback w))).
Proof.
  split; [|intros feedback];
    unfold approveUser, rejectUser, update_returning, bind, call;
    (destruct (nextFault _); [unchanged|]);
    cbn [fst snd store settled]; rows_updated;
    unfold ret; cbn [snd store settled].
  - exact (@UserJudged _ id true None).
  - exact (@UserJudged _ id false (Some feedback)).
Qed.

Lemma removeUser_effect (id : Z) (w : World) :
  Effect (store w) (store (snd (removeUser id w))).
Proof.
  unfold removeUser, delete, call.
  destruct (nextFault _); [unchanged|].
  cbn [fst snd store settled]. apply UserRemoved.
Qed.

(** Whatever a call settles with, the store it leaves is the old one or
    the old one after one insert, one update by key or one delete by key. *)
Lemma perform_effect (c : Call) (w : World) :
  Effect (store w) (store (perform c w)).
Proof.
  destruct c; cbn [perform].
  - apply createUser_effect.
  - apply judgeUser_effect.
  - apply judgeUser_effect.
  - apply removeUser_effect.
  - apply createCaseRequest_effect.
  - apply createExtensionRequest_effect.
  - apply updateStatus_effect.
  - apply hide_effect.
  - apply archive_effect.
  - apply remove_effect.
Qed.

(** ** Keys *)

Lemma wellKeyed_insert {R} (key : R -> Z) (rs : list R) (n : Z) (v : R) :
  key v = n ->
  wellKeyed key (mkTable rs n) ->
  wellKeyed key (mkTable (rs ++ [v]) (n + 1)).
Proof.
  unfold wellKeyed; cbn [rows serial]. intros K [ND F].
  rewrite Forall_forall in F. split.
  - rewrite map_app. cbn [map]. apply NoDup_app; [exact ND | | ].
    + repeat constructor. intros [].
    + intros x I [E|[]]. apply in_map_iff in I. destruct I as (r & <- & I).
      specialize (F r I). lia.
  - apply Forall_app. split.
    + apply Forall_forall. intros r I. specialize (F r I). lia.
    + repeat constructor. lia.
Qed.

Lemma map_key_update {R} (key : R -> Z) (f : R -> R) (c : R -> bool)
  (rs : list R) :
  (forall r, key (f r) = key r) ->
  map key (map (fun r => if c r then f r else r) rs) = map key rs.
Proof.
  intros K. rewrite map_map. apply map_ext. intros r.
  destruct (c r); [apply K | reflexivity].
Qed.

Lemma wellKeyed_update {R} (key : R -> Z) (f : R -> R) (c : R -> bool)
  (rs : list R) (n : Z) :
  (forall r, key (f r) = key r) ->
  wellKeyed key (mkTable rs n) ->
  wellKeyed key (mkTable (map (fun r => if c r then f r else r) rs) n).
Proof.
  unfold wellKeyed; cbn [rows serial]. intros K [ND F]. split.
  - now rewrite map_key_update.
  - rewrite Forall_forall in *. intros r I.
    apply in_map_iff in I. destruct I as (r0 & <- & I).
    specialize (F r0 I). destruct (c r0); [rewrite K|]; exact F.
Qed.

Lemma NoDup_map_filter {R} (key : R -> Z) (c : R -> bool) (rs : list R) :
  NoDup (map key rs) -> NoDup (map key (filter c rs)).
Proof.
  induction rs as [|r rs IH]; cbn [map filter]; [auto|].
  intros ND. inversion ND as [|? ? N ND']; subst.
  destruct (c r); cbn [map]; [|auto].
  constructor; [|auto]. intros I. apply N.
  apply in_map_iff in I. destruct I as (x & E & I).
  apply filter_In in I. apply in_map_iff. exists x. tauto.
Qed.

Lemma wellKeyed_delete {R} (key : R -> Z) (c : R -> bool) (rs : list R)
  (n : Z) :
  wellKeyed key (mkTable rs n) ->
  wellKeyed key (mkTable (filter c rs) n).
Proof.
  unfold wellKeyed; cbn [rows serial]. intros [ND F]. split.
  - now apply NoDup_map_filter.
  - rewrite Forall_forall in *. intros r I. apply filter_In in I.
    now apply F.
Qed.

Lemma wellKeyed_eta {R} (key : R -> Z) (t : Table R) :
  wellKeyed key t <-> wellKeyed key (mkTable (rows t) (serial t)).
Proof. destruct t; reflexivity. Qed.

(** One change of the store keeps every key unique and issued. *)
Lemma wellFormed_effect (s s' : Store) :
  wellFormed s -> Effect s s' -> wellFormed s'.
Proof.
  intros (U & C & X) E.
  apply wellKeyed_eta in U, C, X.
  destruct E as [ | u | id a f | id | k v _ | k id set st r1 _ _ _ _ _
                | k id u r0 _ | k id | k id ];
    try destruct k; unfold wellFormed, afterInsert, afterUpdate, afterDelete;
    cbn [tableOf get put users caseRequests extensionRequests usersT
         caseRequestsT extensionRequestsT withId];
    repeat split;
    try (apply wellKeyed_eta; assumption);
    try (apply wellKeyed_insert; [reflexivity | assumption]);
    try (apply wellKeyed_update; [reflexivity | assumption]);
    try (apply wellKeyed_delete; assumption).
Qed.

(** One change of the store keeps every case request in the lifecycle. *)
Lemma caseStatusesValid_effect (s s' : Store) :
  caseStatusesValid s -> Effect s s' -> caseStatusesValid s'.
Proof.
  unfold caseStatusesValid. intros V E.
  destruct E as [ | u | id a f | id | k v S | k id set st r1 _ T St _ _
                | k id u r0 _ | k id | k id ];
    try destruct k; unfold afterInsert, afterUpdate, afterDelete;
    cbn [tableOf get put users caseRequests extensionRequests usersT
         caseRequestsT extensionRequestsT withId rows];
    try exact V.
  - apply Forall_app. split; [exact V|]. constructor; [|constructor].
    cbn [setRequestId Request.status].
    unfold caseStatuses.
    destruct (S eq_refl) as [-> | ->]; cbn [In];
      repeat (first [left; reflexivity | right]).
  - rewrite Forall_forall in *. intros r I.
    apply in_map_iff in I. destruct I as (r0 & <- & I).
    destruct (eqZ Request.id id r0); [|auto].
    cbn [RequestSet.apply Request.status]. rewrite St. cbn [RequestSet.orElse].
    unfold caseStatuses. cbn [In].
    destruct (allowed_requested _ _ _ T) as [-> | [-> | ->]];
      repeat (first [left; reflexivity | right]).
  - rewrite Forall_forall in *. intros r I.
    apply in_map_iff in I. destruct I as (x & <- & I).
    destruct (eqZ Request.id id x); [|auto]. apply (V x I).
  - rewrite Forall_forall in *. intros r I.
    apply in_map_iff in I. destruct I as (x & <- & I).
    destruct (eqZ Request.id id x); [|auto]. apply (V x I).
  - rewrite Forall_forall in *. intros r I. apply filter_In in I.
    now apply V.
Qed.

(** ** Records *)

Lemma find_app_some {R} (c : R -> bool) (l l' : list R) (r : R) :
  find c l = Some r -> find c (l ++ l') = Some r.
Proof.
  induction l as [|x l IH]; cbn [find app]; [discriminate|].
  destruct (c x); auto.
Qed.

Lemma find_app_none {R} (c : R -> bool) (l l' : list R) :
  find c l = None -> find c (l ++ l') = find c l'.
Proof.
  induction l as [|x l IH]; cbn [find app]; [reflexivity|].
  destruct (c x); [discriminate | auto].
Qed.

Lemma find_update_other (id id' : Z) (f : Request.t -> Request.t)
  (l : list Request.t) :
  (forall r, Request.id (f r) = Request.id r) ->
  id' <> id ->
  find (eqZ Request.id id')
    (map (fun r => if eqZ Request.id id r then f r else r) l)
  = find (eqZ Request.id id') l.
Proof.
  intros K N. induction l as [|x l IH]; cbn [map find]; [reflexivity|].
  destruct (eqZ Request.id id x) eqn:E.
  - unfold eqZ in *. rewrite K. apply Z.eqb_eq in E.
    destruct (Z.eqb_spec (Request.id x) id'); [lia | exact IH].
  - destruct (eqZ Request.id id' x); [reflexivity | exact IH].
Qed.

Lemma find_delete_same (id : Z) (l : list Request.t) :
  find (eqZ Request.id id)
    (filter (fun r => negb (eqZ Request.id id r)) l) = None.
Proof.
  induction l as [|x l IH]; cbn [filter find]; [reflexivity|].
  destruct (eqZ Request.id id x) eqn:E; cbn [negb find]; [exact IH|].
  now rewrite E.
Qed.

Lemma find_delete_other (id id' : Z) (l : list Request.t) :
  id' <> id ->
  find (eqZ Request.id id')
    (filter (fun r => negb (eqZ Request.id id r)) l)
  = find (eqZ Request.id id') l.
Proof.
  intros N. induction l as [|x l IH]; cbn [filter find]; [reflexivity|].
  destruct (eqZ Request.id id x) eqn:E; cbn [negb find].
  - unfold eqZ in *. apply Z.eqb_eq in E.
    destruct (Z.eqb_spec (Request.id x) id'); [lia | exact IH].
  - destruct (eqZ Request.id id' x); [reflexivity | exact IH].
Qed.

Lemma extends_refl (l : list Z) : extends l l.
Proof. exists []. now rewrite app_nil_r. Qed.

Lemma extends_trans (a b c : list Z) : extends a b -> extends b c -> extends a c.
Proof.
  intros [m ->] [n ->]. exists (m ++ n)%list. now rewrite app_assoc.
Qed.

Lemma sameRecord_refl (r : Request.t) : sameRecord r r.
Proof. unfold sameRecord. repeat split; auto using extends_refl. Qed.

Lemma sameRecord_trans (a b c : Request.t) :
  sameRecord a b -> sameRecord b c -> sameRecord a c.
Proof.
  unfold sameRecord. intros H1 H2.
  repeat match goal with H : _ /\ _ |- _ => destruct H end.
  repeat split; try congruence; eauto using extends_trans.
Qed.

Lemma sameRecord_status (set : RequestSet.t) (r : Request.t) :
  RequestSet.hiddenBy set = None ->
  RequestSet.isArchived set = None ->
  sameRecord r (RequestSet.apply set r).
Proof.
  intros H A. unfold sameRecord.
  cbn [RequestSet.apply Request.id Request.userId Request.type
       Request.sadNumber Request.sadDate Request.declarantCompany
       Request.declarantName Request.documentHolder
       Request.documentHolderPhone Request.reason Request.corrections
       Request.isResubmission Request.originalRequestId Request.changes
       Request.createdAt Request.isArchived Request.hiddenBy].
  rewrite H, A. cbn [RequestSet.orElse RequestSet.orKeep].
  repeat split; auto using extends_refl.
Qed.

Lemma sameRecord_hidden (userId : Z) (r : Request.t) :
  sameRecord r
    (RequestSet.apply
       (hiddenBySet (RequestSet.orElse (Request.hiddenBy r) [] ++ [userId])) r).
Proof.
  unfold sameRecord. repeat split; try reflexivity; auto.
  cbn. now exists [userId].
Qed.

Lemma sameRecord_archived (r : Request.t) :
  sameRecord r (RequestSet.apply archivedSet r).
Proof.
  unfold sameRecord. repeat split; try reflexivity.
  cbn [RequestSet.apply archivedSet Request.hiddenBy RequestSet.hiddenBy
       RequestSet.orKeep]. apply extends_refl.
Qed.

Lemma follows_refl (k : Kind) (a : string) : follows k a a.
Proof. apply rt_refl. Qed.

Lemma unchanged_record (k : Kind) (r : Request.t) :
  sameRecord r r /\ follows k (Request.status r) (Request.status r).
Proof. split; [apply sameRecord_refl | apply follows_refl]. Qed.

Lemma tableStep_refl (k : Kind) (s : Store) : tableStep k s s.
Proof.
  unfold tableStep. split; [lia|]. split; [|auto].
  intros id r E. right. exists r. split; [exact E | apply unchanged_record].
Qed.

(** A table another table's change leaves alone. *)
Lemma tableStep_same (k : Kind) (s s' : Store) :
  rowsOf k s' = rowsOf k s -> serialOf k s' = serialOf k s ->
  tableStep k s s'.
Proof.
  intros R S. unfold tableStep, resolve. rewrite R, S.
  split; [lia|]. split; [|auto].
  intros id r E. right. exists r. split; [exact E | apply unchanged_record].
Qed.

Lemma tableStep_insert (k : Kind) (v : Request.t) (s : Store) :
  tableStep k s (afterInsert (tableOf k) v s).
Proof.
  unfold tableStep, resolve, rowsOf, serialOf, afterInsert.
  destruct k;
    cbn [tableOf get put caseRequests extensionRequests caseRequestsT
         extensionRequestsT rows serial withId];
    (split; [lia|]); (split; [intros id r E | intros id L E]).
  1,3: right; exists r; split;
       [now apply find_app_some | apply unchanged_record].
  1,2: rewrite (find_app_none _ _ _ E); cbn [find];
       unfold eqZ; cbn [setRequestId Request.id];
       match goal with |- context [?a =? ?b] => destruct (Z.eqb_spec a b) end;
       [lia | reflexivity].
Qed.

Lemma find_update_none {R} (c : R -> bool) (f : R -> R) (l : list R) :
  (forall r, c (f r) = c r) ->
  find c l = None ->
  find c (map (fun r => if c r then f r else r) l) = None.
Proof.
  intros K. induction l as [|x l IH]; cbn [map find]; [reflexivity|].
  destruct (c x) eqn:E; [discriminate|]. now rewrite E.
Qed.

Lemma find_update (id0 id : Z) (f : Request.t -> Request.t)
  (l : list Request.t) :
  (forall r, Request.id (f r) = Request.id r) ->
  find (eqZ Request.id id)
    (map (fun r => if eqZ Request.id id0 r then f r else r) l)
  = if Z.eqb id id0 then option_map f (find (eqZ Request.id id0) l)
    else find (eqZ Request.id id) l.
Proof.
  intros K.
  assert (C : forall r, eqZ Request.id id0 (f r) = eqZ Request.id id0 r)
    by (intros r; unfold eqZ; now rewrite K).
  destruct (Z.eqb_spec id id0) as [->|N].
  - destruct (find (eqZ Request.id id0) l) as [r|] eqn:F; cbn [option_map].
    + now apply find_map_update.
    + now apply find_update_none.
  - now apply find_update_other.
Qed.

Lemma tableStep_update (k : Kind) (id0 : Z) (f : Request.t -> Request.t)
  (s : Store) :
  (forall r, Request.id (f r) = Request.id r) ->
  (forall r, resolve k id0 s = Some r ->
             sameRecord r (f r)
             /\ follows k (Request.status r) (Request.status (f r))) ->
  tableStep k s (afterUpdate (tableOf k) f (eqZ Request.id id0) s).
Proof.
  intros K P.
  unfold tableStep, resolve, rowsOf, serialOf, afterUpdate in *.
  destruct k;
    cbn [tableOf get put caseRequests extensionRequests caseRequestsT
         extensionRequestsT rows serial] in *;
    (split; [lia|]); (split; [intros id r E | intros id L E]);
    rewrite (@find_update id0 id f _ K);
    (destruct (Z.eqb_spec id id0) as [->|N];
     [rewrite E; cbn [option_map] | ]); eauto.
  all: right; exists r; split; [exact E | apply unchanged_record].
Qed.

Lemma tableStep_delete (k : Kind) (id0 : Z) (s : Store) :
  tableStep k s (afterDelete (tableOf k) (eqZ Request.id id0) s).
Proof.
  unfold tableStep, resolve, rowsOf, serialOf, afterDelete.
  destruct k;
    cbn [tableOf get put caseRequests extensionRequests caseRequestsT
         extensionRequestsT rows serial];
    (split; [lia|]); (split; [intros id r E | intros id L E]);
    (destruct (Z.eq_dec id id0) as [->|N];
     [rewrite find_delete_same | rewrite find_delete_other by exact N]);
    auto.
  all: right; exists r; split; [exact E | apply unchanged_record].
Qed.

Lemma tableStep_effect (k : Kind) (s s' : Store) :
  Effect s s' -> tableStep k s s'.
Proof.
  intros E.
  destruct E as [ | u | id a f | id | k0 v _ | k0 id set st r1 F T St H A
                | k0 id u r0 F | k0 id | k0 id ].
  - apply tableStep_refl.
  - apply tableStep_same; destruct k; reflexivity.
  - apply tableStep_same; destruct k; reflexivity.
  - apply tableStep_same; destruct k; reflexivity.
  - destruct k, k0; try apply tableStep_insert;
      apply tableStep_same; reflexivity.
  - destruct k, k0;
      try (apply tableStep_update; [reflexivity|];
           unfold resolve, rowsOf; intros r E; rewrite F in E;
           inversion E; subst;
           split; [now apply sameRecord_status|];
           cbn [RequestSet.apply Request.status]; rewrite St;
           cbn [RequestSet.orElse]; now apply rt_step);
      apply tableStep_same; reflexivity.
  - destruct k, k0;
      try (apply tableStep_update; [reflexivity|];
           unfold resolve, rowsOf; intros r E; rewrite F in E;
           inversion E; subst;
           split; [apply sameRecord_hidden | apply follows_refl]);
      apply tableStep_same; reflexivity.
  - destruct k, k0;
      try (apply tableStep_update; [reflexivity|]; intros;
           split; [apply sameRecord_archived | apply follows_refl]);
      apply tableStep_same; reflexivity.
  - destruct k, k0; try apply tableStep_delete;
      apply tableStep_same; reflexivity.
Qed.

Lemma resolve_issued (k : Kind) (id : Z) (s : Store) (r : Request.t) :
  wellFormed s -> resolve k id s = Some r -> id < serialOf k s.
Proof.
  intros (_ & C & X) E. unfold resolve, rowsOf, serialOf in *.
  apply find_some in E. destruct E as [I E]. unfold eqZ in E.
  apply Z.eqb_eq in E. subst id.
  destruct k; cbn [tableOf get caseRequests extensionRequests] in *;
    [destruct C as [_ F] | destruct X as [_ F]];
    rewrite Forall_forall in F; now apply F.
Qed.

Lemma tableStep_trans (k : Kind) (a b c : Store) :
  wellFormed a -> tableStep k a b -> tableStep k b c -> tableStep k a c.
Proof.
  intros W (S1 & R1 & N1) (S2 & R2 & N2). unfold tableStep.
  split; [lia|]. split.
  - intros id r E. pose proof (resolve_issued _ _ W E) as L.
    destruct (R1 id r E) as [G | (r1 & E1 & Q1 & P1)].
    + left. apply N2; [lia | exact G].
    + destruct (R2 id r1 E1) as [G | (r2 & E2 & Q2 & P2)]; [now left|].
      right. exists r2. split; [exact E2|]. split.
      * eapply sameRecord_trans; eauto.
      * eapply rt_trans; eauto.
  - intros id L E. apply N2; [lia|]. now apply N1.
Qed.

Lemma performAll_cons (c : Call) (cs : list Call) (w : World) :
  performAll (c :: cs) w = performAll cs (perform c w).
Proof. reflexivity. Qed.

Lemma performAll_wellFormed (cs : list Call) (w : World) :
  wellFormed (store w) -> wellFormed (store (performAll cs w)).
Proof.
  revert w. induction cs as [|c cs IH]; intros w W; [exact W|].
  rewrite performAll_cons. apply IH.
  eapply wellFormed_effect; [exact W | apply perform_effect].
Qed.

Lemma performAll_tableStep (k : Kind) (cs : list Call) (w : World) :
  wellFormed (store w) -> tableStep k (store w) (store (performAll cs w)).
Proof.
  revert w. induction cs as [|c cs IH]; intros w W;
    [apply tableStep_refl|].
  rewrite performAll_cons.
  pose proof (perform_effect c w) as E.
  apply tableStep_trans with (b := store (perform c w));
    [exact W | now apply tableStep_effect |].
  apply IH. eapply wellFormed_effect; eauto.
Qed.

(** ** The calls under a store that serves them *)

Lemma calm_twice (w : World) (s s' : Store) :
  calm w -> calm (settled (settled w s) s').
Proof. auto with calm. Qed.

Lemma stored_resolve (k : Kind) (id : Z) (w : World) :
  stored k id w = resolve k id (store w).
Proof. reflexivity. Qed.

Lemma hide_served (k : Kind) (id userId : Z) (w : World) (r0 : Request.t) :
  calm w ->
  stored k id w = Some r0 ->
  hide k id userId w
  = (Ok tt,
     settled (settled w (store w))
       (afterUpdate (tableOf k)
          (RequestSet.apply
             (hiddenBySet
                (RequestSet.orElse (Request.hiddenBy r0) [] ++ [userId])))
          (eqZ Request.id id) (store w))).
Proof.
  intros C S.
  destruct k; unfold hide, hideUserCaseRequest, hideUserExtensionRequest,
    stored, requests, tableOf in *;
    unfold bind at 1, select;
    rewrite (call_calm _ C); cbn [fst snd];
    rewrite evalSelect_where, first_filter, S;
    unfold update, update_returning, bind;
    (rewrite call_calm by auto with calm);
    cbn [fst snd store settled]; rows_updated; reflexivity.
Qed.

Lemma archive_served (k : Kind) (id : Z) (w : World) :
  calm w ->
  archive k id w
  = (Ok tt,
     settled w (afterUpdate (tableOf k) (RequestSet.apply archivedSet)
                  (eqZ Request.id id) (store w))).
Proof.
  intros C.
  destruct k; unfold archive, archiveCaseRequest, archiveExtensionRequest,
    update, update_returning, bind;
    rewrite (call_calm _ C);
    cbn [fst snd store settled]; rows_updated; reflexivity.
Qed.

Lemma remove_served (k : Kind) (id : Z) (w : World) :
  calm w ->
  remove k id w
  = (Ok tt, settled w (afterDelete (tableOf k) (eqZ Request.id id) (store w))).
Proof.
  intros C.
  destruct k; unfold remove, deleteCaseRequest, deleteExtensionRequest, delete;
    rewrite (call_calm _ C); reflexivity.
Qed.

Lemma resolve_afterUpdate (k : Kind) (id0 id : Z) (f : Request.t -> Request.t)
  (s : Store) :
  (forall r, Request.id (f r) = Request.id r) ->
  resolve k id (afterUpdate (tableOf k) f (eqZ Request.id id0) s)
  = if Z.eqb id id0 then option_map f (resolve k id0 s) else resolve k id s.
Proof.
  intros K. unfold resolve, rowsOf, afterUpdate.
  destruct k;
    cbn [tableOf get put caseRequests extensionRequests caseRequestsT
         extensionRequestsT rows];
    now apply find_update.
Qed.

Lemma resolve_afterDelete (k : Kind) (id0 id : Z) (s : Store) :
  resolve k id (afterDelete (tableOf k) (eqZ Request.id id0) s)
  = if Z.eqb id id0 then None else resolve k id s.
Proof.
  unfold resolve, rowsOf, afterDelete.
  destruct k;
    cbn [tableOf get put caseRequests extensionRequests caseRequestsT
         extensionRequestsT rows];
    (destruct (Z.eqb_spec id id0) as [->|N];
     [apply find_delete_same | now apply find_delete_other]).
Qed.

(** X1: [hide] on a record that exists succeeds and appends the user id to
    the record's [hiddenBy] (an absent list counts as empty); status,
    archive flag and every other record of the table stay as they were. *)
Theorem hide_appends_user (k : Kind) (id userId : Z) (w : World)
  (r0 : Request.t) :
  calm w ->
  stored k id w = Some r0 ->
  exists r w',
    hide k id userId w = (Ok tt, w')
    /\ stored k id w' = Some r
    /\ Request.hiddenBy r
       = Some (RequestSet.orElse (Request.hiddenBy r0) [] ++ [userId])%list
    /\ Request.status r = Request.status r0
    /\ Request.isArchived r = Request.isArchived r0
    /\ sameRecord r0 r
    /\ (forall id', id' <> id -> stored k id' w' = stored k id' w).
Proof.
  intros C S. eexists. eexists.
  split; [exact (hide_served k id userId C S)|].
  rewrite !stored_resolve in *. cbn [store settled].
  split; [|split; [|split; [|split; [|split]]]].
  - rewrite resolve_afterUpdate by reflexivity.
    rewrite Z.eqb_refl, S. reflexivity.
  - reflexivity.
  - reflexivity.
  - reflexivity.
  - apply sameRecord_hidden.
  - intros id' N. rewrite !stored_resolve. cbn [store settled].
    rewrite resolve_afterUpdate by reflexivity.
    now destruct (Z.eqb_spec id' id).
Qed.

(** X2: hiding the same record twice for the same user leaves the user id
    in [hiddenBy] twice. *)
Theorem hide_twice_duplicates (k : Kind) (id userId : Z) (w : World)
  (r0 : Request.t) :
  calm w ->
  stored k id w = Some r0 ->
  exists w1 w2 r,
    hide k id userId w = (Ok tt, w1)
    /\ hide k id userId w1 = (Ok tt, w2)
    /\ stored k id w2 = Some r
    /\ Request.hiddenBy r
       = Some (RequestSet.orElse (Request.hiddenBy r0) []
               ++ [userId; userId])%list.
Proof.
  intros C S.
  pose proof (hide_served k id userId C S) as H1.
  set (w1 := snd (hide k id userId w)).
  assert (C1 : calm w1) by (unfold w1; rewrite H1; cbn [snd]; auto with calm).
  assert (S1 : stored k id w1
               = Some (RequestSet.apply
                   (hiddenBySet
                      (RequestSet.orElse (Request.hiddenBy r0) [] ++ [userId]))
                   r0)).
  { unfold w1. rewrite H1, stored_resolve. cbn [snd store settled].
    rewrite resolve_afterUpdate by reflexivity.
    rewrite stored_resolve in S. now rewrite Z.eqb_refl, S. }
  pose proof (hide_served k id userId C1 S1) as H2.
  exists w1. eexists. eexists.
  split; [unfold w1; rewrite H1; reflexivity|].
  split; [exact H2|].
  rewrite stored_resolve. cbn [store settled].
  rewrite resolve_afterUpdate by reflexivity.
  rewrite <- stored_resolve, Z.eqb_refl, S1. cbn [option_map].
  split; [reflexivity|].
  cbn [RequestSet.apply hiddenBySet Request.hiddenBy RequestSet.hiddenBy
       RequestSet.orKeep RequestSet.orElse].
  now rewrite <- app_assoc.
Qed.

Lemma in_sorted_iff {R} (o : R -> R -> bool) (l : list R) (r : R) :
  In r (sortBy o l) <-> In r l.
Proof.
  split; intros I.
  - eapply Permutation_in; [apply Permutation_sym, sortBy_perm | exact I].
  - eapply Permutation_in; [apply sortBy_perm | exact I].
Qed.

(** What [getAll] answers, as a list. *)
Lemma getAll_list (k : Kind) (w : World) :
  calm w ->
  getAll k w
  = (Ok (sortBy (desc Request.createdAt)
           (filter (eqB Request.isArchived false) (requests k w))),
     settled w (store w)).
Proof.
  intros C. pose proof (calm_nextFault C) as F.
  destruct k; unfold getAll, getAllCaseRequests, getAllExtensionRequests,
    select, call; rewrite F; reflexivity.
Qed.

(** X3: [archive] succeeds whatever the status of the record, keeps the
    record with [isArchived = true], and from then on [getAll] and the
    by-user query list exactly the other records that are not archived. *)
Theorem archive_removes_from_lists (k : Kind) (id : Z) (w : World) :
  calm w ->
  exists w' l,
    archive k id w = (Ok tt, w')
    /\ (forall r0, stored k id w = Some r0 ->
          exists r, stored k id w' = Some r
                    /\ Request.isArchived r = true
                    /\ Request.status r = Request.status r0)
    /\ fst (getAll k w') = Ok l
    /\ (forall userId, fst (getByUser k userId w') = Ok l)
    /\ (forall r, In r l <->
          In r (requests k w)
          /\ Request.id r <> id
          /\ Request.isArchived r = false).
Proof.
  intros C. eexists. eexists.
  split; [exact (archive_served k id C)|].
  set (w' := settled w _).
  assert (C' : calm w') by (unfold w'; auto with calm).
  split.
  { intros r0 S. rewrite stored_resolve in *. unfold w'. cbn [store settled].
    rewrite resolve_afterUpdate by reflexivity.
    rewrite Z.eqb_refl, S. eexists. split; [reflexivity|]. split; reflexivity. }
  split; [rewrite (getAll_list k C'); reflexivity|].
  split.
  { intros u. rewrite (@getByUser_is_getAll k u w' (calm_nextFault C')).
    rewrite (getAll_list k C'). reflexivity. }
  intros r. rewrite in_sorted_iff, filter_In.
  assert (E : requests k w'
              = map (fun r => if eqZ Request.id id r
                              then RequestSet.apply archivedSet r else r)
                  (requests k w))
    by (destruct k; reflexivity).
  unfold w' in E. rewrite E, in_map_iff. unfold eqB. split.
  - intros [(x & Ex & I) A]. apply Bool.eqb_prop in A.
    destruct (eqZ Request.id id x) eqn:Q; subst r; [discriminate|].
    unfold eqZ in Q. apply Z.eqb_neq in Q. auto.
  - intros (I & N & A). split.
    + exists r. split; [|exact I]. unfold eqZ.
      now destruct (Z.eqb_spec (Request.id r) id).
    + rewrite A. reflexivity.
Qed.

(** X4: [delete] succeeds and removes the record for good: the id no
    longer resolves, the lookup answers absent, and every other record
    of the table is as it was. *)
Theorem delete_then_absent (k : Kind) (id : Z) (w : World) :
  calm w ->
  exists w',
    remove k id w = (Ok tt, w')
    /\ stored k id w' = None
    /\ fst (getById k id w') = Ok None
    /\ (forall id', id' <> id -> stored k id' w' = stored k id' w)
    /\ (forall r, In r (requests k w') <->
          In r (requests k w) /\ Request.id r <> id).
Proof.
  intros C. eexists. split; [exact (remove_served k id C)|].
  set (w' := settled w _).
  assert (C' : calm w') by (unfold w'; auto with calm).
  assert (S : stored k id w' = None).
  { rewrite stored_resolve. unfold w'. cbn [store settled].
    now rewrite resolve_afterDelete, Z.eqb_refl. }
  split; [exact S|].
  split; [rewrite (@getById_served k id w' (calm_nextFault C')), S; reflexivity|].
  split.
  - intros id' N. rewrite !stored_resolve. unfold w'. cbn [store settled].
    rewrite resolve_afterDelete. now destruct (Z.eqb_spec id' id).
  - intros r. unfold w'.
    assert (E : requests k (settled w (afterDelete (tableOf k)
                  (eqZ Request.id id) (store w)))
                = filter (fun r => negb (eqZ Request.id id r)) (requests k w))
      by (destruct k; reflexivity).
    rewrite E, filter_In. unfold eqZ.
    destruct (Z.eqb_spec (Request.id r) id); cbn [negb]; intuition congruence.
Qed.

(** ** Creating and reading back *)

Lemma fresh_unresolved (k : Kind) (s : Store) :
  wellFormed s -> resolve k (serialOf k s) s = None.
Proof.
  intros W. destruct (resolve k (serialOf k s) s) as [r|] eqn:E;
    [|reflexivity].
  pose proof (resolve_issued _ _ W E). lia.
Qed.

Lemma createCaseRequest_served (request : InsertCaseRequest.t) (w : World) :
  calm w ->
  exists r w',
    createCaseRequest request w = (Ok (Some r), w')
    /\ calm w'
    /\ requests CaseKind w' = (requests CaseKind w ++ [r])%list
    /\ Request.id r = serialOf CaseKind (store w)
    /\ Request.userId r = InsertCaseRequest.userId request
    /\ (forall f, In f fieldsToCompare ->
          originalField r f = textColumn (requestField request f))
    /\ Request.corrections r
       = jsonbColumn (jsonb w) (InsertCaseRequest.corrections request)
    /\ Request.changes r = changesOrNull (changesOf request w).
Proof.
  intros C. destruct (createCaseRequest_row request C) as (w' & E & C' & R).
  eexists. exists w'. split; [exact E|]. split; [exact C'|].
  split; [exact R|]. split; [reflexivity|]. split; [reflexivity|].
  split; [|split; reflexivity].
  intros f I. cbn [fieldsToCompare In] in I.
  repeat (destruct I as [<-|I]; [reflexivity|]). contradiction.
Qed.

Lemma createExtensionRequest_served (request : InsertExtensionRequest.t)
  (w : World) :
  calm w ->
  exists r w',
    createExtensionRequest request w = (Ok (Some r), w')
    /\ calm w'
    /\ requests ExtensionKind w' = (requests ExtensionKind w ++ [r])%list
    /\ Request.id r = serialOf ExtensionKind (store w)
    /\ r = setRequestId (serialOf ExtensionKind (store w))
             (extensionRequestValues request (clock w)).
Proof.
  intros C.
  assert (Ct : calm (ticked w)) by auto with calm.
  unfold createExtensionRequest, bind, newDate, insert_returning, ret.
  rewrite (call_calm _ Ct); cbv beta iota; cbn [fst snd first hd_error].
  do 2 eexists; (split; [reflexivity|]).
  (split; [auto with calm|]).
  repeat split; reflexivity.
Qed.

Lemma stored_after_append (k : Kind) (w w' : World) (r : Request.t) :
  wellFormed (store w) ->
  requests k w' = (requests k w ++ [r])%list ->
  Request.id r = serialOf k (store w) ->
  stored k (Request.id r) w' = Some r
  /\ (forall id r0, stored k id w = Some r0 -> stored k id w' = Some r0).
Proof.
  intros W R I. unfold stored. rewrite R. split.
  - pose proof (fresh_unresolved k W) as F. unfold resolve, rowsOf in F.
    rewrite I. unfold requests.
    rewrite (find_app_none _ _ _ F). cbn [find]. unfold eqZ.
    now rewrite I, Z.eqb_refl.
  - intros id r0 E. now apply find_app_some.
Qed.

(** X5: a request that has just been created can be read back by its id,
    for both kinds.  It carries the owner and the payload: each payload
    column holds the property of the payload, with [null] for a property
    the payload lacks, and the corrections are what the jsonb type of the
    store gives back for those of the payload; an extension request has
    the status of its payload.  The records that were there before still
    resolve as before. *)
Theorem create_then_get (w : World) :
  calm w ->
  wellFormed (store w) ->
  (forall request : InsertCaseRequest.t,
     exists r w',
       createCaseRequest request w = (Ok (Some r), w')
       /\ fst (getCaseRequest (Request.id r) w') = Ok (Some r)
       /\ Request.userId r = InsertCaseRequest.userId request
       /\ (forall f, In f fieldsToCompare ->
             originalField r f = textColumn (requestField request f))
       /\ Request.corrections r
          = jsonbColumn (jsonb w) (InsertCaseRequest.corrections request)
       /\ (forall id r0, stored CaseKind id w = Some r0 ->
                         stored CaseKind id w' = Some r0))
  /\ (forall request : InsertExtensionRequest.t,
     exists r w',
       createExtensionRequest request w = (Ok (Some r), w')
       /\ fst (getExtensionRequest (Request.id r) w') = Ok (Some r)
       /\ Request.userId r = InsertExtensionRequest.userId request
       /\ Request.status r = InsertExtensionRequest.status request
       /\ Request.sadNumber r
          = textColumn (InsertExtensionRequest.sadNumber request)
       /\ Request.sadDate r
          = textColumn (InsertExtensionRequest.sadDate request)
       /\ Request.declarantCompany r
          = textColumn (InsertExtensionRequest.declarantCompany request)
       /\ Request.declarantName r
          = textColumn (InsertExtensionRequest.declarantName request)
       /\ Request.documentHolder r
          = textColumn (InsertExtensionRequest.documentHolder request)
       /\ Request.documentHolderPhone r
          = textColumn (InsertExtensionRequest.documentHolderPhone request)
       /\ Request.reason r
          = textColumn (InsertExtensionRequest.reason request)
       /\ (forall id r0, stored ExtensionKind id w = Some r0 ->
                         stored ExtensionKind id w' = Some r0)).
Proof.
  intros C W. split; intros request.
  - destruct (createCaseRequest_served request C)
      as (r & w' & E & C' & R & I & U & F & Co & _).
    destruct (@stored_after_append CaseKind w w' r W R I) as [S O].
    exists r, w'. split; [exact E|].
    split.
    { change (getCaseRequest (Request.id r) w')
        with (getById CaseKind (Request.id r) w').
      rewrite (@getById_served CaseKind _ w' (calm_nextFault C')), S.
      reflexivity. }
    auto 10.
  - destruct (createExtensionRequest_served request C)
      as (r & w' & E & C' & R & I & V).
    destruct (@stored_after_append ExtensionKind w w' r W R I) as [S O].
    exists r, w'. split; [exact E|].
    split.
    { change (getExtensionRequest (Request.id r) w')
        with (getById ExtensionKind (Request.id r) w').
      rewrite (@getById_served ExtensionKind _ w' (calm_nextFault C')), S.
      reflexivity. }
    clear - V O. subst r.
    repeat (split; [reflexivity|]). exact O.
Qed.



(** A payload without [documentHolderPhone], resubmitted as it is: the
    stored original has NULL there, which is not [undefined]. *)
Example resubmission_without_a_property :
  exists a w1 b w2,
    createCaseRequest Scenario.sparse Sample.world0 = (Ok (Some a), w1)
    /\ Request.documentHolderPhone a = Js.null
    /\ createCaseRequest (resubmit Scenario.sparse (Request.id a)) w1
       = (Ok (Some b), w2)
    /\ Request.changes b
       = Some [Change.mk "documentHolderPhone" "null" (Some "undefined")].
Proof. do 4 eexists. evaluate. Qed.

(** A payload without corrections, resubmitted as it is: the serialized
    form of the stored NULL is text, that of the missing property is
    [undefined]. *)
Example resubmission_without_corrections :
  exists a w1 b w2,
    createCaseRequest Scenario.bare Sample.world0 = (Ok (Some a), w1)
    /\ Request.corrections a = Js.JNull
    /\ createCaseRequest (resubmit Scenario.bare (Request.id a)) w1
       = (Ok (Some b), w2)
    /\ Request.changes b = Some [Change.mk "corrections" "null" None].
Proof. do 4 eexists. evaluate. Qed.

(** ** An update of the status, in full *)

Lemma updateStatus_served (k : Kind) (id : Z) (status : string)
  (feedback : option string) (w : World) (r0 : Request.t) :
  calm w ->
  stored k id w = Some r0 ->
  allowed k (Request.status r0) status = true ->
  exists set w1,
    RequestSet.adminFeedback set = feedback
    /\ RequestSet.hiddenBy set = None
    /\ RequestSet.isArchived set = None
    /\ updateStatus k id status feedback w
       = (Ok (RequestSet.apply set r0),
          settled w1 (afterUpdate (tableOf k) (RequestSet.apply set)
                        (eqZ Request.id id) (store w))).
Proof.
  intros C S A.
  destruct (statusSet_shape status feedback (settled w (store w)))
    as (set & E1 & E2 & E3 & _ & Sf & Sh & Sa).
  destruct (statusSet status feedback (settled w (store w))) as [o w1] eqn:E.
  cbn [fst snd] in E1, E2, E3. subst o.
  assert (C1 : calm w1).
  { unfold calm. rewrite E3. apply (calm_settled (store w) C). }
  exists set, w1. split; [exact Sf|]. split; [exact Sh|]. split; [exact Sa|].
  open_update k.
  all: rewrite (call_calm _ C); cbv beta iota; cbn [fst snd].
  all: rewrite evalSelect_one, S.
  all: rewrite (checkTransition_allowed _ _ _ A); unfold ret at 1; cbv beta iota.
  all: rewrite E; unfold update_returning.
  all: rewrite (call_calm _ C1); cbv beta iota.
  all: cbn [get put caseRequests extensionRequests] in *.
  all: rewrite E2; cbn [store settled].
  all: rows_updated.
  all: cbn [fst snd]; rewrite first_map_filter_find, S; cbn [option_map].
  all: reflexivity.
Qed.

(** X7: an allowed status update changes one record and nothing else: the
    record returned is the record stored under the id; it keeps its
    identity, owner, payload, change list, hiddenBy and
    archive flag; [adminFeedback] becomes the feedback passed, or stays
    what it was when none is passed; every other record of the table, the
    table of the other kind and the users are as they were. *)
Theorem updateStatus_touches_one_record (k : Kind) (id : Z) (status : string)
  (feedback : option string) (w : World) (r0 : Request.t) :
  calm w ->
  stored k id w = Some r0 ->
  allowed k (Request.status r0) status = true ->
  exists r w',
    updateStatus k id status feedback w = (Ok r, w')
    /\ stored k id w' = Some r
    /\ Request.adminFeedback r
       = match feedback with
         | Some f => Some f
         | None => Request.adminFeedback r0
         end
    /\ sameRecord r0 r
    /\ Request.hiddenBy r = Request.hiddenBy r0
    /\ Request.isArchived r = Request.isArchived r0
    /\ (forall id', id' <> id -> stored k id' w' = stored k id' w)
    /\ (forall k', k' <> k -> requests k' w' = requests k' w)
    /\ rows (usersT (store w')) = rows (usersT (store w)).
Proof.
  intros C S A.
  destruct (@updateStatus_served k id status feedback w r0 C S A)
    as (set & w1 & Sf & Sh & Sa & U).
  eexists. eexists. split; [exact U|].
  split.
  { rewrite stored_resolve. cbn [store settled].
    rewrite resolve_afterUpdate by reflexivity.
    rewrite Z.eqb_refl, <- stored_resolve, S. reflexivity. }
  split.
  { cbn [RequestSet.apply Request.adminFeedback]. rewrite Sf.
    now destruct feedback. }
  split; [now apply sameRecord_status|].
  split.
  { cbn [RequestSet.apply Request.hiddenBy]. now rewrite Sh. }
  split.
  { cbn [RequestSet.apply Request.isArchived]. now rewrite Sa. }
  split.
  { intros id' N. rewrite !stored_resolve. cbn [store settled].
    rewrite resolve_afterUpdate by reflexivity.
    now destruct (Z.eqb_spec id' id). }
  split.
  { intros k' N. destruct k, k'; try congruence; reflexivity. }
  destruct k; reflexivity.
Qed.

(** ** Invariants over any sequence of calls *)

(** X8: whatever calls are made, and whichever of them the store rejects,
    the keys of every table stay unique and below the next serial value:
    a created record never takes the key of another, stored or removed. *)
Theorem keys_stay_unique (cs : list Call) (w : World) :
  wellFormed (store w) ->
  wellFormed (store (performAll cs w)).
Proof. apply performAll_wellFormed. Qed.

(** X9: whatever calls are made, every stored case request keeps a status
    among submitted, pending, rejected, complete and resubmitted. *)
Theorem case_statuses_stay_valid (cs : list Call) (w : World) :
  caseStatusesValid (store w) ->
  caseStatusesValid (store (performAll cs w)).
Proof.
  revert w. induction cs as [|c cs IH]; intros w V; [exact V|].
  rewrite performAll_cons. apply IH.
  eapply caseStatusesValid_effect; [exact V | apply perform_effect].
Qed.

(** X10: whatever calls are made, a stored request that still resolves is
    the same record: same key, owner, payload, resubmission link, change
    list and creation time; once archived it is still archived, and its
    hiddenBy list has only grown. *)
Theorem stored_request_keeps_its_record (k : Kind) (id : Z) (cs : list Call)
  (w : World) (r r' : Request.t) :
  wellFormed (store w) ->
  stored k id w = Some r ->
  stored k id (performAll cs w) = Some r' ->
  sameRecord r r'.
Proof.
  intros W S S'.
  destruct (@performAll_tableStep k cs w W) as (_ & R & _).
  rewrite stored_resolve in *.
  destruct (R id r S) as [G | (r1 & E & Q & _)]; [congruence|].
  rewrite E in S'. now inversion S'; subst.
Qed.

(** X11: whatever calls are made, the status of a stored request that
    still resolves is its old status or is reached from it along
    transitions of the table of section 4.1. *)
Theorem status_follows_the_table (k : Kind) (id : Z) (cs : list Call)
  (w : World) (r r' : Request.t) :
  wellFormed (store w) ->
  stored k id w = Some r ->
  stored k id (performAll cs w) = Some r' ->
  follows k (Request.status r) (Request.status r').
Proof.
  intros W S S'.
  destruct (@performAll_tableStep k cs w W) as (_ & R & _).
  rewrite stored_resolve in *.
  destruct (R id r S) as [G | (r1 & E & _ & P)]; [congruence|].
  rewrite E in S'. now inversion S'; subst.
Qed.

Lemma follows_stuck (k : Kind) (a b : string) :
  (forall x, allowed k a x = false) -> follows k a b -> b = a.
Proof.
  intros N P. apply clos_rt_rt1n in P.
  destruct P as [|y z A _]; [reflexivity|].
  rewrite N in A. discriminate.
Qed.

(** X12: a status without outgoing transitions is final: whatever calls
    are made, a request whose status is "rejected" or "complete" (or, for
    an extension request, any status other than "submitted" and
    "pending") has that status for as long as it resolves. *)
Theorem terminal_status_is_final (k : Kind) (id : Z) (cs : list Call)
  (w : World) (r r' : Request.t) :
  wellFormed (store w) ->
  stored k id w = Some r ->
  (forall x, allowed k (Request.status r) x = false) ->
  stored k id (performAll cs w) = Some r' ->
  Request.status r' = Request.status r.
Proof.
  intros W S N S'. apply (@follows_stuck k); [exact N|].
  destruct (@performAll_tableStep k cs w W) as (_ & R & _).
  rewrite stored_resolve in *.
  destruct (R id r S) as [G | (r1 & E & _ & P)]; [congruence|].
  rewrite E in S'. now inversion S'; subst.
Qed.

(** X13: once a request has been deleted its id never resolves again,
    whatever calls follow: later creations do not reuse it. *)
Theorem deleted_request_never_returns (k : Kind) (id : Z) (cs : list Call)
  (w : World) (r : Request.t) :
  calm w ->
  wellFormed (store w) ->
  stored k id w = Some r ->
  stored k id (performAll cs (perform (Delete k id) w)) = None.
Proof.
  intros C W S.
  pose proof (perform_effect (Delete k id) w) as E.
  pose proof (wellFormed_effect W E) as W1.
  destruct (@performAll_tableStep k cs (perform (Delete k id) w) W1) as (_ & _ & N).
  rewrite stored_resolve in *. apply N.
  - destruct (@tableStep_effect k _ _ E) as (L & _ & _).
    pose proof (@resolve_issued k id _ r W S). lia.
  - cbn [perform]. rewrite (remove_served k id C). cbn [snd store settled].
    now rewrite resolve_afterDelete, Z.eqb_refl.
Qed.

(** ** Users *)

Lemma createUser_served (p : InsertUser.t) (w : World) :
  calm w ->
  exists u w',
    createUser p w = (Ok (Some u), w')
    /\ calm w'
    /\ rows (usersT (store w')) = (rows (usersT (store w)) ++ [u])%list
    /\ User.id u = serial (usersT (store w))
    /\ User.username u = InsertUser.username p
    /\ User.email u = InsertUser.email p
    /\ User.password u = InsertUser.password p
    /\ User.isAdmin u = Nat.eqb (List.length (rows (usersT (store w)))) 0
    /\ User.isApproved u = Nat.eqb (List.length (rows (usersT (store w)))) 0
    /\ (forall k, requests k w' = requests k w).
Proof.
  intros C.
  unfold createUser, select, insert_returning, bind, newDate, ret.
  rewrite (call_calm _ C); cbv beta iota; cbn [fst snd].
  rewrite call_calm by auto with calm. cbv beta iota; cbn [fst snd first hd_error].
  do 2 eexists. split; [reflexivity|]. split; [auto with calm|].
  repeat split; try reflexivity. intros k; destruct k; reflexivity.
Qed.

Lemma judge_served (id : Z) (approved : bool) (feedback : option string)
  (w : World) :
  calm w ->
  (l <- update_returning users
          (UserSet.apply (approvalSet approved feedback)) (eqZ User.id id);;
   ret (first l)) w
  = (Ok (option_map (UserSet.apply (approvalSet approved feedback))
           (find (eqZ User.id id) (rows (usersT (store w))))),
     settled w (afterUpdate users
                  (UserSet.apply (approvalSet approved feedback))
                  (eqZ User.id id) (store w))).
Proof.
  intros C. unfold bind, update_returning, ret.
  rewrite (call_calm _ C). cbv beta iota. cbn [get users].
  rows_updated. cbn [fst snd]. now rewrite first_map_filter_find.
Qed.

Lemma users_afterUpdate (id id' : Z) (f : User.t -> User.t) (s : Store) :
  (forall u, User.id (f u) = User.id u) ->
  find (eqZ User.id id') (rows (usersT (afterUpdate users f (eqZ User.id id) s)))
  = if Z.eqb id' id then option_map f (find (eqZ User.id id) (rows (usersT s)))
    else find (eqZ User.id id') (rows (usersT s)).
Proof.
  intros K. cbn [afterUpdate users get put usersT rows].
  assert (Kc : forall i u, eqZ User.id i (f u) = eqZ User.id i u)
    by (intros i u; unfold eqZ; now rewrite K).
  destruct (Z.eqb_spec id' id) as [->|N].
  - destruct (find (eqZ User.id id) (rows (usersT s))) as [u|] eqn:F;
      cbn [option_map].
    + now apply find_map_update.
    + now apply find_update_none.
  - induction (rows (usersT s)) as [|x l IH]; cbn [map find]; [reflexivity|].
    destruct (eqZ User.id id x) eqn:E.
    + rewrite Kc. unfold eqZ in *. apply Z.eqb_eq in E.
      destruct (Z.eqb_spec (User.id x) id'); [lia | exact IH].
    + destruct (eqZ User.id id' x); [reflexivity | exact IH].
Qed.

(** X14: approving a user that exists sets [isApproved]; rejecting one
    clears it and stores the feedback.  Either way the account stays,
    with its name, e-mail, password and admin flag as they were, and
    [getUser] returns the updated user. *)
Theorem approve_and_reject_keep_the_account (id : Z) (w : World)
  (u0 : User.t) :
  calm w ->
  find (eqZ User.id id) (rows (usersT (store w))) = Some u0 ->
  (exists u w',
     approveUser id w = (Ok (Some u), w')
     /\ User.isApproved u = true
     /\ User.approvalFeedback u = User.approvalFeedback u0
     /\ User.isAdmin u = User.isAdmin u0
     /\ (User.username u, User.email u, User.password u)
        = (User.username u0, User.email u0, User.password u0)
     /\ fst (getUser id w') = Ok (Some u)
     /\ List.length (rows (usersT (store w')))
        = List.length (rows (usersT (store w))))
  /\ (forall feedback,
      exists u w',
        rejectUser id feedback w = (Ok (Some u), w')
        /\ User.isApproved u = false
        /\ User.approvalFeedback u = Some feedback
        /\ User.isAdmin u = User.isAdmin u0
        /\ (User.username u, User.email u, User.password u)
           = (User.username u0, User.email u0, User.password u0)
        /\ fst (getUser id w') = Ok (Some u)
        /\ List.length (rows (usersT (store w')))
           = List.length (rows (usersT (store w)))).
Proof.
  intros C F.
  assert (G : forall approved feedback,
             exists u w',
               (l <- update_returning users
                       (UserSet.apply (approvalSet approved feedback))
                       (eqZ User.id id);; ret (first l)) w
               = (Ok (Some u), w')
               /\ u = UserSet.apply (approvalSet approved feedback) u0
               /\ fst (getUser id w') = Ok (Some u)
               /\ List.length (rows (usersT (store w')))
                  = List.length (rows (usersT (store w)))).
  { intros approved feedback. eexists. eexists.
    split; [rewrite (judge_served id approved feedback C), F; reflexivity|].
    split; [reflexivity|].
    set (w' := settled w _).
    assert (C' : calm w') by (unfold w'; auto with calm).
    split.
    - rewrite (@getUser_served id w' (calm_nextFault C')). unfold w'.
      cbn [fst store settled].
      rewrite users_afterUpdate by reflexivity.
      now rewrite Z.eqb_refl, F.
    - unfold w'. cbn [store settled afterUpdate users get put usersT rows].
      apply length_map. }
  split.
  - destruct (G true None) as (u & w' & E & -> & Gu & L).
    exists (UserSet.apply (approvalSet true None) u0), w'.
    split; [exact E|]. repeat split; auto.
  - intros feedback.
    destruct (G false (Some feedback)) as (u & w' & E & -> & Gu & L).
    exists (UserSet.apply (approvalSet false (Some feedback)) u0), w'.
    split; [exact E|]. repeat split; auto.
Qed.

(** X15: approving, rejecting or removing a user id that does not exist
    is not an error: the call answers without a user and the store is as
    it was. *)
Theorem judging_a_missing_user_is_silent (id : Z) (w : World) :
  calm w ->
  find (eqZ User.id id) (rows (usersT (store w))) = None ->
  approveUser id w = (Ok None, settled w (store w))
  /\ (forall feedback,
        rejectUser id feedback w = (Ok None, settled w (store w)))
  /\ removeUser id w = (Ok tt, settled w (store w)).
Proof.
  intros C F.
  assert (P : forall s, mkStore (mkTable (rows (usersT s)) (serial (usersT s)))
                          (caseRequestsT s) (extensionRequestsT s) = s)
    by (intros [[u us] c e]; reflexivity).
  assert (G : forall approved feedback,
             (l <- update_returning users
                     (UserSet.apply (approvalSet approved feedback))
                     (eqZ User.id id);; ret (first l)) w
             = (Ok None, settled w (store w))).
  { intros approved feedback. unfold bind, update_returning, ret.
    rewrite (call_calm _ C). cbv beta iota. cbn [get put users].
    rewrite (@updateRows_none _ _ _ _ F). cbn [fst snd first hd_error].
    now rewrite P. }
  split; [exact (G true None)|].
  split; [intros feedback; exact (G false (Some feedback))|].
  unfold removeUser, delete. rewrite (call_calm _ C).
  cbn [fst snd get put users].
  rewrite (@filter_negb_none _ _ _ F). now rewrite P.
Qed.

Lemma filter_partition {R} (c : R -> bool) (l : list R) :
  Permutation (filter (fun r => negb (c r)) l ++ filter c l) l.
Proof.
  induction l as [|x l IH]; cbn [filter]; [constructor|].
  destruct (c x); cbn [negb app].
  - apply Permutation_sym. apply Permutation_cons_app.
    now apply Permutation_sym.
  - now constructor.
Qed.

(** X16: the pending and the approved users split the users table: the
    pending list holds the users with [isApproved = false], each once and
    in no stated order, the approved list the others, newest registration
    first. *)
Theorem pending_and_approved_split_the_users (w : World) :
  calm w ->
  exists pending approved,
    fst (getPendingUsers w) = Ok pending
    /\ fst (getApprovedUsers w) = Ok approved
    /\ Permutation pending
         (filter (fun u => negb (User.isApproved u))
            (rows (usersT (store w))))
    /\ (forall u, In u approved <->
          In u (rows (usersT (store w))) /\ User.isApproved u = true)
    /\ StronglySorted
         (fun a b => User.registrationDate b <= User.registrationDate a)
         approved
    /\ Permutation (pending ++ approved) (rows (usersT (store w))).
Proof.
  intros C. pose proof (calm_nextFault C) as F.
  assert (Ep : forall l : list User.t,
             filter (eqB User.isApproved false) l
             = filter (fun u => negb (User.isApproved u)) l).
  { intros l. apply filter_ext. intros u. unfold eqB.
    now destruct (User.isApproved u). }
  assert (Ea : forall l : list User.t,
             filter (eqB User.isApproved true) l = filter User.isApproved l).
  { intros l. apply filter_ext. intros u. unfold eqB.
    now destruct (User.isApproved u). }
  eexists. eexists.
  split; [unfold getPendingUsers, select, call; rewrite F; reflexivity|].
  split; [unfold getApprovedUsers, select, call; rewrite F; reflexivity|].
  unfold evalSelect.
  cbn [whereC orderC limitC table where_ orderBy select_from get users fst].
  rewrite Ep, Ea.
  split; [apply Permutation_refl|]. split; [|split].
  - intros u. rewrite in_sorted_iff, filter_In. tauto.
  - apply sortBy_sorted.
  - etransitivity; [|apply (filter_partition User.isApproved)].
    apply Permutation_app_head, Permutation_sym, sortBy_perm.
Qed.

(** X17: removing a user removes the row and nothing else: the id no
    longer resolves, the other users and every request, those of the
    removed user included, stay; and once no user is left the next
    registrant is made admin and approved again. *)
Theorem removeUser_removes_only_the_user (id : Z) (w : World) :
  calm w ->
  exists w',
    removeUser id w = (Ok tt, w')
    /\ fst (getUser id w') = Ok None
    /\ (forall u, In u (rows (usersT (store w'))) <->
          In u (rows (usersT (store w))) /\ User.id u <> id)
    /\ (forall k, requests k w' = requests k w)
    /\ ((forall u, In u (rows (usersT (store w))) -> User.id u = id) ->
        forall p, exists u w'',
          createUser p w' = (Ok (Some u), w'')
          /\ User.isAdmin u = true /\ User.isApproved u = true).
Proof.
  intros C. eexists.
  split; [unfold removeUser, delete; rewrite (call_calm _ C); reflexivity|].
  cbn [fst snd get put users].
  set (w' := settled w _).
  assert (C' : calm w') by (unfold w'; auto with calm).
  assert (R : rows (usersT (store w'))
              = filter (fun u => negb (eqZ User.id id u))
                  (rows (usersT (store w)))) by reflexivity.
  assert (M : forall u, In u (rows (usersT (store w'))) <->
                In u (rows (usersT (store w))) /\ User.id u <> id).
  { intros u. rewrite R, filter_In. unfold eqZ.
    destruct (Z.eqb_spec (User.id u) id); cbn [negb]; intuition congruence. }
  split.
  { rewrite (@getUser_served id w' (calm_nextFault C')). cbn [fst].
    destruct (find (eqZ User.id id) (rows (usersT (store w')))) as [u|] eqn:F;
      [|reflexivity].
    apply find_some in F. destruct F as [I E]. apply M in I.
    unfold eqZ in E. apply Z.eqb_eq in E. tauto. }
  split; [exact M|].
  split; [intros k; destruct k; reflexivity|].
  intros A p.
  destruct (createUser_served p C')
    as (u & w'' & E & _ & _ & _ & _ & _ & _ & Ad & Ap & _).
  assert (N : rows (usersT (store w')) = []).
  { destruct (rows (usersT (store w'))) as [|x l] eqn:Q; [reflexivity|].
    assert (I : In x (x :: l)) by now left.
    apply M in I. destruct I as [I D]. now apply A in I. }
  rewrite N in Ad, Ap. exists u, w''. auto.
Qed.

Lemma find_absent {R} (c : R -> bool) (l : list R) :
  (forall x, In x l -> c x = false) -> find c l = None.
Proof.
  induction l as [|x l IH]; cbn [find]; [reflexivity|]. intros H.
  rewrite (H x (or_introl eq_refl)). apply IH. intros y I. apply H. now right.
Qed.

(** What a lookup by a text column answers on a table with a matching
    row: a row of the table that matches. *)
Lemma first_match {R} (c : R -> bool) (l : list R) (u : R) :
  In u l -> c u = true ->
  exists v, find c l = Some v /\ In v l /\ c v = true.
Proof.
  intros I Cu. destruct (find c l) as [v|] eqn:Q.
  - exists v. apply find_some in Q. tauto.
  - rewrite (find_none _ _ Q u I) in Cu. discriminate.
Qed.

(** X18: a user that has just been created can be read back by id.  The
    lookups by username and by e-mail with the values of the payload
    answer a stored user with that username or e-mail, and answer the new
    user when no earlier user has it. *)
Theorem createUser_then_lookups (p : InsertUser.t) (w : World) :
  calm w ->
  wellFormed (store w) ->
  exists u w',
    createUser p w = (Ok (Some u), w')
    /\ (User.username u, User.email u, User.password u)
       = (InsertUser.username p, InsertUser.email p, InsertUser.password p)
    /\ fst (getUser (User.id u) w') = Ok (Some u)
    /\ (exists v,
          fst (getUserByUsername (InsertUser.username p) w') = Ok (Some v)
          /\ In v (rows (usersT (store w')))
          /\ User.username v = InsertUser.username p)
    /\ ((forall x, In x (rows (usersT (store w))) ->
            User.username x <> InsertUser.username p) ->
        fst (getUserByUsername (InsertUser.username p) w') = Ok (Some u))
    /\ (exists v,
          fst (getUserByEmail (InsertUser.email p) w') = Ok (Some v)
          /\ In v (rows (usersT (store w')))
          /\ User.email v = InsertUser.email p)
    /\ ((forall x, In x (rows (usersT (store w))) ->
            User.email x <> InsertUser.email p) ->
        fst (getUserByEmail (InsertUser.email p) w') = Ok (Some u)).
Proof.
  intros C W.
  destruct (createUser_served p C)
    as (u & w' & E & C' & R & I & Un & Em & Pw & _).
  pose proof (calm_nextFault C') as F.
  assert (Iu : In u (rows (usersT (store w')))).
  { rewrite R. apply in_or_app. right. now left. }
  assert (Lu : forall s : string,
             fst (getUserByUsername s w')
             = Ok (find (eqS User.username s) (rows (usersT (store w'))))).
  { intros s. unfold getUserByUsername, tryCatch, bind, select, call, ret.
    rewrite F. cbn [fst snd]. now rewrite evalSelect_where, first_filter. }
  assert (Le : forall s : string,
             fst (getUserByEmail s w')
             = Ok (find (eqS User.email s) (rows (usersT (store w'))))).
  { intros s. unfold getUserByEmail, tryCatch, bind, select, call, ret.
    rewrite F. cbn [fst snd]. now rewrite evalSelect_where, first_filter. }
  assert (Fresh : forall (col : User.t -> string) (s : string),
             col u = s ->
             (forall x, In x (rows (usersT (store w))) -> col x <> s) ->
             find (eqS col s) (rows (usersT (store w'))) = Some u).
  { intros col s Cu H. rewrite R.
    rewrite find_app_none.
    - cbn [find]. unfold eqS. now rewrite Cu, String.eqb_refl.
    - apply find_absent. intros x Ix. unfold eqS.
      apply String.eqb_neq. now apply H. }
  exists u, w'. split; [exact E|].
  split; [now rewrite Un, Em, Pw|].
  split.
  { rewrite (@getUser_served (User.id u) w' F). cbn [fst]. rewrite R.
    assert (N : find (eqZ User.id (User.id u)) (rows (usersT (store w))) = None).
    { destruct (find _ (rows (usersT (store w)))) as [x|] eqn:Q; [|reflexivity].
      apply find_some in Q. destruct Q as [Ix Ex].
      unfold eqZ in Ex. apply Z.eqb_eq in Ex.
      destruct W as ((_ & Fa) & _). rewrite Forall_forall in Fa.
      specialize (Fa x Ix). lia. }
    rewrite (find_app_none _ _ _ N). cbn [find]. unfold eqZ.
    now rewrite Z.eqb_refl. }
  split; [|split; [|split]].
  - destruct (@first_match _ (eqS User.username (InsertUser.username p))
                (rows (usersT (store w'))) u Iu) as (v & Q & Iv & Cv).
    { unfold eqS. now rewrite Un, String.eqb_refl. }
    exists v. rewrite Lu, Q. split; [reflexivity|]. split; [exact Iv|].
    unfold eqS in Cv. now apply String.eqb_eq.
  - intros H. rewrite Lu. now rewrite (Fresh User.username _ Un H).
  - destruct (@first_match _ (eqS User.email (InsertUser.email p))
                (rows (usersT (store w'))) u Iu) as (v & Q & Iv & Cv).
    { unfold eqS. now rewrite Em, String.eqb_refl. }
    exists v. rewrite Le, Q. split; [reflexivity|]. split; [exact Iv|].
    unfold eqS in Cv. now apply String.eqb_eq.
  - intros H. rewrite Le. now rewrite (Fresh User.email _ Em H).
Qed.

(** ** Credential materialization *)

Section Credentials.
Import Storage.
Variable base64ToUtf8 : string -> string.

(** X19: when the initialization rejects, neither flag was set, the
    environment is as it was and no file has been written; the cause is
    the missing or empty credential blob, reported as such with nothing
    else done, or the failed write of the credentials file, rethrown. *)
Theorem initializeStorage_rejects_cleanly (p p' : Process) (error : Js.Exn) :
  initializeStorage base64ToUtf8 p = (Throw error, p') ->
  isTrue (USE_LOCAL_STORAGE (env p)) = false
  /\ isTrue (FALLBACK_TO_LOCAL (env p)) = false
  /\ env p' = env p
  /\ (forall path content,
        In (WriteFile path content) (trace p') ->
        In (WriteFile path content) (trace p))
  /\ ((falsy (GOOGLE_APPLICATION_CREDENTIALS_JSON (env p)) = true
       /\ error = Js.Error
            "GOOGLE_APPLICATION_CREDENTIALS_JSON environment variable is not set"
       /\ p' = p)
      \/ (falsy (GOOGLE_APPLICATION_CREDENTIALS_JSON (env p)) = false
          /\ writeFails p = Some error)).
Proof.
  unfold initializeStorage, setupGoogleCloudCredentials.
  destruct (isTrue (USE_LOCAL_STORAGE (env p))); [discriminate|].
  destruct (falsy (GOOGLE_APPLICATION_CREDENTIALS_JSON (env p))).
  - destruct (isTrue (FALLBACK_TO_LOCAL (env p))); [discriminate|].
    intros E; inversion E; subst. repeat split; auto.
  - cbn [writeFails emit]. destruct (writeFails p) as [e|]; [|discriminate].
    cbn [env emit]. destruct (isTrue (FALLBACK_TO_LOCAL (env p)));
      [discriminate|].
    intros E; inversion E; subst. cbn [env trace].
    repeat split; auto.
    intros path content I.
    apply in_app_or in I. destruct I as [I|[I|[]]]; [|discriminate].
    apply in_app_or in I. destruct I as [I|[I|[]]]; [exact I | discriminate].
Qed.

(** X20: when the credential materialization succeeds, the blob was set
    and not empty; it has been decoded once and written once, to the
    path the call returns; GOOGLE_APPLICATION_CREDENTIALS is that path
    and GOOGLE_CLOUD_CREDENTIALS the text written; the flags and the blob
    are untouched. *)
Theorem credentials_file_matches_environment (p p' : Process)
  (path : string) :
  setupGoogleCloudCredentials base64ToUtf8 p = (Ok path, p') ->
  exists blob,
    GOOGLE_APPLICATION_CREDENTIALS_JSON (env p) = Some blob
    /\ blob <> EmptyString
    /\ trace p'
       = (trace p ++ [DecodeBase64 blob; WriteFile path (base64ToUtf8 blob)])%list
    /\ GOOGLE_APPLICATION_CREDENTIALS (env p') = Some path
    /\ GOOGLE_CLOUD_CREDENTIALS (env p') = Some (base64ToUtf8 blob)
    /\ USE_LOCAL_STORAGE (env p') = USE_LOCAL_STORAGE (env p)
    /\ FALLBACK_TO_LOCAL (env p') = FALLBACK_TO_LOCAL (env p)
    /\ GOOGLE_APPLICATION_CREDENTIALS_JSON (env p')
       = GOOGLE_APPLICATION_CREDENTIALS_JSON (env p).
Proof.
  unfold setupGoogleCloudCredentials.
  destruct (GOOGLE_APPLICATION_CREDENTIALS_JSON (env p)) as [blob|] eqn:B;
    cbn [falsy]; [|discriminate].
  destruct (String.eqb_spec blob EmptyString) as [->|N]; [discriminate|].
  cbn [writeFails emit]. destruct (writeFails p); [discriminate|].
  intros E; inversion E; subst. exists blob.
  cbn [env trace emit cwd GOOGLE_APPLICATION_CREDENTIALS
       GOOGLE_CLOUD_CREDENTIALS USE_LOCAL_STORAGE FALLBACK_TO_LOCAL
       GOOGLE_APPLICATION_CREDENTIALS_JSON].
  rewrite <- app_assoc. repeat split; auto.
Qed.

End Credentials.

(** ** Rejections and reads *)

Lemma writesNothing_ret {A} (a : A) : writesNothing (ret a).
Proof. intros w. reflexivity. Qed.

Lemma writesNothing_throw {A} (e : Js.Exn) : writesNothing (@throw A e).
Proof. intros w. reflexivity. Qed.

Lemma writesNothing_newDate : writesNothing newDate.
Proof. intros w. reflexivity. Qed.

Lemma writesNothing_select {R} (q : Select R) : writesNothing (select q).
Proof.
  intros w. unfold select, call. destruct (nextFault w); reflexivity.
Qed.

Lemma writesNothing_bind {A B} (m : M A) (k : A -> M B) :
  writesNothing m -> (forall a, writesNothing (k a)) ->
  writesNothing (bind m k).
Proof.
  intros Hm Hk w. unfold bind. specialize (Hm w).
  destruct (m w) as [[a|e] w1]; cbn [snd] in *.
  - now rewrite Hk.
  - exact Hm.
Qed.

Lemma writesNothing_tryCatch {A} (body : M A) (handler : Js.Exn -> M A) :
  writesNothing body -> (forall e, writesNothing (handler e)) ->
  writesNothing (tryCatch body handler).
Proof.
  intros Hb Hh w. unfold tryCatch. specialize (Hb w).
  destruct (body w) as [[a|e] w1]; cbn [snd] in *.
  - exact Hb.
  - now rewrite Hh.
Qed.

Lemma writesNothing_checkTransition (t : list (string * list string))
  (current status : string) :
  writesNothing (checkTransition t current status).
Proof.
  unfold checkTransition.
  destruct (Js.getProp t current) as [arr| |];
    [destruct (Js.includes arr status)| |]; intros w; reflexivity.
Qed.

Lemma writesNothing_statusSet (status : string) (feedback : option string) :
  writesNothing (statusSet status feedback).
Proof.
  intros w. destruct (statusSet_shape status feedback w) as (set & _ & E & _).
  exact E.
Qed.

(** A round trip that the store rejects has written nothing. *)
Lemma allOrNothing_call {A} (run : Store -> A * Store) :
  allOrNothing (call run).
Proof.
  intros w e. unfold call.
  destruct (nextFault w); cbn [fst snd store settled];
    [reflexivity | discriminate].
Qed.

Lemma allOrNothing_cases {A} (m : M A) :
  (forall w, match m w with
             | (Throw _, w') => store w' = store w
             | (Ok _, _) => True
             end) ->
  allOrNothing m.
Proof.
  intros H w e. specialize (H w).
  destruct (m w) as [[a|e1] w1]; cbn [fst snd]; [discriminate|].
  intros _. exact H.
Qed.

Lemma allOrNothing_reads {A} (m : M A) : writesNothing m -> allOrNothing m.
Proof. intros H w e _. apply H. Qed.

(** Reads may come before the write. *)
Lemma allOrNothing_bind {A B} (m : M A) (k : A -> M B) :
  writesNothing m -> (forall a, allOrNothing (k a)) ->
  allOrNothing (bind m k).
Proof.
  intros Hm Hk w e. unfold bind. specialize (Hm w).
  destruct (m w) as [[a|e1] w1]; cbn [fst snd] in *.
  - intros T. rewrite (Hk a w1 e T). exact Hm.
  - intros _. exact Hm.
Qed.

(** Nothing that can fail comes after the write. *)
Lemma allOrNothing_then {A B} (m : M A) (f : A -> B) :
  allOrNothing m -> allOrNothing (bind m (fun a => ret (f a))).
Proof.
  intros Hm w e. unfold bind, ret. specialize (Hm w).
  destruct (m w) as [[a|e1] w1]; cbn [fst snd] in *.
  - discriminate.
  - intros T. apply (Hm e1). reflexivity.
Qed.

Lemma allOrNothing_tryCatch {A} (body : M A) (handler : Js.Exn -> M A) :
  allOrNothing body -> (forall e, writesNothing (handler e)) ->
  allOrNothing (tryCatch body handler).
Proof.
  intros Hb Hh w e. unfold tryCatch. specialize (Hb w).
  destruct (body w) as [[a|e1] w1]; cbn [fst snd] in *.
  - discriminate.
  - intros _. rewrite Hh. apply (Hb e1). reflexivity.
Qed.

Lemma allOrNothing_withJsonb {A} (m : (Js.Json -> Js.Json) -> M A) :
  (forall back, allOrNothing (m back)) -> allOrNothing (withJsonb m).
Proof. intros H w e. apply (H (jsonb w)). Qed.

Lemma allOrNothing_update {R} (t : TableRef R) (f : R -> R) (c : R -> bool) :
  allOrNothing (update t f c).
Proof.
  unfold update. apply (@allOrNothing_then _ _ _ (fun _ => tt)).
  apply allOrNothing_call.
Qed.

Lemma rethrow_writesNothing {A} (msg : string) (error : Js.Exn) :
  writesNothing
    (if Js.instanceofError error then @throw A error
     else throw (Js.Error msg)).
Proof. destruct (Js.instanceofError error); apply writesNothing_throw. Qed.

(** The row the status update has just read is the row it writes, so the
    check of the returned row after the write never fires. *)
Lemma updateStatus_allOrNothing (k : Kind) (id : Z) (status : string)
  (feedback : option string) :
  allOrNothing (updateStatus k id status feedback).
Proof.
  assert (G : forall (t : list (string * list string)) (msg : string),
             allOrNothing
               (tryCatch
                  (existingRequest <-
                     select (select_from (tableOf k)
                             |> where_ (eqZ Request.id id) |> limit 1);;
                   match existingRequest with
                   | [] => throw (Js.Error ("Request with ID "
                                  ++ Js.numToString id ++ " not found"))
                   | existing :: _ =>
                       _ <- checkTransition t (Request.status existing) status;;
                       set <- statusSet status feedback;;
                       l <- update_returning (tableOf k) (RequestSet.apply set)
                              (eqZ Request.id id);;
                       match first l with
                       | None => throw (Js.Error msg)
                       | Some request => ret request
                       end
                   end)
                  (fun error =>
                     if Js.instanceofError error then throw error
                     else throw (Js.Error msg)))).
  { intros t msg. apply allOrNothing_tryCatch;
      [|intros error; apply rethrow_writesNothing].
    apply allOrNothing_cases. intros w. unfold bind at 1, select, call.
    destruct (nextFault w) as [e0|]; [reflexivity|].
    cbn [fst snd]. rewrite evalSelect_one.
    destruct (find _ (rows (get (tableOf k) (store w))))
      as [existing|] eqn:Fe; [|reflexivity].
    unfold bind at 1.
    pose proof (@writesNothing_checkTransition t (Request.status existing)
                  status (settled w (store w))) as C.
    destruct (checkTransition t (Request.status existing) status
                (settled w (store w))) as [[[]|e1] w1];
      cbn [fst snd store settled] in *; [|exact C].
    unfold bind at 1.
    pose proof (@writesNothing_statusSet status feedback w1) as S.
    destruct (statusSet status feedback w1) as [[set|e2] w2];
      cbn [fst snd] in *; [|congruence].
    unfold bind, update_returning, call.
    destruct (nextFault w2) as [e3|];
      cbn [fst snd store settled]; [congruence|].
    rewrite S, C.
    match goal with
    | |- context [updateRows ?c ?f ?l] =>
        pose proof (updateRows_fst c f l) as U1;
        destruct (updateRows c f l) as [ch l2]
    end; cbn [fst snd] in *; subst ch.
    rewrite first_map_filter_find, Fe. cbn [option_map].
    unfold ret. exact I. }
  destruct k; [apply (G caseTransitions "Failed to update case request")
              | apply (G extensionTransitions "Failed to update extension request")].
Qed.

Lemma hide_allOrNothing (k : Kind) (id userId : Z) :
  allOrNothing (hide k id userId).
Proof.
  destruct k; unfold hide, hideUserCaseRequest, hideUserExtensionRequest;
    (apply allOrNothing_bind; [apply writesNothing_select|]);
    intros l; destruct (first l);
    first [ apply allOrNothing_update
          | apply allOrNothing_reads, writesNothing_throw ].
Qed.

Lemma createCaseRequest_allOrNothing (request : InsertCaseRequest.t) :
  allOrNothing (createCaseRequest request).
Proof.
  unfold createCaseRequest.
  apply allOrNothing_bind; [apply writesNothing_newDate|]. intros now.
  apply allOrNothing_bind.
  - destruct (truthy _); [|apply writesNothing_ret].
    apply writesNothing_bind; [apply writesNothing_select|].
    intros [|original l]; apply writesNothing_ret.
  - intros changes. apply (@allOrNothing_then _ _ _ (@first Request.t)).
    apply allOrNothing_withJsonb. intros back. apply allOrNothing_call.
Qed.

Lemma createUser_allOrNothing (p : InsertUser.t) :
  allOrNothing (createUser p).
Proof.
  unfold createUser.
  apply allOrNothing_bind; [apply writesNothing_select|]. intros existing.
  apply allOrNothing_bind; [apply writesNothing_newDate|]. intros now.
  apply (@allOrNothing_then _ _ _ (@first User.t)).
  apply allOrNothing_call.
Qed.

(** X21: a call that rejects has written nothing, whatever makes it
    reject: a store that refuses a round trip, a request id that does not
    exist, or a transition that the table refuses.  No method writes and
    then fails. *)
Theorem rejected_call_writes_nothing (c : Call) (w : World) (e : Js.Exn) :
  rejection c w = Some e ->
  store (perform c w) = store w.
Proof.
  assert (T : forall A (m : M A),
             allOrNothing m -> thrown (fst (m w)) = Some e ->
             store (snd (m w)) = store w).
  { intros A m Hm H. destruct (fst (m w)) as [a|e1] eqn:F; [discriminate|].
    exact (Hm w e1 F). }
  destruct c; cbn [rejection perform]; apply T.
  - apply createUser_allOrNothing.
  - apply (@allOrNothing_then _ _ _ (@first User.t)), allOrNothing_call.
  - apply (@allOrNothing_then _ _ _ (@first User.t)), allOrNothing_call.
  - apply allOrNothing_call.
  - apply createCaseRequest_allOrNothing.
  - unfold createExtensionRequest.
    apply allOrNothing_bind; [apply writesNothing_newDate|]. intros now.
    apply (@allOrNothing_then _ _ _ (@first Request.t)), allOrNothing_call.
  - apply updateStatus_allOrNothing.
  - apply hide_allOrNothing.
  - destruct k; apply allOrNothing_update.
  - destruct k; apply allOrNothing_call.
Qed.

Lemma lookup_writesNothing {R} (q : Select R) :
  writesNothing
    (tryCatch (l <- select q;; ret (first l)) (fun error => ret None)).
Proof.
  apply writesNothing_tryCatch; [|intros error; apply writesNothing_ret].
  apply writesNothing_bind; [apply writesNothing_select|].
  intros l; apply writesNothing_ret.
Qed.

(** X22: the reading methods never write: whether the store serves the
    query or rejects it, and whether the method then answers, answers
    empty or rejects, the store is as it was. *)
Theorem queries_write_nothing (q : Query) (w : World) :
  store (ask q w) = store w.
Proof.
  destruct q; cbn [ask];
    try (destruct k; cbn [getById getByUser getAll]);
    first [ apply lookup_writesNothing
          | apply writesNothing_select
          | idtac ].
  unfold getCaseRequestsByUser.
  apply writesNothing_tryCatch; [|intros error; apply writesNothing_ret].
  apply writesNothing_bind; [apply writesNothing_select|].
  intros l; apply writesNothing_ret.
Qed.

(** ** The properties at the scenarios *)

Lemma hide_appends_user_witness :
  calm Sample.worldTwo
  /\ stored CaseKind 1 Sample.worldTwo = Some Sample.hiddenOf7
  /\ exists r w',
       hide CaseKind 1 9 Sample.worldTwo = (Ok tt, w')
       /\ stored CaseKind 1 w' = Some r
       /\ Request.hiddenBy r = Some [7; 9].
Proof.
  split; [reflexivity|]. split; [reflexivity|].
  destruct (@hide_appends_user CaseKind 1 9 Sample.worldTwo Sample.hiddenOf7
              eq_refl eq_refl) as (r & w' & H & S & B & _).
  exists r, w'. split; [exact H|]. split; [exact S | exact B].
Defined.

Lemma hide_twice_duplicates_witness :
  calm Sample.worldA
  /\ stored CaseKind 1 Sample.worldA = Some Sample.recordA
  /\ exists w1 w2 r,
       hide CaseKind 1 7 Sample.worldA = (Ok tt, w1)
       /\ hide CaseKind 1 7 w1 = (Ok tt, w2)
       /\ stored CaseKind 1 w2 = Some r
       /\ Request.hiddenBy r = Some [7; 7].
Proof.
  split; [reflexivity|]. split; [reflexivity|].
  exact (@hide_twice_duplicates CaseKind 1 7 Sample.worldA Sample.recordA
           eq_refl eq_refl).
Defined.

Lemma archive_removes_from_lists_witness :
  calm Sample.worldTwo
  /\ exists w' l,
       archive CaseKind 2 Sample.worldTwo = (Ok tt, w')
       /\ fst (getAll CaseKind w') = Ok l
       /\ forall r, In r l <->
            In r (requests CaseKind Sample.worldTwo)
            /\ Request.id r <> 2
            /\ Request.isArchived r = false.
Proof.
  split; [reflexivity|].
  destruct (@archive_removes_from_lists CaseKind 2 Sample.worldTwo eq_refl)
    as (w' & l & A & _ & G & _ & I).
  exists w', l. split; [exact A|]. split; [exact G | exact I].
Defined.

Lemma delete_then_absent_witness :
  calm Sample.worldTwo
  /\ exists w',
       remove ExtensionKind 1 Sample.worldTwo = (Ok tt, w')
       /\ stored ExtensionKind 1 w' = None
       /\ fst (getById ExtensionKind 1 w') = Ok None.
Proof.
  split; [reflexivity|].
  destruct (@delete_then_absent ExtensionKind 1 Sample.worldTwo eq_refl)
    as (w' & R & S & G & _).
  exists w'. split; [exact R|]. split; [exact S | exact G].
Defined.

Lemma create_then_get_witness :
  calm Sample.worldA
  /\ wellFormed (store Sample.worldA)
  /\ exists r w',
       createCaseRequest Sample.caseB Sample.worldA = (Ok (Some r), w')
       /\ fst (getCaseRequest (Request.id r) w') = Ok (Some r).
Proof.
  split; [reflexivity|].
  assert (W : wellFormed (store Sample.worldA)) by keyed.
  split; [exact W|].
  destruct (proj1 (@create_then_get Sample.worldA eq_refl W) Sample.caseB)
    as (r & w' & E & G & _).
  exists r, w'. split; [exact E | exact G].
Defined.


Lemma updateStatus_touches_one_record_witness :
  calm Sample.worldTwo
  /\ stored CaseKind 2 Sample.worldTwo = Some Sample.ownedBy8
  /\ allowed CaseKind (Request.status Sample.ownedBy8) "rejected" = true
  /\ exists r w',
       updateStatus CaseKind 2 "rejected" (Some "incomplete") Sample.worldTwo
       = (Ok r, w')
       /\ Request.adminFeedback r = Some "incomplete"
       /\ stored CaseKind 1 w' = stored CaseKind 1 Sample.worldTwo.
Proof.
  split; [reflexivity|]. split; [reflexivity|]. split; [reflexivity|].
  destruct (@updateStatus_touches_one_record CaseKind 2 "rejected"
              (Some "incomplete") Sample.worldTwo Sample.ownedBy8
              eq_refl eq_refl eq_refl)
    as (r & w' & U & _ & F & _ & _ & _ & O & _).
  exists r, w'. split; [exact U|]. split; [exact F|].
  apply O. lia.
Defined.

Lemma keys_stay_unique_witness :
  wellFormed (store Scenario.shaky)
  /\ wellFormed (store (performAll Scenario.calls Scenario.shaky)).
Proof.
  assert (W : wellFormed (store Scenario.shaky)) by keyed.
  split; [exact W|].
  exact (@keys_stay_unique Scenario.calls Scenario.shaky W).
Defined.

Lemma case_statuses_stay_valid_witness :
  caseStatusesValid (store Scenario.shaky)
  /\ caseStatusesValid (store (performAll Scenario.calls Scenario.shaky)).
Proof.
  assert (V : caseStatusesValid (store Scenario.shaky)) by statuses.
  split; [exact V|].
  exact (@case_statuses_stay_valid Scenario.calls Scenario.shaky V).
Defined.

Lemma stored_request_keeps_its_record_witness :
  wellFormed (store Scenario.office)
  /\ stored CaseKind 1 Scenario.office = Some Sample.hiddenOf7
  /\ exists r',
       stored CaseKind 1 (performAll Scenario.calls Scenario.office) = Some r'
       /\ Request.status r' = "pending"
       /\ sameRecord Sample.hiddenOf7 r'.
Proof.
  assert (W : wellFormed (store Scenario.office)) by keyed.
  split; [exact W|]. split; [reflexivity|].
  eexists. split; [lazy; reflexivity|]. split; [reflexivity|].
  apply (@stored_request_keeps_its_record CaseKind 1 Scenario.calls
           Scenario.office); [exact W | reflexivity | lazy; reflexivity].
Defined.

Lemma status_follows_the_table_witness :
  wellFormed (store Scenario.office)
  /\ stored CaseKind 1 Scenario.office = Some Sample.hiddenOf7
  /\ exists r',
       stored CaseKind 1 (performAll Scenario.calls Scenario.office) = Some r'
       /\ follows CaseKind "submitted" (Request.status r').
Proof.
  assert (W : wellFormed (store Scenario.office)) by keyed.
  split; [exact W|]. split; [reflexivity|].
  eexists. split; [lazy; reflexivity|].
  apply (@status_follows_the_table CaseKind 1 Scenario.calls
           Scenario.office Sample.hiddenOf7);
    [exact W | reflexivity | lazy; reflexivity].
Defined.

Lemma terminal_status_is_final_witness :
  wellFormed (store Scenario.closed)
  /\ stored CaseKind 3 Scenario.closed = Some Scenario.completed
  /\ (forall x, allowed CaseKind (Request.status Scenario.completed) x = false)
  /\ exists r',
       stored CaseKind 3 (performAll Scenario.reopen Scenario.closed) = Some r'
       /\ Request.status r' = "complete".
Proof.
  assert (W : wellFormed (store Scenario.closed)) by keyed.
  split; [exact W|]. split; [reflexivity|].
  assert (N : forall x,
             allowed CaseKind (Request.status Scenario.completed) x = false)
    by (intros x; reflexivity).
  split; [exact N|].
  eexists. split; [lazy; reflexivity|].
  apply (@terminal_status_is_final CaseKind 3 Scenario.reopen
           Scenario.closed Scenario.completed);
    [exact W | reflexivity | exact N | lazy; reflexivity].
Defined.

Lemma deleted_request_never_returns_witness :
  calm Scenario.office
  /\ wellFormed (store Scenario.office)
  /\ stored CaseKind 2 Scenario.office = Some Sample.ownedBy8
  /\ stored CaseKind 2
       (performAll Scenario.calls
          (perform (Delete CaseKind 2) Scenario.office)) = None.
Proof.
  split; [reflexivity|].
  assert (W : wellFormed (store Scenario.office)) by keyed.
  split; [exact W|]. split; [reflexivity|].
  exact (@deleted_request_never_returns CaseKind 2 Scenario.calls
           Scenario.office Sample.ownedBy8 eq_refl W eq_refl).
Defined.

Lemma approve_and_reject_keep_the_account_witness :
  calm Scenario.office
  /\ find (eqZ User.id 2) (rows (usersT (store Scenario.office)))
     = Some Scenario.newcomer
  /\ exists u w',
       approveUser 2 Scenario.office = (Ok (Some u), w')
       /\ User.isApproved u = true
       /\ User.isAdmin u = false.
Proof.
  split; [reflexivity|]. split; [reflexivity|].
  destruct (proj1 (@approve_and_reject_keep_the_account 2 Scenario.office
                     Scenario.newcomer eq_refl eq_refl))
    as (u & w' & A & P & _ & Ad & _).
  exists u, w'. split; [exact A|]. split; [exact P | exact Ad].
Defined.

Lemma judging_a_missing_user_is_silent_witness :
  calm Scenario.office
  /\ find (eqZ User.id 5) (rows (usersT (store Scenario.office))) = None
  /\ approveUser 5 Scenario.office
     = (Ok None, settled Scenario.office (store Scenario.office)).
Proof.
  split; [reflexivity|]. split; [reflexivity|].
  exact (proj1 (@judging_a_missing_user_is_silent 5 Scenario.office
                  eq_refl eq_refl)).
Defined.

Lemma pending_and_approved_split_the_users_witness :
  calm Scenario.office
  /\ exists pending approved,
       fst (getPendingUsers Scenario.office) = Ok pending
       /\ fst (getApprovedUsers Scenario.office) = Ok approved
       /\ Permutation (pending ++ approved)
            (rows (usersT (store Scenario.office))).
Proof.
  split; [reflexivity|].
  destruct (@pending_and_approved_split_the_users Scenario.office eq_refl)
    as (lp & la & P & A & _ & _ & _ & S).
  exists lp, la. split; [exact P|]. split; [exact A | exact S].
Defined.

Lemma removeUser_removes_only_the_user_witness :
  calm Scenario.office
  /\ exists w',
       removeUser 2 Scenario.office = (Ok tt, w')
       /\ fst (getUser 2 w') = Ok None
       /\ requests CaseKind w' = requests CaseKind Scenario.office.
Proof.
  split; [reflexivity|].
  destruct (@removeUser_removes_only_the_user 2 Scenario.office eq_refl)
    as (w' & R & G & _ & Q & _).
  exists w'. split; [exact R|]. split; [exact G | exact (Q CaseKind)].
Defined.

Lemma createUser_then_lookups_witness :
  calm Scenario.office
  /\ wellFormed (store Scenario.office)
  /\ (forall x, In x (rows (usersT (store Scenario.office))) ->
        User.username x <> InsertUser.username Sample.bob)
  /\ exists u w',
       createUser Sample.bob Scenario.office = (Ok (Some u), w')
       /\ fst (getUser (User.id u) w') = Ok (Some u)
       /\ fst (getUserByUsername "bob" w') = Ok (Some u).
Proof.
  split; [reflexivity|].
  assert (W : wellFormed (store Scenario.office)) by keyed.
  split; [exact W|].
  assert (N : forall x, In x (rows (usersT (store Scenario.office))) ->
                User.username x <> InsertUser.username Sample.bob).
  { intros x [<-|[<-|[]]]; discriminate. }
  split; [exact N|].
  destruct (@createUser_then_lookups Sample.bob Scenario.office eq_refl W)
    as (u & w' & E & _ & G & _ & L & _).
  exists u, w'. split; [exact E|]. split; [exact G | exact (L N)].
Defined.

Lemma initializeStorage_rejects_cleanly_witness :
  Storage.initializeStorage Scenario.decoder Scenario.readOnly
  = (Throw (Js.Error "EROFS: read-only file system"),
     snd (Storage.initializeStorage Scenario.decoder Scenario.readOnly))
  /\ Storage.env
       (snd (Storage.initializeStorage Scenario.decoder Scenario.readOnly))
     = Storage.env Scenario.readOnly.
Proof.
  assert (E : Storage.initializeStorage Scenario.decoder Scenario.readOnly
              = (Throw (Js.Error "EROFS: read-only file system"),
                 snd (Storage.initializeStorage Scenario.decoder
                        Scenario.readOnly))) by reflexivity.
  split; [exact E|].
  exact (proj1 (proj2 (proj2
           (@initializeStorage_rejects_cleanly Scenario.decoder
              Scenario.readOnly _ _ E)))).
Defined.

Lemma credentials_file_matches_environment_witness :
  Storage.setupGoogleCloudCredentials Scenario.decoder Scenario.cloudy
  = (Ok "/app/google-credentials.json",
     snd (Storage.setupGoogleCloudCredentials Scenario.decoder Scenario.cloudy))
  /\ exists blob,
       Storage.GOOGLE_APPLICATION_CREDENTIALS_JSON (Storage.env Scenario.cloudy)
       = Some blob
       /\ Storage.GOOGLE_CLOUD_CREDENTIALS
            (Storage.env
               (snd (Storage.setupGoogleCloudCredentials Scenario.decoder
                       Scenario.cloudy)))
          = Some (Scenario.decoder blob).
Proof.
  assert (E : Storage.setupGoogleCloudCredentials Scenario.decoder
                Scenario.cloudy
              = (Ok "/app/google-credentials.json",
                 snd (Storage.setupGoogleCloudCredentials Scenario.decoder
                        Scenario.cloudy))) by reflexivity.
  split; [exact E|].
  destruct (@credentials_file_matches_environment Scenario.decoder
              Scenario.cloudy _ _ E) as (blob & B & _ & _ & _ & G & _).
  exists blob. split; [exact B | exact G].
Defined.

(** A hide of a request id that is not stored. *)
Lemma rejected_call_writes_nothing_witness :
  rejection (Hide CaseKind 9 7) Scenario.office
    = Some (Js.Error "Request not found")
  /\ store (perform (Hide CaseKind 9 7) Scenario.office)
     = store Scenario.office.
Proof.
  split; [reflexivity|].
  apply (@rejected_call_writes_nothing (Hide CaseKind 9 7) Scenario.office
           (Js.Error "Request not found")).
  reflexivity.
Defined.
